(** * tunnels-to-bots: gateway, session manager and tunnel supervisor

    A shallow embedding of the server side of the repository, module by
    source file:

    - [SessionManager]  session-manager.js  (src/unnamed/part_002)
    - [MessageRouter]   message-router.js   (src/server/dist/message-router.js)
    - [BotRegistry]     bot-registry.js     (same file, second part)
    - [AuthService]     auth-service.ts     (src/server/src/services)
    - [Server]          server.js           (src/server/dist/types.d.ts,
                                             second part)
    - [SecureKey], [Secure]  server-secure.js  (src/server/src)
    - [TunnelManager]   tunnel-manager.js   (src/unnamed/part_000)

    Conventions.  JavaScript strings are [string]; a property that may be
    [undefined] is an [option].  Values the environment supplies
    ([Date.now()], [uuidv4()], child-process events) are explicit arguments
    of the embedded functions; one clock reading serves one handled event
    (the [start] of a tunnel, which sleeps in between, has two).
    A JavaScript [Map] whose iteration order the code relies on is an
    association list in insertion order ([JsMap]); the others are [gmap]s.
    A JavaScript [Set] of strings is a [gset string].  An [async] function
    without a suspension that matters runs as one step. *)

From stdpp Require Import gmap strings list fin_maps pretty.
From Stdlib Require Import ZArith Ascii String.

Set Warnings "-register-all,-clear-no-such-hyp".

Open Scope string_scope.
Open Scope list_scope.
Open Scope Z_scope.

(** ** JavaScript odds and ends *)

Module Js.

(** What a function yields: a value, or a thrown [Error] with its message
    (for an [async] function: a rejected promise). *)
Inductive result (A : Type) : Type :=
| Ok (a : A)
| Throw (msg : string).
Arguments Ok {A} a.
Arguments Throw {A} msg.

(** Truthiness of a string-valued property: [undefined] and [''] are
    falsy, every other string is truthy. *)
Definition truthy (v : option string) : bool :=
  match v with
  | Some s => bool_decide (s ≠ "")
  | None => false
  end.

(** [a || b] on string-valued properties. *)
Definition or_else (v : option string) (d : string) : string :=
  match v with
  | Some s => if bool_decide (s ≠ "") then s else d
  | None => d
  end.

End Js.

(** ** Insertion-ordered [Map] with string keys *)

Module JsMap.
Section ops.
Context {V : Type}.

Fixpoint get (k : string) (m : list (string * V)) : option V :=
  match m with
  | [] => None
  | (k', v) :: r => if decide (k' = k) then Some v else get k r
  end.

(** [Map.prototype.set]: an existing key keeps its position, a new key
    goes last. *)
Fixpoint set (k : string) (v : V) (m : list (string * V)) : list (string * V) :=
  match m with
  | [] => [(k, v)]
  | (k', v') :: r =>
      if decide (k' = k) then (k, v) :: r else (k', v') :: set k v r
  end.

Fixpoint delete (k : string) (m : list (string * V)) : list (string * V) :=
  match m with
  | [] => []
  | (k', v') :: r =>
      if decide (k' = k) then delete k r else (k', v') :: delete k r
  end.

Definition has (k : string) (m : list (string * V)) : bool :=
  bool_decide (is_Some (get k m)).

Definition keys (m : list (string * V)) : list string := m.*1.

End ops.
End JsMap.

(** ** Session manager (session-manager.js) *)

Module Session.
Record t := mk {
  id : string;
  userId : string;
  connectionIds : gset string;
  createdAt : Z;
  lastActivityAt : Z;
}.
End Session.

Module Task.
(** [dueDate] is kept as the string handed to [new Date(...)]. *)
Record t := mk {
  id : string;
  userId : string;
  botId : option string;
  title : option string;
  description : option string;
  priority : option string;
  status : string;
  createdAt : Z;
  dueDate : option string;
}.
End Task.

Module SessionManager.

Record t := mk {
  sessions : list (string * Session.t);
  userSessions : gmap string string;
  tasks : list (string * Task.t);
  userTasks : gmap string (gset string);
}.

Definition empty : t := mk [] ∅ [] ∅.

Definition with_sessions (st : t) (ss : list (string * Session.t))
    (us : gmap string string) : t :=
  mk ss us (tasks st) (userTasks st).

(** [createSession(connectionId, userId)].  [uuid] is what [uuidv4()]
    returns if it is called, [now] what [new Date()] reads.  When the
    index names a session the store does not hold, [existingSession] is
    [undefined] and the property access throws. *)
Definition createSession (connectionId userId uuid : string) (now : Z)
    (st : t) : Js.result (t * Session.t) :=
  let session := userSessions st !! userId in
  match session with
  | Some sid =>
      if Js.truthy session then
        match JsMap.get sid (sessions st) with
        | Some existingSession =>
            let existingSession' :=
              Session.mk (Session.id existingSession)
                (Session.userId existingSession)
                ({[connectionId]} ∪ Session.connectionIds existingSession)
                (Session.createdAt existingSession) now in
            Js.Ok (with_sessions st
                     (JsMap.set sid existingSession' (sessions st))
                     (userSessions st),
                   existingSession')
        | None =>
            Js.Throw "TypeError: Cannot read properties of undefined (reading 'connectionIds')"
        end
      else
        let session := Session.mk uuid userId {[connectionId]} now now in
        Js.Ok (with_sessions st (JsMap.set uuid session (sessions st))
                 (<[userId := uuid]> (userSessions st)),
               session)
  | None =>
      let session := Session.mk uuid userId {[connectionId]} now now in
      Js.Ok (with_sessions st (JsMap.set uuid session (sessions st))
               (<[userId := uuid]> (userSessions st)),
             session)
  end.

(** The [for ... of this.sessions] loop of [endSession] and
    [getSessionByConnection]: the first entry, in insertion order, whose
    [connectionIds] has the connection. *)
Fixpoint holder (connectionId : string) (ss : list (string * Session.t))
    : option (string * Session.t) :=
  match ss with
  | [] => None
  | (sessionId, session) :: rest =>
      if decide (connectionId ∈ Session.connectionIds session)
      then Some (sessionId, session)
      else holder connectionId rest
  end.

(** [endSession(connectionId)]: the loop returns after the first session
    that has the connection. *)
Definition endSession (connectionId : string) (st : t) : t :=
  match holder connectionId (sessions st) with
  | None => st
  | Some (sessionId, session) =>
      let remaining := Session.connectionIds session ∖ {[connectionId]} in
      if decide (size remaining = 0%nat) then
        with_sessions st (JsMap.delete sessionId (sessions st))
          (delete (Session.userId session) (userSessions st))
      else
        with_sessions st
          (JsMap.set sessionId
             (Session.mk (Session.id session) (Session.userId session)
                remaining (Session.createdAt session)
                (Session.lastActivityAt session))
             (sessions st))
          (userSessions st)
  end.

Definition getSessionByConnection (connectionId : string) (st : t)
    : option Session.t :=
  snd <$> holder connectionId (sessions st).

Definition getSessionByUser (userId : string) (st : t) : option Session.t :=
  let sessionId := userSessions st !! userId in
  match sessionId with
  | Some sid =>
      if Js.truthy sessionId then JsMap.get sid (sessions st) else None
  | None => None
  end.

Definition getActiveSessionCount (st : t) : nat := List.length (sessions st).

Definition getTotalConnectionCount (st : t) : nat :=
  foldl (λ count e, (count + size (Session.connectionIds e.2))%nat) 0%nat
    (sessions st).

(** The fields of [params] that [createTask] reads. *)
Record TaskParams := mkTaskParams {
  p_userId : string;
  p_botId : option string;
  p_title : option string;
  p_description : option string;
  p_priority : option string;
  p_dueDate : option string;
}.

(** [createTask(params)]; [taskId] is the [uuidv4()] of the call. *)
Definition createTask (params : TaskParams) (taskId : string) (now : Z)
    (st : t) : t * Task.t :=
  let dueDate :=
    if Js.truthy (p_dueDate params) then p_dueDate params else None in
  let task :=
    Task.mk taskId (p_userId params) (p_botId params) (p_title params)
      (p_description params) (p_priority params) "pending" now dueDate in
  let mine := default ∅ (userTasks st !! p_userId params) in
  (mk (sessions st) (userSessions st) (JsMap.set taskId task (tasks st))
      (<[p_userId params := {[taskId]} ∪ mine]> (userTasks st)),
   task).

(** A session with its [lastActivityAt] set anew, all else kept. *)
Definition touch (now : Z) (s : Session.t) : Session.t :=
  Session.mk (Session.id s) (Session.userId s) (Session.connectionIds s)
    (Session.createdAt s) now.

(** Sequences of calls. *)
Inductive op :=
| CreateSession (connectionId userId uuid : string) (now : Z)
| EndSession (connectionId : string).

Definition step (o : op) (st : t) : Js.result t :=
  match o with
  | CreateSession c u uuid now =>
      match createSession c u uuid now st with
      | Js.Ok (st', _) => Js.Ok st'
      | Js.Throw e => Js.Throw e
      end
  | EndSession c => Js.Ok (endSession c st)
  end.

Fixpoint run (ops : list op) (st : t) : Js.result t :=
  match ops with
  | [] => Js.Ok st
  | o :: rest =>
      match step o st with
      | Js.Ok st' => run rest st'
      | Js.Throw e => Js.Throw e
      end
  end.

(** What is assumed of [uuidv4()]: the identifier is a non-empty string
    and not the key of a stored session. *)
Definition uuid_ok (o : op) (st : t) : bool :=
  match o with
  | CreateSession _ _ uuid _ =>
      bool_decide (uuid ≠ "") && negb (JsMap.has uuid (sessions st))
  | EndSession _ => true
  end.

Fixpoint uuids_fresh (ops : list op) (st : t) : bool :=
  match ops with
  | [] => true
  | o :: rest =>
      uuid_ok o st &&
      match step o st with
      | Js.Ok st' => uuids_fresh rest st'
      | Js.Throw _ => true
      end
  end.

(** The consistency of the two stores: the index points at stored
    sessions of the right user that hold a connection, and no two stored
    sessions are of the same user. *)
Definition consistent (st : t) : Prop :=
  (∀ u sid, userSessions st !! u = Some sid →
     ∃ s, JsMap.get sid (sessions st) = Some s ∧ Session.userId s = u ∧
          Session.connectionIds s ≠ ∅) ∧
  (∀ sid1 sid2 s1 s2,
     JsMap.get sid1 (sessions st) = Some s1 →
     JsMap.get sid2 (sessions st) = Some s2 →
     Session.userId s1 = Session.userId s2 → sid1 = sid2).

(** [getTask(taskId)]: a copy of the stored task together with its
    [updatedAt], the time of the call; [None] for [null]. *)
Definition getTask (taskId : string) (now : Z) (st : t) : option (Task.t * Z) :=
  (λ task, (task, now)) <$> JsMap.get taskId (tasks st).

(** The invariant the calls maintain; it implies [consistent]. *)
Definition well_formed (st : t) : Prop :=
  NoDup (JsMap.keys (sessions st)) ∧
  (∀ sid s, JsMap.get sid (sessions st) = Some s →
     sid ≠ "" ∧ userSessions st !! Session.userId s = Some sid ∧
     Session.connectionIds s ≠ ∅) ∧
  (∀ u sid, userSessions st !! u = Some sid →
     ∃ s, JsMap.get sid (sessions st) = Some s ∧ Session.userId s = u).

End SessionManager.

(** ** Strings

    A [string] is read as a sequence of code units below 256.  The
    functions are those of [String.prototype] the sources call, and the
    regular expressions they match with. *)

Module Str.

(** [s.split(sep)] for a one-character separator. *)
Fixpoint split (sep : ascii) (s : string) : list string :=
  match s with
  | EmptyString => [""]
  | String a r =>
      if Ascii.eqb a sep then "" :: split sep r
      else
        match split sep r with
        | [] => [String a ""]
        | h :: t => String a h :: t
        end
  end.

(** [parts.join(sep)]. *)
Fixpoint join (sep : string) (parts : list string) : string :=
  match parts with
  | [] => ""
  | [p] => p
  | p :: rest => p +:+ sep +:+ join sep rest
  end.

Definition startsWith (p s : string) : bool := String.prefix p s.

(** [s.includes(needle)]. *)
Fixpoint includes (needle s : string) : bool :=
  String.prefix needle s ||
  match s with
  | EmptyString => false
  | String _ r => includes needle r
  end.

(** [s.substring(0, n)] and [s.slice(0, n)]. *)
Definition substring0 (n : nat) (s : string) : string := String.substring 0 n s.

(** What is left of [s] after the prefix [p], when [s] starts with it. *)
Fixpoint strip_prefix (p s : string) : option string :=
  match p with
  | EmptyString => Some s
  | String a p' =>
      match s with
      | EmptyString => None
      | String b s' => if Ascii.eqb a b then strip_prefix p' s' else None
      end
  end.

Fixpoint take_while (f : ascii → bool) (s : string) : string :=
  match s with
  | EmptyString => EmptyString
  | String a r => if f a then String a (take_while f r) else EmptyString
  end.

Fixpoint drop_while (f : ascii → bool) (s : string) : string :=
  match s with
  | EmptyString => EmptyString
  | String a r => if f a then drop_while f r else s
  end.

Fixpoint filter (f : ascii → bool) (s : string) : string :=
  match s with
  | EmptyString => EmptyString
  | String a r => if f a then String a (filter f r) else filter f r
  end.

Fixpoint forallb (f : ascii → bool) (s : string) : bool :=
  match s with
  | EmptyString => true
  | String a r => f a && forallb f r
  end.

Definition code (a : ascii) : N := N_of_ascii a.

(** [\s] below 256: tab, line feed, vertical tab, form feed, carriage
    return, space, no-break space. *)
Definition is_space (a : ascii) : bool :=
  let n := code a in
  ((9 <=? n) && (n <=? 13))%N || (n =? 32)%N || (n =? 160)%N.

Definition non_space (a : ascii) : bool := negb (is_space a).

Definition is_hex (a : ascii) : bool :=
  let n := code a in
  (((48 <=? n) && (n <=? 57)) || ((97 <=? n) && (n <=? 102)) ||
   ((65 <=? n) && (n <=? 70)))%N.

Definition lower (a : ascii) : ascii :=
  let n := code a in
  if ((65 <=? n) && (n <=? 90))%N then ascii_of_N (n + 32) else a.

(** The first match of a pattern that is tried at every position, left
    to right. *)
Fixpoint first_match (at_pos : string → option string) (s : string)
    : option string :=
  match at_pos s with
  | Some r => Some r
  | None =>
      match s with
      | EmptyString => None
      | String _ r => first_match at_pos r
      end
  end.

(** Blocks of hexadecimal digits of the given lengths, joined by ['-']:
    [^[0-9a-f]{8}-[0-9a-f]{4}-...$] with the [i] flag. *)
Fixpoint hex_blocks (lens : list nat) (parts : list string) : bool :=
  match lens, parts with
  | [], [] => true
  | n :: lens', p :: parts' =>
      bool_decide (String.length p = n) && forallb is_hex p &&
      hex_blocks lens' parts'
  | _, _ => false
  end.

Definition is_uuid (s : string) : bool :=
  hex_blocks [8; 4; 4; 4; 12]%nat (split "-" s).

End Str.

(** ** JSON values of outgoing frames *)

Inductive jval :=
| JUndefined
| JStr (s : string)
| JNum (n : Z)
| JBool (b : bool)
| JArr (l : list jval)
| JObj (fields : list (string * jval)).

Definition jopt (v : option string) : jval :=
  match v with
  | Some s => JStr s
  | None => JUndefined
  end.

(** The wire frame [{type, data, timestamp, id?}] as the server sends it. *)
Module WSFrame.
Record t := mk {
  type : string;
  data : jval;
  timestamp : option Z;
  id : option string;
}.
End WSFrame.

(** A received frame after [JSON.parse]: [data] is [None] when the frame
    has no [data] object; the properties read from it are string-valued. *)
Module RawFrame.
Record t := mk {
  type : option string;
  data : option (gmap string string);
  id : option string;
}.
End RawFrame.

Inductive parsed :=
| ParseError
| ParsedNull
| Parsed (frame : RawFrame.t).

(** ** Bot registry (bot-registry.js) *)

Module BotConfig.
Record t := mk {
  systemPrompt : option string;
  welcomeMessage : option string;
  maxMessageLength : Z;
  allowFileUpload : bool;
  allowedCommands : list string;
  metadata : option jval;
}.
Definition to_json (c : t) : jval :=
  JObj [("systemPrompt", jopt (systemPrompt c));
        ("welcomeMessage", jopt (welcomeMessage c));
        ("maxMessageLength", JNum (maxMessageLength c));
        ("allowFileUpload", JBool (allowFileUpload c));
        ("allowedCommands", JArr (JStr <$> allowedCommands c));
        ("metadata", default JUndefined (metadata c))].
End BotConfig.

Module Bot.
Record t := mk {
  id : string;
  userId : string;
  name : string;
  description : string;
  type : string;
  status : string;
  config : BotConfig.t;
  openclawSessionId : option string;
  createdAt : Z;
  updatedAt : Z;
}.
Definition to_json (b : t) : jval :=
  JObj [("id", JStr (id b)); ("userId", JStr (userId b));
        ("name", JStr (name b)); ("description", JStr (description b));
        ("type", JStr (type b)); ("status", JStr (status b));
        ("config", BotConfig.to_json (config b));
        ("openclawSessionId", jopt (openclawSessionId b));
        ("createdAt", JNum (createdAt b)); ("updatedAt", JNum (updatedAt b))].
End Bot.

Module BotRegistry.

(** [userBots] maps a user to a [Set] of bot ids; its iteration order
    (insertion order) shows in [getUserBots], so it is a list without
    repeats. *)
Record t := mk {
  bots : gmap string Bot.t;
  userBots : gmap string (list string);
}.

Definition empty : t := mk ∅ ∅.

Definition set_add (x : string) (l : list string) : list string :=
  if decide (x ∈ l) then l else l ++ [x].

(** [params.config]: every property may be missing. *)
Record ConfigParams := mkConfigParams {
  c_systemPrompt : option string;
  c_welcomeMessage : option string;
  c_maxMessageLength : option Z;
  c_allowFileUpload : option bool;
  c_allowedCommands : option (list string);
  c_metadata : option jval;
}.

Record RegisterParams := mkRegisterParams {
  r_userId : string;
  r_name : string;
  r_description : option string;
  r_type : string;
  r_config : option ConfigParams;
}.

(** The configuration of a bot registered without [params.config]. *)
Definition default_config : BotConfig.t :=
  BotConfig.mk None None 4096 false ["help"; "status"] None.

(** The [config] of the bot [register] makes: each property is taken from
    [params.config] or defaulted on its own ([||] for the length and the
    commands, [??] for the upload flag). *)
Definition registered_config (cfg : option ConfigParams) : BotConfig.t :=
  BotConfig.mk
    (cfg ≫= c_systemPrompt)
    (cfg ≫= c_welcomeMessage)
    (match cfg ≫= c_maxMessageLength with
     | Some n => if bool_decide (n ≠ 0) then n else 4096
     | None => 4096
     end)
    (default false (cfg ≫= c_allowFileUpload))
    (default ["help"; "status"] (cfg ≫= c_allowedCommands))
    (cfg ≫= c_metadata).

(** [register(params)]; [uuid] is the [uuidv4()] of the call. *)
Definition register (params : RegisterParams) (uuid : string) (now : Z)
    (reg : t) : t * Bot.t :=
  let botId := "bot_" +:+ Str.substring0 8 uuid in
  let bot :=
    Bot.mk botId (r_userId params) (r_name params)
      (Js.or_else (r_description params) "") (r_type params) "offline"
      (registered_config (r_config params)) None now now in
  let mine := default [] (userBots reg !! r_userId params) in
  (mk (<[botId := bot]> (bots reg))
      (<[r_userId params := set_add botId mine]> (userBots reg)),
   bot).

Definition getBot (botId : string) (reg : t) : option Bot.t :=
  bots reg !! botId.

Definition getUserBots (userId : string) (reg : t) : list Bot.t :=
  match userBots reg !! userId with
  | None => []
  | Some botIds => omap (λ id, getBot id reg) botIds
  end.

Definition updateBotStatus (botId status : string) (now : Z) (reg : t) : t :=
  match bots reg !! botId with
  | Some bot =>
      mk (<[botId :=
              Bot.mk (Bot.id bot) (Bot.userId bot) (Bot.name bot)
                (Bot.description bot) (Bot.type bot) status (Bot.config bot)
                (Bot.openclawSessionId bot) (Bot.createdAt bot) now]>
            (bots reg))
         (userBots reg)
  | None => reg
  end.

Definition deleteBot (botId : string) (reg : t) : t * bool :=
  match bots reg !! botId with
  | None => (reg, false)
  | Some bot =>
      (mk (delete botId (bots reg))
          (match userBots reg !! Bot.userId bot with
           | Some l =>
               <[Bot.userId bot := List.filter (λ x, bool_decide (x ≠ botId)) l]>
                 (userBots reg)
           | None => userBots reg
           end),
       true)
  end.

(** [setOpenClawSession(botId, sessionId)]. *)
Definition setOpenClawSession (botId sessionId : string) (now : Z) (reg : t)
    : t * bool :=
  match bots reg !! botId with
  | None => (reg, false)
  | Some bot =>
      (mk (<[botId :=
               Bot.mk (Bot.id bot) (Bot.userId bot) (Bot.name bot)
                 (Bot.description bot) (Bot.type bot) "online" (Bot.config bot)
                 (Some sessionId) (Bot.createdAt bot) now]>
             (bots reg))
          (userBots reg),
       true)
  end.

(** Sequences of calls on a registry. *)
Inductive op :=
| Register (params : RegisterParams) (uuid : string) (now : Z)
| UpdateBotStatus (botId status : string) (now : Z)
| SetOpenClawSession (botId sessionId : string) (now : Z)
| DeleteBot (botId : string).

Definition step (o : op) (reg : t) : t :=
  match o with
  | Register params uuid now => (register params uuid now reg).1
  | UpdateBotStatus botId status now => updateBotStatus botId status now reg
  | SetOpenClawSession botId sessionId now =>
      (setOpenClawSession botId sessionId now reg).1
  | DeleteBot botId => (deleteBot botId reg).1
  end.

Definition run (ops : list op) (reg : t) : t := foldl (λ reg o, step o reg) reg ops.

(** What is assumed of [uuidv4()] in [register]: the bot id made from its
    first eight characters is not in use. *)
Fixpoint ids_fresh (ops : list op) (reg : t) : bool :=
  match ops with
  | [] => true
  | o :: rest =>
      match o with
      | Register _ uuid _ =>
          bool_decide (bots reg !! ("bot_" +:+ Str.substring0 8 uuid) = None)
      | _ => true
      end && ids_fresh rest (step o reg)
  end.

(** The index and the store agree: a listed id is stored and is a bot of
    the user it is listed for, and a stored bot is listed for its owner. *)
Definition indexed (reg : t) : Prop :=
  (∀ u ids id, userBots reg !! u = Some ids → id ∈ ids →
               ∃ bot, bots reg !! id = Some bot ∧ Bot.userId bot = u) ∧
  (∀ id bot, bots reg !! id = Some bot →
             ∃ ids, userBots reg !! Bot.userId bot = Some ids ∧ id ∈ ids).

End BotRegistry.

(** ** Credentials *)

(** The cryptographic primitives are taken as given: [sha256_hex s] is
    [createHash('sha256').update(s).digest('hex')], and [jwt_verify token
    secret] is the payload [jwt.verify] returns, [None] when it throws. *)
Module AuthPayload.
Record t := mk {
  userId : string;
  email : string;
  iat : Z;
  exp : Z;
  iss : string;
}.
End AuthPayload.

Record Crypto := mkCrypto {
  sha256_hex : string → string;
  jwt_verify : string → string → option AuthPayload.t;
}.

(** *** services/auth-service.ts *)

Module AuthService.

Record StoredKey := mkStoredKey {
  k_userId : string;
  k_permissions : list string;
  k_name : string;
}.

Record ApiKeyValidation := mkValidation {
  valid : bool;
  userId : option string;
  permissions : option (list string);
}.

Record t := mk {
  jwt_secret : string;
  jwt_expiry : string;
  apiKeys : gmap string StoredKey;
}.

Definition hashKey (c : Crypto) (key : string) : string := sha256_hex c key.

Definition validateToken (c : Crypto) (token : string) (svc : t)
    : option AuthPayload.t :=
  jwt_verify c token (jwt_secret svc).

(** [extractUserIdFromKey(key)]: the second of the ['_']-separated parts
    when there are at least three. *)
Definition extractUserIdFromKey (key : string) : option string :=
  let parts := Str.split "_" key in
  if decide (3 ≤ List.length parts)%nat then parts !! 1%nat else None.

Definition validateApiKey (c : Crypto) (apiKey : string) (svc : t)
    : ApiKeyValidation :=
  if negb (Js.truthy (Some apiKey)) || bool_decide (String.length apiKey < 16)%nat
  then mkValidation false None None
  else
    let keyHash := hashKey c apiKey in
    match apiKeys svc !! keyHash with
    | Some storedKey =>
        mkValidation true (Some (k_userId storedKey))
          (Some (k_permissions storedKey))
    | None =>
        if Str.startsWith "t2b_" apiKey &&
           bool_decide (24 ≤ String.length apiKey)%nat
        then
          let userId := extractUserIdFromKey apiKey in
          if Js.truthy userId
          then mkValidation true userId (Some ["read"; "write"; "bots"])
          else mkValidation false None None
        else mkValidation false None None
    end.

(** [generateApiKey(userId, name, permissions)]; [hex] is what
    [randomBytes(api_key_length / 2).toString('hex')] returns. *)
Definition generateApiKey (c : Crypto) (hex : string) (userId name : string)
    (permissions : list string) (svc : t) : t * string :=
  let key := "t2b_" +:+ hex in
  (mk (jwt_secret svc) (jwt_expiry svc)
      (<[hashKey c key := mkStoredKey userId permissions name]> (apiKeys svc)),
   key).

(** [revokeApiKey(apiKey)]: whether a stored key was removed. *)
Definition revokeApiKey (c : Crypto) (apiKey : string) (svc : t) : t * bool :=
  (mk (jwt_secret svc) (jwt_expiry svc) (delete (hashKey c apiKey) (apiKeys svc)),
   bool_decide (is_Some (apiKeys svc !! hashKey c apiKey))).

(** [getApiKeyInfo(apiKey)]: the name and the permissions. *)
Definition getApiKeyInfo (c : Crypto) (apiKey : string) (svc : t)
    : option (string * list string) :=
  (λ k, (k_name k, k_permissions k)) <$> apiKeys svc !! hashKey c apiKey.

End AuthService.

(** *** server-secure.js: the signed key [t2b_<userId>_<signature>] *)

Module SecureKey.

(** [Buffer.from(s)]: the UTF-8 bytes of the string. *)
Definition utf8_char (a : ascii) : list N :=
  let n := N_of_ascii a in
  if (n <? 128)%N then [n]
  else [N.lor 192 (N.shiftr n 6); N.lor 128 (N.land n 63)].

Fixpoint utf8 (s : string) : list N :=
  match s with
  | EmptyString => []
  | String a r => utf8_char a ++ utf8 r
  end.

(** Reading one character back from the front of a buffer. *)
Definition decode_char (l : list N) : option (ascii * list N) :=
  match l with
  | [] => None
  | b1 :: rest =>
      if (b1 <? 128)%N then Some (ascii_of_N b1, rest)
      else
        match rest with
        | [] => None
        | b2 :: rest' =>
            Some (ascii_of_N (N.lor (N.shiftl (N.land b1 31) 6) (N.land b2 63)),
                  rest')
        end
  end.

(** [timingSafeEqual(a, b)] throws on buffers of different lengths. *)
Definition timingSafeEqual (a b : list N) : Js.result bool :=
  if decide (List.length a = List.length b)
  then Js.Ok (bool_decide (a = b))
  else Js.Throw "RangeError: Input buffers must have the same byte length".

Definition signature_of (c : Crypto) (userId secret : string) : string :=
  Str.substring0 16 (sha256_hex c (userId +:+ ":" +:+ secret)).

Definition generateApiKey (c : Crypto) (userId secret : string) : string :=
  "t2b_" +:+ userId +:+ "_" +:+ signature_of c userId secret.

(** [validateApiKey(apiKey, secret)]: the user id, or [None] for [null]. *)
Definition validateApiKey (c : Crypto) (apiKey : option string)
    (secret : string) : option string :=
  match apiKey with
  | None => None
  | Some key =>
      if negb (Js.truthy apiKey) then None
      else
        match Str.split "_" key with
        | [prefix; userId; signature] =>
            if negb (bool_decide (prefix = "t2b")) then None
            else if negb (Js.truthy (Some userId)) ||
                    negb (Js.truthy (Some signature)) then None
            else
              let expectedSig := signature_of c userId secret in
              if negb (bool_decide (String.length signature = 16%nat)) then None
              else
                match timingSafeEqual (utf8 signature) (utf8 expectedSig) with
                | Js.Ok true => Some userId
                | Js.Ok false => None
                | Js.Throw _ => None
                end
        | _ => None
        end
  end.

End SecureKey.

(** ** Message router (message-router.js) *)

Module OpenClawMessage.
Record t := mk {
  id : string;
  from : option string;
  to : option string;
  type : string;
  text : option string;
  contentType : string;
  timestamp : Z;
  replyTo : option string;
  messageId : string;
  direction : string;
  source : string;
}.
End OpenClawMessage.

Inductive ReadyState := CONNECTING | OPEN | CLOSING | CLOSED.

#[global] Instance ReadyState_eq_dec : EqDecision ReadyState.
Proof. solve_decision. Defined.

(** What a handler does to the outside, in order: a frame handed to
    [ws.send] of a connection, a call of [ws.close], a [ws.ping], and a
    message handed to [sendToBot] or [sendToUser]. *)
Inductive Effect :=
| Send (connectionId : string) (frame : WSFrame.t)
| CloseCall (connectionId : string) (code : Z) (reason : string)
| Ping (connectionId : string)
| ToBot (botId : string) (message : OpenClawMessage.t)
| ToUser (userId : string) (message : OpenClawMessage.t).

Module MessageRouter.

Record RouteParams := mkParams {
  from : option string;
  to : option string;
  text : option string;
  botId : option string;
  channel : option string;
  replyTo : option string;
  timestamp : Z;
}.

Definition buildOpenClawMessage (params : RouteParams) (uuid1 uuid2 : string)
    : OpenClawMessage.t :=
  OpenClawMessage.mk uuid1 (from params) (to params) "text" (text params)
    "plain" (timestamp params) (replyTo params) uuid2 "inbound" "client".

Definition sendMessageAck (cid : string) (rs : ReadyState) (messageId : string)
    (now : Z) : list Effect :=
  if decide (rs = OPEN) then
    [Send cid
       (WSFrame.mk "message_ack"
          (JObj [("messageId", JStr messageId); ("status", JStr "delivered");
                 ("timestamp", JNum now)])
          (Some now) None)]
  else [].

Definition sendError (cid : string) (rs : ReadyState) (code message : string)
    (now : Z) : list Effect :=
  if decide (rs = OPEN) then
    [Send cid
       (WSFrame.mk "error"
          (JObj [("code", JStr code); ("message", JStr message)])
          (Some now) None)]
  else [].

(** [isBotId(id)]: starts with ['bot_'] or has the shape of a UUID. *)
Definition isBotId (id : string) : bool :=
  Str.startsWith "bot_" id || Str.is_uuid id.

(** [route(senderWs, message)].  The sender is given by its connection id
    and ready state; [uuid1], [uuid2] are the two [uuidv4()] of
    [buildOpenClawMessage].  The thrown error is caught inside. *)
Definition route (cid : string) (rs : ReadyState) (message : RouteParams)
    (uuid1 uuid2 : string) (now : Z) : list Effect :=
  if negb (Js.truthy (from message)) || negb (Js.truthy (to message)) then
    sendError cid rs "ROUTING_FAILED" "Invalid message: missing from/to" now
  else
    let openclawMessage := buildOpenClawMessage message uuid1 uuid2 in
    let target := default "" (to message) in
    if Js.truthy (botId message) then
      ToBot (default "" (botId message)) openclawMessage
        :: sendMessageAck cid rs (OpenClawMessage.id openclawMessage) now
    else if isBotId target then
      ToBot target openclawMessage
        :: sendMessageAck cid rs (OpenClawMessage.id openclawMessage) now
    else
      ToUser target openclawMessage
        :: sendMessageAck cid rs (OpenClawMessage.id openclawMessage) now.

(** The subscription maps [botChannels] (bot id to user ids) and
    [userChannels] (user id to bot ids); each value is a [Set], kept here in
    insertion order. *)
Record Channels := mkChannels {
  botChannels : gmap string (list string);
  userChannels : gmap string (list string);
}.

Definition no_channels : Channels := mkChannels ∅ ∅.

Definition set_add (x : string) (l : list string) : list string :=
  if decide (x ∈ l) then l else l ++ [x].

Definition set_delete (x : string) (l : list string) : list string :=
  List.filter (λ y, bool_decide (y ≠ x)) l.

(** [subscribeToBot(userId, botId)]. *)
Definition subscribeToBot (userId botId : string) (ch : Channels) : Channels :=
  mkChannels
    (<[botId := set_add userId (default [] (botChannels ch !! botId))]>
       (botChannels ch))
    (<[userId := set_add botId (default [] (userChannels ch !! userId))]>
       (userChannels ch)).

(** [unsubscribeFromBot(userId, botId)]: [?.delete] on the two sets. *)
Definition unsubscribeFromBot (userId botId : string) (ch : Channels) : Channels :=
  mkChannels
    (match botChannels ch !! botId with
     | Some users => <[botId := set_delete userId users]> (botChannels ch)
     | None => botChannels ch
     end)
    (match userChannels ch !! userId with
     | Some botIds => <[userId := set_delete botId botIds]> (userChannels ch)
     | None => userChannels ch
     end).

(** [getBotSubscribers(botId)]. *)
Definition getBotSubscribers (botId : string) (ch : Channels) : list string :=
  default [] (botChannels ch !! botId).

(** [broadcastToBotSubscribers(botId, message)]: [sendToUser] for each. *)
Definition broadcastToBotSubscribers (botId : string)
    (message : OpenClawMessage.t) (ch : Channels) : list Effect :=
  (λ userId, ToUser userId message) <$> getBotSubscribers botId ch.

(** The bots a user is subscribed to, as [userChannels] has them. *)
Definition subscriptions (u : string) (ch : Channels) : list string :=
  default [] (userChannels ch !! u).

Inductive sub_op :=
| Subscribe (userId botId : string)
| Unsubscribe (userId botId : string).

Definition sub_step (o : sub_op) (ch : Channels) : Channels :=
  match o with
  | Subscribe u b => subscribeToBot u b ch
  | Unsubscribe u b => unsubscribeFromBot u b ch
  end.

Definition sub_run (ops : list sub_op) (ch : Channels) : Channels :=
  foldl (λ ch o, sub_step o ch) ch ops.

End MessageRouter.

(** ** The WebSocket frontend (server.js) *)

Module ExtWebSocket.
(** The socket with the fields the server attaches to it.  [userId] is
    [None] until [handleAuth] assigns it. *)
Record t := mk {
  id : string;
  connectionId : string;
  userId : option string;
  subscribedBots : gset string;
  lastActivity : Z;
  readyState : ReadyState;
  platform : string;
  userAgent : string;
}.

Definition with_lastActivity (now : Z) (ws : t) : t :=
  mk (id ws) (connectionId ws) (userId ws) (subscribedBots ws) now
     (readyState ws) (platform ws) (userAgent ws).

Definition with_userId (u : option string) (ws : t) : t :=
  mk (id ws) (connectionId ws) u (subscribedBots ws) (lastActivity ws)
     (readyState ws) (platform ws) (userAgent ws).

Definition with_subscribedBots (b : gset string) (ws : t) : t :=
  mk (id ws) (connectionId ws) (userId ws) b (lastActivity ws)
     (readyState ws) (platform ws) (userAgent ws).

(** [ws.close(code, reason)] starts the closing handshake. *)
Definition close (ws : t) : t :=
  mk (id ws) (connectionId ws) (userId ws) (subscribedBots ws)
     (lastActivity ws)
     (match readyState ws with CLOSED => CLOSED | _ => CLOSING end)
     (platform ws) (userAgent ws).
End ExtWebSocket.

Module Server.

Record Config := mkConfig {
  host : string;
  port : Z;
  max_per_user : option Z;
  timeout : Z;
  heartbeat_interval : Z;
}.

Record t := mk {
  config : Config;
  sessionManager : SessionManager.t;
  botRegistry : BotRegistry.t;
  authService : AuthService.t;
  connections : list (string * ExtWebSocket.t);
}.

(** What the environment supplies while one event is handled: the clock,
    the identifiers [uuidv4()] hands out, and the process figures of the
    status reply. *)
Record Env := mkEnv {
  now : Z;
  uuid1 : string;
  uuid2 : string;
  uptime : jval;
  memory : jval;
}.

Definition with_sessionManager (sm : SessionManager.t) (srv : t) : t :=
  mk (config srv) sm (botRegistry srv) (authService srv) (connections srv).

Definition with_botRegistry (reg : BotRegistry.t) (srv : t) : t :=
  mk (config srv) (sessionManager srv) reg (authService srv) (connections srv).

Definition with_connections (cs : list (string * ExtWebSocket.t)) (srv : t) : t :=
  mk (config srv) (sessionManager srv) (botRegistry srv) (authService srv) cs.

(** The socket is an object the [connections] map refers to: a change of
    its fields shows in the map when the map holds it. *)
Definition sync (ws : ExtWebSocket.t) (srv : t) : t :=
  if JsMap.has (ExtWebSocket.connectionId ws) (connections srv)
  then with_connections
         (JsMap.set (ExtWebSocket.connectionId ws) ws (connections srv)) srv
  else srv.

Definition sendFrame (ws : ExtWebSocket.t) (frame : WSFrame.t) : list Effect :=
  if decide (ExtWebSocket.readyState ws = OPEN)
  then [Send (ExtWebSocket.connectionId ws) frame]
  else [].

Definition error_frame (code : Z) (message : string) (now : Z) : WSFrame.t :=
  WSFrame.mk "error" (JObj [("code", JNum code); ("message", JStr message)])
    (Some now) None.

Definition sendError (ws : ExtWebSocket.t) (code : Z) (message : string)
    (now : Z) : list Effect :=
  sendFrame ws (error_frame code message now).

Definition getUserConnections (userId : option string) (srv : t)
    : list ExtWebSocket.t :=
  List.filter (λ ws, bool_decide (ExtWebSocket.userId ws = userId))
    (snd <$> connections srv).

Definition getUniqueUserCount (srv : t) : nat :=
  size (foldl
          (λ (users : gset string) e,
             match ExtWebSocket.userId e.2 with
             | Some u => if bool_decide (u ≠ "") then {[u]} ∪ users else users
             | None => users
             end)
          ∅ (connections srv)).

Definition parseDeviceInfo (userAgent : option string) : string * string :=
  let ua := Js.or_else userAgent "" in
  let platform :=
    if Str.includes "Android" ua then "android"
    else if Str.includes "iOS" ua || Str.includes "iPhone" ua ||
            Str.includes "iPad" ua then "ios"
    else if Str.includes "Mozilla" ua then "web"
    else "other" in
  (platform, ua).

(** [handleConnection(ws, req)]: [uuid1] names the connection. *)
Definition handleConnection (env : Env) (userAgent : option string) (srv : t)
    : t * list Effect :=
  let connectionId := uuid1 env in
  let '(platform, ua) := parseDeviceInfo userAgent in
  let ws :=
    ExtWebSocket.mk connectionId connectionId None ∅ (now env) OPEN platform ua in
  (with_connections (JsMap.set connectionId ws (connections srv)) srv,
   sendFrame ws
     (WSFrame.mk "status"
        (JObj [("status", JStr "connected"); ("connectionId", JStr connectionId);
               ("serverVersion", JStr "1.0.0"); ("timestamp", JNum (now env))])
        (Some (now env)) None)).

Definition auth_error (ws : ExtWebSocket.t) (message : string) (now : Z)
    (id : option string) : list Effect :=
  sendFrame ws
    (WSFrame.mk "auth_error" (JObj [("message", JStr message)]) (Some now) id).

Definition type_error : string :=
  "TypeError: Cannot destructure property of undefined".

(** [handleAuth(ws, frame)].  Its own [try]/[catch] turns every throw
    into an [auth_error] frame. *)
Definition handleAuth (c : Crypto) (env : Env) (ws : ExtWebSocket.t)
    (frame : RawFrame.t) (srv : t) : ExtWebSocket.t * t * list Effect :=
  let id := RawFrame.id frame in
  match RawFrame.data frame with
  | None => (ws, srv, auth_error ws "Authentication failed" (now env) id)
  | Some d =>
      let apiKey := d !! "apiKey" in
      let token := d !! "token" in
      let identified : option string + string :=
        if Js.truthy apiKey then
          let authResult :=
            AuthService.validateApiKey c (default "" apiKey) (authService srv) in
          if negb (AuthService.valid authResult) ||
             negb (Js.truthy (AuthService.userId authResult))
          then inr "Invalid API key"
          else inl (AuthService.userId authResult)
        else if Js.truthy token then
          match AuthService.validateToken c (default "" token) (authService srv) with
          | None => inr "Invalid token"
          | Some payload => inl (Some (AuthPayload.userId payload))
          end
        else inr "Authentication required" in
      match identified with
      | inr message => (ws, srv, auth_error ws message (now env) id)
      | inl user =>
          let ws := ExtWebSocket.with_userId user ws in
          let srv := sync ws srv in
          let userConnections := getUserConnections (ExtWebSocket.userId ws) srv in
          let full :=
            match max_per_user (config srv) with
            | Some m => bool_decide (m ≤ Z.of_nat (List.length userConnections))
            | None => false
            end in
          if full then
            (ws, srv,
             auth_error ws "Maximum concurrent sessions reached" (now env) id)
          else
            match
              SessionManager.createSession (ExtWebSocket.connectionId ws)
                (default "" user) (uuid1 env) (now env) (sessionManager srv)
            with
            | Js.Throw _ =>
                (ws, srv, auth_error ws "Authentication failed" (now env) id)
            | Js.Ok (sm, _) =>
                let srv := with_sessionManager sm srv in
                let userBots :=
                  BotRegistry.getUserBots (default "" user) (botRegistry srv) in
                (ws, srv,
                 sendFrame ws
                   (WSFrame.mk "auth_ok"
                      (JObj [("userId", jopt user);
                             ("sessionId", JStr (ExtWebSocket.connectionId ws));
                             ("expiresIn",
                              JStr (AuthService.jwt_expiry (authService srv)))])
                      (Some (now env)) id)
                 ++ (if decide (0 < List.length userBots)%nat then
                       sendFrame ws
                         (WSFrame.mk "status"
                            (JObj [("type", JStr "bots_list");
                                   ("bots", JArr (Bot.to_json <$> userBots))])
                            (Some (now env)) None)
                     else []))
            end
      end
  end.

(** [handleMessageFrame(ws, frame)]: the authentication check, then
    [messageRouter.route]. *)
Definition handleMessageFrame (env : Env) (ws : ExtWebSocket.t)
    (frame : RawFrame.t) : Js.result (list Effect) :=
  if negb (Js.truthy (ExtWebSocket.userId ws)) then
    Js.Ok (sendError ws 401 "Not authenticated" (now env))
  else
    match RawFrame.data frame with
    | None => Js.Throw type_error
    | Some messageData =>
        Js.Ok
          (MessageRouter.route (ExtWebSocket.connectionId ws)
             (ExtWebSocket.readyState ws)
             (MessageRouter.mkParams (ExtWebSocket.userId ws)
                (messageData !! "to") (messageData !! "text")
                (messageData !! "botId") (messageData !! "channel")
                (messageData !! "replyTo") (now env))
             (uuid1 env) (uuid2 env) (now env))
    end.

Definition handleSubscribe (env : Env) (ws : ExtWebSocket.t)
    (frame : RawFrame.t) (srv : t) : Js.result (ExtWebSocket.t * list Effect) :=
  if negb (Js.truthy (ExtWebSocket.userId ws)) then
    Js.Ok (ws, sendError ws 401 "Not authenticated" (now env))
  else
    match RawFrame.data frame with
    | None => Js.Throw type_error
    | Some d =>
        let botId := d !! "botId" in
        let bot := botId ≫= λ b, BotRegistry.getBot b (botRegistry srv) in
        match bot, botId with
        | Some bot, Some b =>
            if bool_decide (Some (Bot.userId bot) ≠ ExtWebSocket.userId ws) then
              Js.Ok (ws, sendError ws 403 "Bot not found or access denied" (now env))
            else
              Js.Ok
                (ExtWebSocket.with_subscribedBots
                   ({[b]} ∪ ExtWebSocket.subscribedBots ws) ws,
                 sendFrame ws
                   (WSFrame.mk "status"
                      (JObj [("type", JStr "subscribed"); ("botId", JStr b)])
                      (Some (now env)) (RawFrame.id frame)))
        | _, _ =>
            Js.Ok (ws, sendError ws 403 "Bot not found or access denied" (now env))
        end
    end.

Definition handleUnsubscribe (env : Env) (ws : ExtWebSocket.t)
    (frame : RawFrame.t) : Js.result (ExtWebSocket.t * list Effect) :=
  match RawFrame.data frame with
  | None => Js.Throw type_error
  | Some d =>
      let botId := d !! "botId" in
      Js.Ok
        (match botId with
         | Some b =>
             ExtWebSocket.with_subscribedBots
               (ExtWebSocket.subscribedBots ws ∖ {[b]}) ws
         | None => ws
         end,
         sendFrame ws
           (WSFrame.mk "status"
              (JObj [("type", JStr "unsubscribed"); ("botId", jopt botId)])
              (Some (now env)) (RawFrame.id frame)))
  end.

(** [handleTask(ws, frame)]: the authentication check, then
    [sessionManager.createTask]; [uuid1] is the task id. *)
Definition handleTask (env : Env) (ws : ExtWebSocket.t) (frame : RawFrame.t)
    (srv : t) : Js.result (t * list Effect) :=
  if negb (Js.truthy (ExtWebSocket.userId ws)) then
    Js.Ok (srv, sendError ws 401 "Not authenticated" (now env))
  else
    match RawFrame.data frame with
    | None => Js.Throw type_error
    | Some taskData =>
        let '(sm, task) :=
          SessionManager.createTask
            (SessionManager.mkTaskParams (default "" (ExtWebSocket.userId ws))
               (taskData !! "botId") (taskData !! "title")
               (taskData !! "description") (taskData !! "priority")
               (taskData !! "dueDate"))
            (uuid1 env) (now env) (sessionManager srv) in
        Js.Ok
          (with_sessionManager sm srv,
           sendFrame ws
             (WSFrame.mk "task_status"
                (JObj [("taskId", JStr (Task.id task)); ("status", JStr "pending")])
                (Some (now env)) (RawFrame.id frame)))
    end.

Definition handleStatusRequest (env : Env) (ws : ExtWebSocket.t)
    (frame : RawFrame.t) (srv : t) : Js.result (list Effect) :=
  match RawFrame.data frame with
  | None => Js.Throw type_error
  | Some d =>
      let request := d !! "request" in
      if bool_decide (request = Some "connections") then
        Js.Ok
          (sendFrame ws
             (WSFrame.mk "status"
                (JObj [("type", JStr "connections");
                       ("count", JNum (Z.of_nat (List.length (connections srv))));
                       ("userCount", JNum (Z.of_nat (getUniqueUserCount srv)))])
                (Some (now env)) (RawFrame.id frame)))
      else if bool_decide (request = Some "bots") then
        if Js.truthy (ExtWebSocket.userId ws) then
          let bots :=
            BotRegistry.getUserBots (default "" (ExtWebSocket.userId ws))
              (botRegistry srv) in
          Js.Ok
            (sendFrame ws
               (WSFrame.mk "status"
                  (JObj [("type", JStr "bots_list");
                         ("bots", JArr (Bot.to_json <$> bots))])
                  (Some (now env)) (RawFrame.id frame)))
        else Js.Ok []
      else
        Js.Ok
          (sendFrame ws
             (WSFrame.mk "status"
                (JObj [("type", JStr "server_status");
                       ("connections", JNum (Z.of_nat (List.length (connections srv))));
                       ("users", JNum (Z.of_nat (getUniqueUserCount srv)));
                       ("uptime", uptime env); ("memory", memory env)])
                (Some (now env)) (RawFrame.id frame)))
  end.

Definition pong_frame (now : Z) : WSFrame.t :=
  WSFrame.mk "pong" (JObj [("timestamp", JNum now)]) (Some now) None.

Definition type_name (ty : option string) : string := default "undefined" ty.

(** The [switch] of [handleMessage] on a parsed frame; a throw of a
    handler is left to the caller. *)
Definition dispatch (c : Crypto) (env : Env) (ws : ExtWebSocket.t)
    (rawFrame : RawFrame.t) (srv : t)
    : Js.result (ExtWebSocket.t * t * list Effect) :=
  let ty := RawFrame.type rawFrame in
  if bool_decide (ty = Some "auth") then
    Js.Ok (handleAuth c env ws rawFrame srv)
  else if bool_decide (ty = Some "message") then
    match handleMessageFrame env ws rawFrame with
    | Js.Ok eff => Js.Ok (ws, srv, eff)
    | Js.Throw e => Js.Throw e
    end
  else if bool_decide (ty = Some "ping") then
    Js.Ok (ws, srv, sendFrame ws (pong_frame (now env)))
  else if bool_decide (ty = Some "subscribe") then
    match handleSubscribe env ws rawFrame srv with
    | Js.Ok (ws', eff) => Js.Ok (ws', srv, eff)
    | Js.Throw e => Js.Throw e
    end
  else if bool_decide (ty = Some "unsubscribe") then
    match handleUnsubscribe env ws rawFrame with
    | Js.Ok (ws', eff) => Js.Ok (ws', srv, eff)
    | Js.Throw e => Js.Throw e
    end
  else if bool_decide (ty = Some "task") then
    match handleTask env ws rawFrame srv with
    | Js.Ok (srv', eff) => Js.Ok (ws, srv', eff)
    | Js.Throw e => Js.Throw e
    end
  else if bool_decide (ty = Some "status") then
    match handleStatusRequest env ws rawFrame srv with
    | Js.Ok eff => Js.Ok (ws, srv, eff)
    | Js.Throw e => Js.Throw e
    end
  else
    Js.Ok (ws, srv,
           sendError ws 400 ("Unknown frame type: " +:+ type_name ty) (now env)).

(** [handleMessage(ws, data)]: parse, note the activity, dispatch; the
    [catch] answers every throw with error 400. *)
Definition handleMessage (c : Crypto) (env : Env) (ws : ExtWebSocket.t)
    (data : parsed) (srv : t) : ExtWebSocket.t * t * list Effect :=
  match data with
  | ParseError => (ws, srv, sendError ws 400 "Invalid message format" (now env))
  | ParsedNull =>
      let ws := ExtWebSocket.with_lastActivity (now env) ws in
      (ws, srv, sendError ws 400 "Invalid message format" (now env))
  | Parsed rawFrame =>
      let ws := ExtWebSocket.with_lastActivity (now env) ws in
      match dispatch c env ws rawFrame srv with
      | Js.Ok r => r
      | Js.Throw _ => (ws, srv, sendError ws 400 "Invalid message format" (now env))
      end
  end.

(** The ['message'] event of the socket stored under [cid]. *)
Definition on_message (c : Crypto) (env : Env) (cid : string) (data : parsed)
    (srv : t) : t * list Effect :=
  match JsMap.get cid (connections srv) with
  | None => (srv, [])
  | Some ws =>
      let '(ws', srv', eff) := handleMessage c env ws data srv in
      (sync ws' srv', eff)
  end.

(** [handleDisconnect(ws, code, reason)]. *)
Definition handleDisconnect (env : Env) (ws : ExtWebSocket.t) (srv : t) : t :=
  let sm := SessionManager.endSession (ExtWebSocket.connectionId ws)
              (sessionManager srv) in
  let cs := JsMap.delete (ExtWebSocket.connectionId ws) (connections srv) in
  let reg :=
    foldl (λ reg botId, BotRegistry.updateBotStatus botId "offline" (now env) reg)
      (botRegistry srv) (elements (ExtWebSocket.subscribedBots ws)) in
  mk (config srv) sm reg (authService srv) cs.

Definition timeout_frame (now : Z) : WSFrame.t :=
  WSFrame.mk "status" (JObj [("type", JStr "timeout")]) (Some now) None.

(** One turn of the loop of [startHeartbeat] over a connection. *)
Definition heartbeat_one (now timeout : Z) (ws : ExtWebSocket.t)
    : ExtWebSocket.t * list Effect :=
  if decide (now - ExtWebSocket.lastActivity ws > timeout) then
    (ExtWebSocket.close ws,
     sendFrame ws (timeout_frame now)
     ++ [CloseCall (ExtWebSocket.connectionId ws) 4000 "Connection timeout"])
  else
    (ws,
     if decide (ExtWebSocket.readyState ws = OPEN)
     then [Ping (ExtWebSocket.connectionId ws)]
     else []).

Fixpoint heartbeat_loop (now timeout : Z) (cs : list (string * ExtWebSocket.t))
    : list (string * ExtWebSocket.t) * list Effect :=
  match cs with
  | [] => ([], [])
  | (id, ws) :: rest =>
      let '(ws', eff) := heartbeat_one now timeout ws in
      let '(rest', eff') := heartbeat_loop now timeout rest in
      ((id, ws') :: rest', eff ++ eff')
  end.

(** The callback [startHeartbeat] hands to [setInterval]. *)
Definition heartbeat (now : Z) (srv : t) : t * list Effect :=
  let timeout := timeout (config srv) * 1000 in
  let '(cs, eff) := heartbeat_loop now timeout (connections srv) in
  (with_connections cs srv, eff).

Definition stop_one (now : Z) (ws : ExtWebSocket.t) : list Effect :=
  sendError ws 1001 "Server shutting down" now
  ++ [CloseCall (ExtWebSocket.connectionId ws) 1001 "Server shutting down"].

(** [stop()]: every connection is told and closed, the map cleared. *)
Definition stop (now : Z) (srv : t) : t * list Effect :=
  (with_connections [] srv,
   List.concat ((λ e, stop_one now e.2) <$> connections srv)).

(** An effect that stays with the sender of a frame: a frame sent on the
    sender's own socket, or a message handed on by the router. *)
Definition to_sender (cid : string) (e : Effect) : Prop :=
  match e with
  | Send c _ => c = cid
  | ToBot _ _ | ToUser _ _ => True
  | CloseCall _ _ _ | Ping _ => False
  end.

(** A bot as [updateBotStatus(botId, 'offline')] leaves it, in the fields
    that [getBot] reports (the call also writes [lastActivity], which no
    function of the registry reads). *)
Definition set_offline (now : Z) (bot : Bot.t) : Bot.t :=
  Bot.mk (Bot.id bot) (Bot.userId bot) (Bot.name bot) (Bot.description bot)
    (Bot.type bot) "offline" (Bot.config bot) (Bot.openclawSessionId bot)
    (Bot.createdAt bot) now.

End Server.

(** ** The hardened server (server-secure.js) *)

Module Secure.

Module SBot.
Record t := mk {
  id : string;
  userId : string;
  name : string;
  type : string;
  status : string;
  createdAt : Z;
}.
Definition to_json (b : t) : jval :=
  JObj [("id", JStr (id b)); ("userId", JStr (userId b)); ("name", JStr (name b));
        ("type", JStr (type b)); ("status", JStr (status b));
        ("config", JObj []); ("createdAt", JNum (createdAt b))].
End SBot.

Module STask.
Record t := mk {
  id : string;
  userId : string;
  botId : string;
  title : string;
  description : string;
  priority : string;
  status : string;
  createdAt : Z;
}.
End STask.

(** The per-user stores of [userData]. *)
Record UserData := mkUserData {
  ud_bots : list (string * SBot.t);
  ud_sessions : gset string;
  ud_tasks : gset string;
  ud_connections : gset string;
}.

Record LogEntry := mkLog {
  l_timestamp : Z;
  l_level : string;
  l_message : string;
  l_data : jval;
}.

Record SSession := mkSSession {
  ss_id : string;
  ss_userId : string;
  ss_createdAt : Z;
  ss_lastActivity : Z;
}.

Record RateRecord := mkRate { count : Z; windowStart : Z }.

(** The module-level maps, the log buffer and the server's secret. *)
Record t := mk {
  authSecret : string;
  users : gmap string string;
  userData : gmap string UserData;
  bots : gmap string SBot.t;
  sessions : gmap string SSession;
  tasks : gmap string STask.t;
  connections : list (string * ExtWebSocket.t);
  serverLogs : list LogEntry;
  rateLimit : gmap string RateRecord;
}.

Definition with_userData (ud : gmap string UserData) (st : t) : t :=
  mk (authSecret st) (users st) ud (bots st) (sessions st) (tasks st)
     (connections st) (serverLogs st) (rateLimit st).

Definition with_logs (l : list LogEntry) (st : t) : t :=
  mk (authSecret st) (users st) (userData st) (bots st) (sessions st) (tasks st)
     (connections st) l (rateLimit st).

(** [log(level, message, data)]: newest first, at most 200 entries. *)
Definition log (now : Z) (level message : string) (data : jval) (st : t) : t :=
  let l := mkLog now level message data :: serverLogs st in
  with_logs (if decide (200 < List.length l)%nat then removelast l else l) st.

(** [checkRateLimit(userId, action)] with the default limits. *)
Definition checkRateLimit (now : Z) (userId : option string) (action : string)
    (st : t) : t * bool :=
  let maxRequests := 10 in
  let windowMs := 60000 in
  let key := default "null" userId +:+ ":" +:+ action in
  let record := default (mkRate 0 now) (rateLimit st !! key) in
  let record' :=
    if decide (now - windowStart record > windowMs) then mkRate 1 now
    else mkRate (count record + 1) (windowStart record) in
  (mk (authSecret st) (users st) (userData st) (bots st) (sessions st)
      (tasks st) (connections st) (serverLogs st)
      (<[key := record']> (rateLimit st)),
   bool_decide (count record' ≤ maxRequests)).

(** [sanitize(str)]: no angle brackets, no control characters, at most
    4096 characters; [''] for what is not a string. *)
Definition sanitize (str : option string) : string :=
  match str with
  | None => ""
  | Some s =>
      let s1 := Str.filter (λ a, negb (Ascii.eqb a "<" || Ascii.eqb a ">")) s in
      let s2 :=
        Str.filter
          (λ a, negb ((Str.code a <=? 31)%N || (Str.code a =? 127)%N)) s1 in
      Str.substring0 4096 s2
  end.

Definition empty_userData : UserData := mkUserData [] ∅ ∅ ∅.

(** [getUserData(userId)] creates the user's stores when there are none. *)
Definition getUserData (userId : string) (st : t) : t * UserData :=
  match userData st !! userId with
  | Some ud => (st, ud)
  | None =>
      (with_userData (<[userId := empty_userData]> (userData st)) st,
       empty_userData)
  end.

(** [verifyBotOwnership(userId, botId)]. *)
Definition verifyBotOwnership (userId botId : string) (st : t) : t * bool :=
  let '(st, userBotData) := getUserData userId st in
  match bots st !! botId with
  | None => (st, false)
  | Some bot =>
      if bool_decide (SBot.userId bot ≠ userId) then (st, false)
      else if negb (JsMap.has botId (ud_bots userBotData)) then (st, false)
      else (st, true)
  end.

Definition sendFrame (ws : ExtWebSocket.t) (ty : string) (data : jval)
    : list Effect :=
  if decide (ExtWebSocket.readyState ws = OPEN)
  then [Send (ExtWebSocket.id ws) (WSFrame.mk ty data None None)]
  else [].

Definition sendError (ws : ExtWebSocket.t) (code : Z) (message : string)
    : list Effect :=
  sendFrame ws "error" (JObj [("code", JNum code); ("message", JStr message)]).

(** The property [name] of [frame.data || {}]. *)
Definition field (frame : RawFrame.t) (name : string) : option string :=
  RawFrame.data frame ≫= λ d, d !! name.

(** [handleMessageFrame(ws, frame)]; [uuid] is the message id. *)
Definition handleMessageFrame (now : Z) (uuid : string) (ws : ExtWebSocket.t)
    (frame : RawFrame.t) (st : t) : t * list Effect :=
  match ExtWebSocket.userId ws with
  | Some user =>
      if negb (Js.truthy (Some user)) then
        (st, sendError ws 401 "Not authenticated")
      else
        match field frame "to" with
        | Some botId =>
            if negb (Js.truthy (Some botId)) then
              (st, sendError ws 400 "Missing bot ID")
            else
              let '(st, owned) := verifyBotOwnership user botId st in
              if negb owned then
                (log now "WARN" "Unauthorized message attempt"
                   (JObj [("userId", JStr user); ("botId", JStr botId);
                          ("connectionId", JStr (ExtWebSocket.id ws))]) st,
                 sendError ws 403 "Bot not found or access denied")
              else
                let messageId := uuid in
                let sanitizedText := sanitize (field frame "text") in
                (st,
                 sendFrame ws "message"
                   (JObj [("id", JStr messageId); ("from", JStr botId);
                          ("to", JStr user); ("type", JStr "text");
                          ("text",
                           JStr (if Js.truthy (Some sanitizedText)
                                 then "Echo: " +:+ sanitizedText else ""));
                          ("timestamp", JNum now)])
                 ++ sendFrame ws "message_ack"
                      (JObj [("messageId", JStr messageId);
                             ("status", JStr "delivered")]))
        | None => (st, sendError ws 400 "Missing bot ID")
        end
  | None => (st, sendError ws 401 "Not authenticated")
  end.

(** [handleTask(ws, frame)]; [uuid] is the task id. *)
Definition handleTask (now : Z) (uuid : string) (ws : ExtWebSocket.t)
    (frame : RawFrame.t) (st : t) : t * list Effect :=
  match ExtWebSocket.userId ws with
  | Some user =>
      if negb (Js.truthy (Some user)) then
        (st, sendError ws 401 "Not authenticated")
      else
        match field frame "botId" with
        | Some botId =>
            if negb (Js.truthy (Some botId)) then
              (st, sendError ws 400 "Missing bot ID")
            else
              let '(st, owned) := verifyBotOwnership user botId st in
              if negb owned then
                (st, sendError ws 403 "Bot not found or access denied")
              else
                let taskId := uuid in
                let task :=
                  STask.mk taskId user botId (sanitize (field frame "title"))
                    (sanitize (field frame "description"))
                    (Js.or_else (Some (sanitize (field frame "priority"))) "medium")
                    "pending" now in
                let st :=
                  mk (authSecret st) (users st) (userData st) (bots st)
                     (sessions st) (<[taskId := task]> (tasks st))
                     (connections st) (serverLogs st) (rateLimit st) in
                let '(st, ud) := getUserData user st in
                let st :=
                  with_userData
                    (<[user := mkUserData (ud_bots ud) (ud_sessions ud)
                                 ({[taskId]} ∪ ud_tasks ud) (ud_connections ud)]>
                       (userData st)) st in
                (log now "INFO" "Task created"
                   (JObj [("taskId", JStr taskId); ("userId", JStr user);
                          ("botId", JStr botId)]) st,
                 sendFrame ws "task_status"
                   (JObj [("taskId", JStr taskId); ("status", JStr "pending")]))
        | None => (st, sendError ws 400 "Missing bot ID")
        end
  | None => (st, sendError ws 401 "Not authenticated")
  end.

Definition handleSubscribe (ws : ExtWebSocket.t) (frame : RawFrame.t) (st : t)
    : ExtWebSocket.t * t * list Effect :=
  match ExtWebSocket.userId ws with
  | Some user =>
      if negb (Js.truthy (Some user)) then
        (ws, st, sendError ws 401 "Not authenticated")
      else
        match field frame "botId" with
        | Some botId =>
            if negb (Js.truthy (Some botId)) then
              (ws, st, sendError ws 400 "Missing bot ID")
            else
              let '(st, owned) := verifyBotOwnership user botId st in
              if negb owned then
                (ws, st, sendError ws 403 "Bot not found or access denied")
              else
                (ExtWebSocket.with_subscribedBots
                   ({[botId]} ∪ ExtWebSocket.subscribedBots ws) ws,
                 st,
                 sendFrame ws "status"
                   (JObj [("type", JStr "subscribed"); ("botId", JStr botId)]))
        | None => (ws, st, sendError ws 400 "Missing bot ID")
        end
  | None => (ws, st, sendError ws 401 "Not authenticated")
  end.

(** [registerBot(userId, name, type)]. *)
Definition registerBot (now : Z) (uuid : string) (userId name type : string)
    (st : t) : t * SBot.t :=
  let botId := "bot_" +:+ Str.substring0 8 uuid in
  let bot :=
    SBot.mk botId userId (sanitize (Some name)) (sanitize (Some type))
      "online" now in
  let st :=
    mk (authSecret st) (users st) (userData st) (<[botId := bot]> (bots st))
       (sessions st) (tasks st) (connections st) (serverLogs st) (rateLimit st) in
  let '(st, ud) := getUserData userId st in
  let st :=
    with_userData
      (<[userId := mkUserData (JsMap.set botId bot (ud_bots ud)) (ud_sessions ud)
                     (ud_tasks ud) (ud_connections ud)]> (userData st)) st in
  (log now "INFO" "Bot registered"
     (JObj [("botId", JStr botId); ("userId", JStr userId);
            ("name", JStr name)]) st,
   bot).

(** [handleAuth(ws, frame)]; [uuid] is the session id. *)
Definition handleAuth (c : Crypto) (now : Z) (uuid : string)
    (ws : ExtWebSocket.t) (frame : RawFrame.t) (st : t)
    : ExtWebSocket.t * t * list Effect :=
  let apiKey :=
    if Js.truthy (field frame "apiKey") then field frame "apiKey"
    else field frame "token" in
  match SecureKey.validateApiKey c apiKey (authSecret st) with
  | None =>
      (ws,
       log now "WARN" "Authentication failed"
         (JObj [("reason", JStr "Invalid API key");
                ("keyPrefix", jopt (Str.substring0 10 <$> apiKey))]) st,
       sendError ws 401 "Invalid API key")
  | Some userId =>
      let ws := ExtWebSocket.with_userId (Some userId) ws in
      let '(st, ud) := getUserData userId st in
      let sessionId := uuid in
      let ud :=
        mkUserData (ud_bots ud) ({[sessionId]} ∪ ud_sessions ud) (ud_tasks ud)
          ({[ExtWebSocket.id ws]} ∪ ud_connections ud) in
      let st :=
        mk (authSecret st) (users st) (<[userId := ud]> (userData st)) (bots st)
           (<[sessionId := mkSSession sessionId userId now now]> (sessions st))
           (tasks st) (connections st) (serverLogs st) (rateLimit st) in
      (ws,
       log now "INFO" "User authenticated"
         (JObj [("userId", JStr userId); ("sessionId", JStr sessionId)]) st,
       sendFrame ws "auth_ok"
         (JObj [("userId", JStr userId); ("sessionId", JStr sessionId);
                ("botCount", JNum (Z.of_nat (List.length (ud_bots ud))))])
       ++ sendFrame ws "status"
            (JObj [("type", JStr "bots_list");
                   ("bots", JArr ((λ e, SBot.to_json e.2) <$> ud_bots ud))]))
  end.

(** Calls of [checkRateLimit(userId, action)] at the given clock readings,
    with the answer of each. *)
Fixpoint checkRateLimit_calls (times : list Z) (userId : option string)
    (action : string) (st : t) : t * list bool :=
  match times with
  | [] => (st, [])
  | now :: rest =>
      let '(st, ok) := checkRateLimit now userId action st in
      let '(st, oks) := checkRateLimit_calls rest userId action st in
      (st, ok :: oks)
  end.

(** Calls of [log], one per entry. *)
Definition log_all (entries : list LogEntry) (st : t) : t :=
  foldl (λ st e, log (l_timestamp e) (l_level e) (l_message e) (l_data e) st)
    st entries.

End Secure.

(** ** Tunnel manager (tunnel-manager.js) *)

Module TunnelManager.

Record Credentials := mkCredentials {
  serverAddr : option string;
  serverPort : option Z;
  authToken : option string;
  apiKey : option string;
}.

(** A tunnel configuration; [buildConfig] spreads two objects into it, so
    every property may be missing. *)
Record TunnelConfig := mkTunnelConfig {
  provider : option string;
  enabled : option bool;
  localPort : option Z;
  credentials : option Credentials;
  publicUrl : option string;
}.

(** The [tunnels] part of the server configuration. *)
Record Config := mkConfig {
  default_provider : string;
  frp_enabled : bool;
  frp_server_addr : option string;
  frp_server_port : option Z;
  frp_auth_token : option string;
  tailscale_enabled : bool;
  tailscale_dns_name : string;
  tailscale_serve_path : string;
  tunnelto_enabled : bool;
  tunnelto_api_key : option string;
}.

Record TunnelStatus := mkStatus {
  s_provider : string;
  s_running : bool;
  s_publicUrl : option string;
  s_localPort : option Z;
  s_startedAt : option Z;
}.

(** The child process as the manager sees it.  [exitCode] is set when the
    child has exited with a code, [signalCode] when a signal ended it;
    [killed] only when [proc.kill()] was called on it. *)
Record ChildProcess := mkProc {
  pid : option Z;
  killed : bool;
  exitCode : option Z;
  signalCode : option string;
}.

Record TunnelProcess := mkTunnel {
  tp_id : string;
  tp_provider : string;
  tp_process : ChildProcess;
  tp_config : TunnelConfig;
  tp_startedAt : Z;
}.

Record t := mk {
  config : Config;
  activeTunnels : gmap string TunnelProcess;
}.

(** What the manager does to the outside. *)
Inductive TEffect :=
| Spawn (command : string) (args : list string)
| WriteFile (path content : string)
| Kill (pid : Z) (signal : string)
| KillChild.

(** How a call of [start] ends.  Its promise settles, fulfilled with a
    status or rejected with an error; or an ['error'] event of the child
    finds no listener: the emitter throws the error out of the event
    callback, an uncaught exception, which takes the process down. *)
Inductive Outcome :=
| Settled (r : Js.result TunnelStatus * t * list TEffect)
| Uncaught (err : string) (eff : list TEffect).

(** What happens to a spawned child while [start] waits.  [ProcError] is
    the ['error'] event of a child that could not be spawned: Node has set
    the child's [exitCode] to the (negative) errno before it emits the
    event, and no ['exit'] event follows. *)
Inductive ProcEvent :=
| Stdout (chunk : string)
| Stderr (chunk : string)
| Exited (code : Z)
| Signalled (signal : string)
| Close (code : option Z)
| ProcError (errno : Z) (message : string).

(** How the [tailscale status] probe ends. *)
Inductive CheckOutcome :=
| CheckClosed (code : option Z)
| CheckErrored (message : string)
| CheckTimedOut.

(** What the environment supplies to one call of [start]: [now] is the
    clock when the tunnel record is made, [later] the clock when [start]
    returns, after the wait. *)
Record Env := mkEnv {
  now : Z;
  later : Z;
  uuid1 : string;
  uuid2 : string;
  child_pid : option Z;
  events : list ProcEvent;
  check : CheckOutcome;
}.

Definition getStatus (provider : string) (st : t) : TunnelStatus :=
  match activeTunnels st !! provider with
  | None => mkStatus provider false None (Some 0) None
  | Some tunnel =>
      mkStatus provider true (publicUrl (tp_config tunnel))
        (localPort (tp_config tunnel)) (Some (tp_startedAt tunnel))
  end.

Definition getAllStatus (st : t) : list TunnelStatus :=
  (λ provider, getStatus provider st) <$> ["frp"; "tailscale"; "tunnelto"].

(** [{ ...a, ...b }]. *)
Definition spread (a b : TunnelConfig) : TunnelConfig :=
  mkTunnelConfig
    (from_option Some (provider a) (provider b))
    (from_option Some (enabled a) (enabled b))
    (from_option Some (localPort a) (localPort b))
    (from_option Some (credentials a) (credentials b))
    (from_option Some (publicUrl a) (publicUrl b)).

Definition no_config : TunnelConfig := mkTunnelConfig None None None None None.

Definition baseConfig (provider : string) (cfg : Config) : TunnelConfig :=
  if bool_decide (provider = "frp") then
    mkTunnelConfig (Some "frp") (Some (frp_enabled cfg)) (Some 3000)
      (Some (mkCredentials (frp_server_addr cfg) (frp_server_port cfg)
               (frp_auth_token cfg) None)) None
  else if bool_decide (provider = "tailscale") then
    mkTunnelConfig (Some "tailscale") (Some (tailscale_enabled cfg)) (Some 3000)
      (Some (mkCredentials None None None None)) None
  else if bool_decide (provider = "tunnelto") then
    mkTunnelConfig (Some "tunnelto") (Some (tunnelto_enabled cfg)) (Some 3000)
      (Some (mkCredentials None None None (tunnelto_api_key cfg))) None
  else no_config.

Definition buildConfig (provider : string) (customConfig : option TunnelConfig)
    (st : t) : TunnelConfig :=
  spread (baseConfig provider (config st)) (default no_config customConfig).

Definition nl : string := String (ascii_of_N 10) "".

Definition show_port (p : option Z) : string :=
  match p with
  | Some n => pretty n
  | None => "undefined"
  end.

(** [generateFrpConfig(config, instanceId)]; it throws when the
    configuration has no credentials. *)
Definition generateFrpConfig (cfg : TunnelConfig) (instanceId : string)
    : Js.result string :=
  match credentials cfg with
  | None => Js.Throw "TypeError: Cannot read properties of undefined (reading 'serverAddr')"
  | Some creds =>
      let port :=
        match serverPort creds with
        | Some n => if bool_decide (n ≠ 0) then n else 7000
        | None => 7000
        end in
      Js.Ok
        ("[common]" +:+ nl +:+
         "server_addr = " +:+ Js.or_else (serverAddr creds) "localhost" +:+ nl +:+
         "server_port = " +:+ pretty port +:+ nl +:+
         (if Js.truthy (authToken creds)
          then "token = " +:+ default "" (authToken creds) +:+ nl else "") +:+
         nl +:+ "[tunnels2bots-" +:+ instanceId +:+ "]" +:+ nl +:+
         "type = tcp" +:+ nl +:+ "local_ip = 127.0.0.1" +:+ nl +:+
         "local_port = " +:+ show_port (localPort cfg) +:+ nl +:+
         "remote_port = 0  # Let server assign port" +:+ nl)
  end.

(** [/start proxy success\. url = (http[^\s]+)/] tried at the start of
    [s]: the capture. *)
Definition frp_url_at (s : string) : option string :=
  match Str.strip_prefix "start proxy success. url = http" s with
  | Some rest =>
      let tail := Str.take_while Str.non_space rest in
      if bool_decide (tail = "") then None else Some ("http" +:+ tail)
  | None => None
  end.

Definition frp_url (output : string) : option string :=
  Str.first_match frp_url_at output.

(** The prefix of [s] that equals [p] up to the case of letters, and the
    rest. *)
Fixpoint strip_prefix_ci (p s : string) : option (string * string) :=
  match p with
  | EmptyString => Some (EmptyString, s)
  | String a p' =>
      match s with
      | EmptyString => None
      | String b s' =>
          if Ascii.eqb (Str.lower a) (Str.lower b) then
            match strip_prefix_ci p' s' with
            | Some (m, r) => Some (String b m, r)
            | None => None
            end
          else None
      end
  end.

Definition is_sep (a : ascii) : bool := Ascii.eqb a ":" || Str.is_space a.

(** [/url[:\s]+(https:\/\/[^\s]+)/i] tried at the start of [s]. *)
Definition tunnelto_url_at (s : string) : option string :=
  match strip_prefix_ci "url" s with
  | Some (_, rest) =>
      if bool_decide (Str.take_while is_sep rest = "") then None
      else
        match strip_prefix_ci "https://" (Str.drop_while is_sep rest) with
        | Some (scheme, rest') =>
            let tail := Str.take_while Str.non_space rest' in
            if bool_decide (tail = "") then None else Some (scheme +:+ tail)
        | None => None
        end
  | None => None
  end.

Definition tunnelto_url (output : string) : option string :=
  Str.first_match tunnelto_url_at output.

(** A child ends once: with an exit code, or by a signal (and then its
    [exitCode] stays [null]). *)
Definition proc_exit (code : option Z) (signal : option string)
    (p : ChildProcess) : ChildProcess :=
  match exitCode p, signalCode p with
  | None, None => mkProc (pid p) (killed p) code signal
  | _, _ => p
  end.

(** The state the event handlers of a starting tunnel work on: the child,
    the [tunnelProcess.config.publicUrl] found so far, and the manager. *)
Record Waiting := mkWaiting {
  w_proc : ChildProcess;
  w_publicUrl : option string;
  w_manager : t;
}.

(** The handlers [start*Tunnel] registers: ['data'] on [stdout] scans the
    chunk for the URL, ['close'] removes the provider's entry; the child
    itself records how it ended (for a failed spawn, the errno as its
    [exitCode]). *)
Definition on_event (key : string) (scan : string → option string)
    (ev : ProcEvent) (w : Waiting) : Waiting :=
  match ev with
  | Stdout chunk =>
      match scan chunk with
      | Some url => mkWaiting (w_proc w) (Some url) (w_manager w)
      | None => w
      end
  | Stderr _ => w
  | Exited code =>
      mkWaiting (proc_exit (Some code) None (w_proc w)) (w_publicUrl w)
        (w_manager w)
  | Signalled signal =>
      mkWaiting (proc_exit None (Some signal) (w_proc w)) (w_publicUrl w)
        (w_manager w)
  | Close _ =>
      mkWaiting (w_proc w) (w_publicUrl w)
        (mk (config (w_manager w)) (delete key (activeTunnels (w_manager w))))
  | ProcError errno _ =>
      mkWaiting (proc_exit (Some errno) None (w_proc w)) (w_publicUrl w)
        (w_manager w)
  end.

(** The error an event throws out of the emitter: an ['error'] event on a
    child with no ['error'] listener ([on_error] says whether the caller
    registered one). *)
Definition unhandled (on_error : bool) (ev : ProcEvent) : option string :=
  match ev with
  | ProcError _ message => if on_error then None else Some message
  | _ => None
  end.

(** The events of the wait, in order, up to the first one that is thrown
    out as an uncaught exception. *)
Fixpoint wait (key : string) (scan : string → option string) (on_error : bool)
    (evs : list ProcEvent) (w : Waiting) : Js.result Waiting :=
  match evs with
  | [] => Js.Ok w
  | ev :: rest =>
      match unhandled on_error ev with
      | Some e => Js.Throw e
      | None => wait key scan on_error rest (on_event key scan ev w)
      end
  end.

(** The state after the events when every one of them was taken. *)
Definition handled (key : string) (scan : string → option string)
    (evs : list ProcEvent) (w : Waiting) : Waiting :=
  foldl (λ w ev, on_event key scan ev w) w evs.

Definition with_publicUrl (url : option string) (cfg : TunnelConfig)
    : TunnelConfig :=
  mkTunnelConfig (provider cfg) (enabled cfg) (localPort cfg) (credentials cfg)
    url.

Definition frp_placeholder (instanceId : string) : string :=
  "http://" +:+ instanceId +:+ ".frp.local".

(** [startFrpTunnel(config)].  [events env] are the child's events during
    the two seconds of [setTimeout]; the child has an ['error'] listener.
    ([spawn] is taken to return a child: what it reports of a command
    that cannot be run arrives as the ['error'] event.) *)
Definition startFrpTunnel (env : Env) (cfg : TunnelConfig) (st : t) : Outcome :=
  let instanceId := Str.substring0 8 (uuid1 env) in
  match generateFrpConfig cfg instanceId with
  | Js.Throw e => Settled (Js.Throw e, st, [])
  | Js.Ok frpcConfig =>
      let configPath := "/tmp/frpc-" +:+ instanceId +:+ ".ini" in
      let eff := [WriteFile configPath frpcConfig; Spawn "frpc" ["-c"; configPath]] in
      let proc := mkProc (child_pid env) false None None in
      match wait "frp" frp_url true (events env)
              (mkWaiting proc (Some (frp_placeholder instanceId)) st) with
      | Js.Throw e => Uncaught e eff
      | Js.Ok w =>
          if killed (w_proc w) || bool_decide (exitCode (w_proc w) ≠ None) then
            Settled (Js.Throw "frpc process failed to start", w_manager w, eff)
          else
            let tunnelProcess :=
              mkTunnel instanceId "frp" (w_proc w)
                (with_publicUrl (w_publicUrl w) cfg) (now env) in
            Settled
              (Js.Ok (mkStatus "frp" true (w_publicUrl w) (localPort cfg)
                        (Some (later env))),
               mk (config (w_manager w))
                  (<["frp" := tunnelProcess]> (activeTunnels (w_manager w))),
               eff)
      end
  end.

(** [startTailscaleTunnel(config)]: the probe, then [tailscale serve];
    the URL comes from the configured name.  The probe has an ['error']
    listener, the [serve] child has none. *)
Definition startTailscaleTunnel (env : Env) (cfg : TunnelConfig) (st : t)
    : Outcome :=
  let probe := Spawn "tailscale" ["status"] in
  match check env with
  | CheckErrored e => Settled (Js.Throw e, st, [probe])
  | CheckTimedOut =>
      Settled (Js.Throw "Tailscale check timeout", st, [probe; KillChild])
  | CheckClosed code =>
      if bool_decide (code ≠ Some 0) then
        Settled (Js.Throw "Tailscale not available", st, [probe])
      else
        let dnsName := tailscale_dns_name (config st) in
        let servePath := tailscale_serve_path (config st) in
        let eff :=
          [probe;
           Spawn "tailscale"
             ["serve"; "--bg"; "--yes"; "--https"; "443"; "--to";
              "localhost:" +:+ show_port (localPort cfg) +:+ servePath]] in
        let url := "https://" +:+ dnsName +:+ ".tailnet.ts.net" +:+ servePath in
        let proc := mkProc (child_pid env) false None None in
        match wait "tailscale" (λ _, None) false (events env)
                (mkWaiting proc (Some url) st) with
        | Js.Throw e => Uncaught e eff
        | Js.Ok w =>
            let tunnelProcess :=
              mkTunnel (Str.substring0 8 (uuid1 env)) "tailscale" (w_proc w)
                (with_publicUrl (w_publicUrl w) cfg) (now env) in
            Settled
              (Js.Ok (mkStatus "tailscale" true (w_publicUrl w) (localPort cfg)
                        (Some (later env))),
               mk (config (w_manager w))
                  (<["tailscale" := tunnelProcess]> (activeTunnels (w_manager w))),
               eff)
        end
  end.

(** [startTunneltoTunnel(config)]: [uuid1] makes the subdomain, [uuid2]
    the instance id.  The child has no ['error'] listener. *)
Definition startTunneltoTunnel (env : Env) (cfg : TunnelConfig) (st : t)
    : Outcome :=
  match credentials cfg with
  | None =>
      Settled
        (Js.Throw "TypeError: Cannot read properties of undefined (reading 'apiKey')",
         st, [])
  | Some creds =>
      let args := ["dev"; "--port"; show_port (localPort cfg)] in
      let args :=
        if Js.truthy (apiKey creds)
        then args ++ ["--auth"; default "" (apiKey creds)] else args in
      let subdomain := "t2b-" +:+ Str.substring0 8 (uuid1 env) in
      let args := args ++ ["--subdomain"; subdomain] in
      let proc := mkProc (child_pid env) false None None in
      match wait "tunnelto" tunnelto_url false (events env)
              (mkWaiting proc (Some ("https://" +:+ subdomain +:+ ".tunnelto.dev"))
                 st) with
      | Js.Throw e => Uncaught e [Spawn "tunnelto" args]
      | Js.Ok w =>
          let tunnelProcess :=
            mkTunnel (Str.substring0 8 (uuid2 env)) "tunnelto" (w_proc w)
              (with_publicUrl (w_publicUrl w) cfg) (now env) in
          Settled
            (Js.Ok (mkStatus "tunnelto" true (w_publicUrl w) (localPort cfg)
                      (Some (later env))),
             mk (config (w_manager w))
                (<["tunnelto" := tunnelProcess]> (activeTunnels (w_manager w))),
             [Spawn "tunnelto" args])
      end
  end.

(** [start(provider, customConfig)]. *)
Definition start (env : Env) (provider : string)
    (customConfig : option TunnelConfig) (st : t) : Outcome :=
  match activeTunnels st !! provider with
  | Some existing => Settled (Js.Ok (getStatus provider st), st, [])
  | None =>
      let cfg := buildConfig provider customConfig st in
      if bool_decide (provider = "frp") then startFrpTunnel env cfg st
      else if bool_decide (provider = "tailscale") then
        startTailscaleTunnel env cfg st
      else if bool_decide (provider = "tunnelto") then
        startTunneltoTunnel env cfg st
      else Settled (Js.Throw ("Unknown tunnel provider: " +:+ provider), st, [])
  end.

Definition startDefault (env : Env) (st : t) : Outcome :=
  start env (default_provider (config st)) None st.

(** [stop(provider)].  [kill_error] is the error [process.kill] throws,
    when it throws ([ESRCH] when no process has the pid any more); the
    entry is deleted after the call of [process.kill], so not when that
    call throws. *)
Definition stop (kill_error : option string) (provider : string) (st : t)
    : Js.result unit * t * list TEffect :=
  match activeTunnels st !! provider with
  | None => (Js.Ok (), st, [])
  | Some tunnel =>
      let stopped := mk (config st) (delete provider (activeTunnels st)) in
      match pid (tp_process tunnel) with
      | Some p =>
          if bool_decide (p ≠ 0) then
            match kill_error with
            | Some e => (Js.Throw e, st, [Kill p "SIGTERM"])
            | None => (Js.Ok (), stopped, [Kill p "SIGTERM"])
            end
          else (Js.Ok (), stopped, [])
      | None => (Js.Ok (), stopped, [])
      end
  end.

(** The output chunks among the events. *)
Definition stdout_chunks (evs : list ProcEvent) : list string :=
  omap (λ ev, match ev with Stdout chunk => Some chunk | _ => None end) evs.

(** The URL of the last chunk the pattern matches, [url0] when none does. *)
Definition scanned (scan : string → option string) (evs : list ProcEvent)
    (url0 : option string) : option string :=
  foldl (λ url chunk, from_option Some url (scan chunk)) url0 (stdout_chunks evs).

(** The [exitCode] of the child after the events: the code it exited
    with, or the errno of the failed spawn; none for a child that has not
    ended or that a signal ended. *)
Fixpoint exit_code (evs : list ProcEvent) : option Z :=
  match evs with
  | [] => None
  | Exited code :: _ => Some code
  | ProcError errno _ :: _ => Some errno
  | Signalled _ :: _ => None
  | _ :: rest => exit_code rest
  end.

(** Whether the events say that the child has ended. *)
Definition ended (evs : list ProcEvent) : bool :=
  existsb (λ ev, match ev with
                 | Exited _ | Signalled _ | Close _ | ProcError _ _ => true
                 | Stdout _ | Stderr _ => false
                 end) evs.

(** The first ['error'] event among the events. *)
Fixpoint spawn_error (evs : list ProcEvent) : option string :=
  match evs with
  | [] => None
  | ProcError _ message :: _ => Some message
  | _ :: rest => spawn_error rest
  end.

End TunnelManager.

(** ** A small deployment

    Two users: [u1], who owns the bot [bot_1], and [u2], who owns none and
    is authenticated on connection [c2]; connection [c3] has not
    authenticated. *)

Module Scenario.

Definition crypto : Crypto := mkCrypto (λ s, s) (λ _ _, None).

Definition bot1 : Bot.t :=
  Bot.mk "bot_1" "u1" "Clawra" "" "openclaw" "online"
    BotRegistry.default_config None 0 0.

Definition registry : BotRegistry.t :=
  BotRegistry.mk {["bot_1" := bot1]} {["u1" := ["bot_1"]]}.

Definition ws_u2 : ExtWebSocket.t :=
  ExtWebSocket.mk "c2" "c2" (Some "u2") ∅ 0 OPEN "web" "Mozilla/5.0".

Definition ws_new : ExtWebSocket.t :=
  ExtWebSocket.mk "c3" "c3" None ∅ 0 OPEN "web" "Mozilla/5.0".

Definition server : Server.t :=
  Server.mk (Server.mkConfig "0.0.0.0" 3000 (Some 5) 300 30000)
    SessionManager.empty registry (AuthService.mk "secret" "24h" ∅)
    [("c2", ws_u2); ("c3", ws_new)].

Definition env : Server.Env :=
  Server.mkEnv 1000 "id-1" "id-2" (JNum 5) (JObj []).

Definition message_frame : RawFrame.t :=
  RawFrame.mk (Some "message") (Some (<["to" := "bot_1"]> {["text" := "hi"]}))
    (Some "f1").

Definition task_frame : RawFrame.t :=
  RawFrame.mk (Some "task")
    (Some (<["botId" := "bot_1"]> {["title" := "sweep"]})) (Some "f2").

Definition subscribe_frame (botId : string) : RawFrame.t :=
  RawFrame.mk (Some "subscribe") (Some {["botId" := botId]}) (Some "f3").

Definition ping_frame : RawFrame.t := RawFrame.mk (Some "ping") None None.

Definition status_frame : RawFrame.t :=
  RawFrame.mk (Some "status") (Some {["request" := "connections"]}) (Some "f4").

Definition unsubscribe_frame : RawFrame.t :=
  RawFrame.mk (Some "unsubscribe") (Some {["botId" := "bot_1"]}) (Some "f5").

Definition presence_frame : RawFrame.t :=
  RawFrame.mk (Some "presence") None None.

(** The same two users on the hardened server. *)
Definition sbot1 : Secure.SBot.t :=
  Secure.SBot.mk "bot_1" "u1" "Clawra" "openclaw" "online" 0.

Definition secure_server : Secure.t :=
  Secure.mk "secret" ∅
    {["u1" := Secure.mkUserData [("bot_1", sbot1)] ∅ ∅ ∅]}
    {["bot_1" := sbot1]} ∅ ∅ [("c2", ws_u2)] [] ∅.

Definition secure_server_without_bot : Secure.t :=
  Secure.mk "secret" ∅ ∅ ∅ ∅ ∅ [("c2", ws_u2)] [] ∅.

Definition registry_without_bot : BotRegistry.t := BotRegistry.empty.

(** A tunnel manager with nothing running, and three runs of [frpc]: one
    that prints nothing while the manager waits, one that prints the
    success line, one that exits with code 1. *)
Definition manager : TunnelManager.t :=
  TunnelManager.mk
    (TunnelManager.mkConfig "frp" true (Some "frp.example.org") (Some 7000)
       (Some "token") false "gateway" "/" false None)
    ∅.

Definition quiet_run : TunnelManager.Env :=
  TunnelManager.mkEnv 1000 3000 "abcd1234-0000-4000-8000-000000000000"
    "ffff0000-0000-4000-8000-000000000000" (Some 4242) []
    (TunnelManager.CheckClosed (Some 0)).

Definition good_run : TunnelManager.Env :=
  TunnelManager.mkEnv 1000 3000 "abcd1234-0000-4000-8000-000000000000"
    "ffff0000-0000-4000-8000-000000000000" (Some 4242)
    [TunnelManager.Stdout "[I] login to server success";
     TunnelManager.Stdout
       "[I] start proxy success. url = http://frp.example.org:6001 ok"]
    (TunnelManager.CheckClosed (Some 0)).

Definition crashed_run : TunnelManager.Env :=
  TunnelManager.mkEnv 1000 3000 "abcd1234-0000-4000-8000-000000000000"
    "ffff0000-0000-4000-8000-000000000000" (Some 4242)
    [TunnelManager.Stderr "login to server failed";
     TunnelManager.Exited 1; TunnelManager.Close (Some 1)]
    (TunnelManager.CheckClosed (Some 0)).

(** Two more runs: a child that a signal ends while the manager waits, and
    a command that cannot be spawned (no pid, the ['error'] event, then
    ['close'] with the errno). *)
Definition signalled_run : TunnelManager.Env :=
  TunnelManager.mkEnv 1000 3000 "abcd1234-0000-4000-8000-000000000000"
    "ffff0000-0000-4000-8000-000000000000" (Some 4242)
    [TunnelManager.Signalled "SIGKILL"; TunnelManager.Close None]
    (TunnelManager.CheckClosed (Some 0)).

Definition failed_spawn_run : TunnelManager.Env :=
  TunnelManager.mkEnv 1000 3000 "abcd1234-0000-4000-8000-000000000000"
    "ffff0000-0000-4000-8000-000000000000" None
    [TunnelManager.ProcError (-2) "spawn ENOENT"; TunnelManager.Close (Some (-2))]
    (TunnelManager.CheckClosed (Some 0)).

(** The manager after the frp tunnel of [good_run] has started. *)
Definition manager_frp : TunnelManager.t :=
  match TunnelManager.start good_run "frp" None manager with
  | TunnelManager.Settled (_, st, _) => st
  | TunnelManager.Uncaught _ _ => manager
  end.

Definition sample_calls : list SessionManager.op :=
  [ SessionManager.CreateSession "c1" "u1" "s1" 10;
    SessionManager.CreateSession "c2" "u1" "s2" 20;
    SessionManager.CreateSession "c1" "u2" "s2" 30;
    SessionManager.EndSession "c1"; SessionManager.EndSession "c2";
    SessionManager.CreateSession "c3" "u1" "s3" 40 ].


(** Two owners register a bot each; the first bot comes online, the
    second is deleted. *)
Definition two_owners : list BotRegistry.op :=
  [ BotRegistry.Register
      (BotRegistry.mkRegisterParams "u1" "Clawra" None "openclaw" None)
      "aaaaaaaa-0000-4000-8000-000000000000" 1;
    BotRegistry.Register
      (BotRegistry.mkRegisterParams "u2" "Helper" None "custom" None)
      "bbbbbbbb-0000-4000-8000-000000000000" 2;
    BotRegistry.UpdateBotStatus "bot_aaaaaaaa" "online" 3;
    BotRegistry.DeleteBot "bot_bbbbbbbb" ].

(** An ['auth'] frame with an API key for [u1]. *)
Definition auth_frame : RawFrame.t :=
  RawFrame.mk (Some "auth") (Some {["apiKey" := "t2b_u1_0123456789abcdefXYZ"]})
    (Some "a1").

(** The deployment with at most one connection per user. *)
Definition strict_server : Server.t :=
  Server.mk (Server.mkConfig "0.0.0.0" 3000 (Some 1) 300 30000)
    SessionManager.empty registry (AuthService.mk "secret" "24h" ∅)
    [("c3", ws_new)].

(** The owner of [bot_1] on the hardened server, a server whose secret
    gives [u1] a well-formed signature under [crypto], and the ['auth']
    frame with the key generated for [u1] there. *)
Definition ws_u1 : ExtWebSocket.t :=
  ExtWebSocket.mk "c1" "c1" (Some "u1") ∅ 0 OPEN "web" "Mozilla/5.0".

Definition signed_server : Secure.t :=
  Secure.mk "secret-0123456789" ∅ ∅ ∅ ∅ ∅ [] [] ∅.

Definition signed_auth_frame : RawFrame.t :=
  RawFrame.mk (Some "auth")
    (Some {["apiKey" := SecureKey.generateApiKey crypto "u1" "secret-0123456789"]})
    None.
End Scenario.

(** * Properties *)

(** ** JavaScript helpers *)

Module JsFacts.
Lemma truthy_Some s : Js.truthy (Some s) = true ↔ s ≠ "".
Proof. unfold Js.truthy. by rewrite bool_decide_eq_true. Qed.

Lemma truthy_is_Some v : Js.truthy v = true → ∃ s, v = Some s ∧ s ≠ "".
Proof.
  destruct v as [s|]; simpl; [|done].
  rewrite bool_decide_eq_true. eauto.
Qed.


End JsFacts.

Module JsMapFacts.
Import JsMap.
Section facts.
Context {V : Type}.
Implicit Types (m : list (string * V)) (v : V) (k : string).

Lemma get_set_eq k v m : get k (set k v m) = Some v.
Proof.
  induction m as [|[k' v'] r IH]; simpl.
  - by rewrite decide_True.
  - destruct (decide (k' = k)) as [->|Hne]; simpl.
    + by rewrite decide_True.
    + by rewrite decide_False.
Qed.

Lemma get_set_ne k k' v m : k ≠ k' → get k' (set k v m) = get k' m.
Proof.
  intros Hne. induction m as [|[k0 v0] r IH]; simpl.
  - by rewrite decide_False.
  - destruct (decide (k0 = k)) as [->|Hk0]; simpl.
    + by rewrite !decide_False.
    + destruct (decide (k0 = k')); [done|apply IH].
Qed.

Lemma get_set k k' v m :
  get k' (set k v m) = if decide (k = k') then Some v else get k' m.
Proof.
  destruct (decide (k = k')) as [->|Hne];
    [apply get_set_eq | by apply get_set_ne].
Qed.

Lemma get_delete_eq k m : get k (delete k m) = None.
Proof.
  induction m as [|[k' v'] r IH]; simpl; [done|].
  destruct (decide (k' = k)) as [->|Hne]; simpl; [done|].
  by rewrite decide_False.
Qed.

Lemma get_delete_ne k k' m : k ≠ k' → get k' (delete k m) = get k' m.
Proof.
  intros Hne. induction m as [|[k0 v0] r IH]; simpl; [done|].
  destruct (decide (k0 = k)) as [->|Hk0]; simpl.
  - by rewrite decide_False.
  - destruct (decide (k0 = k')); [done|apply IH].
Qed.

Lemma get_elem_of k v m : get k m = Some v → (k, v) ∈ m.
Proof.
  induction m as [|[k' v'] r IH]; simpl; [done|].
  destruct (decide (k' = k)) as [->|Hne].
  - intros [= ->]. left.
  - intros H. right. by apply IH.
Qed.

Lemma get_None_keys k m : get k m = None ↔ k ∉ keys m.
Proof.
  unfold keys. induction m as [|[k' v'] r IH]; simpl.
  - split; [intros _; apply not_elem_of_nil|done].
  - rewrite not_elem_of_cons. destruct (decide (k' = k)) as [->|Hne].
    + split; [done|]. intros [? _]. done.
    + rewrite IH. split; [intros ?; split; [congruence|done]|by intros [_ ?]].
Qed.

Lemma elem_of_get k v m : NoDup (keys m) → (k, v) ∈ m → get k m = Some v.
Proof.
  unfold keys. induction m as [|[k' v'] r IH]; simpl.
  - intros _ H. by apply elem_of_nil in H.
  - intros Hnd Hin. apply NoDup_cons in Hnd as [Hk' Hnd].
    apply elem_of_cons in Hin as [[= -> ->]|Hin].
    + by rewrite decide_True.
    + destruct (decide (k' = k)) as [->|Hne]; [|by apply IH].
      exfalso. apply Hk'. apply list_elem_of_fmap. by exists (k, v).
Qed.

Lemma keys_set_in k v m : is_Some (get k m) → keys (set k v m) = keys m.
Proof.
  unfold keys. induction m as [|[k' v'] r IH]; simpl.
  - by intros [? ?].
  - destruct (decide (k' = k)) as [->|Hne]; simpl; [done|].
    intros H. f_equal. by apply IH.
Qed.

Lemma keys_set_new k v m : get k m = None → keys (set k v m) = keys m ++ [k].
Proof.
  unfold keys. induction m as [|[k' v'] r IH]; simpl; [done|].
  destruct (decide (k' = k)) as [->|Hne]; simpl; [done|].
  intros H. f_equal. by apply IH.
Qed.

Lemma NoDup_keys_set k v m : NoDup (keys m) → NoDup (keys (set k v m)).
Proof.
  intros Hnd. destruct (get k m) as [v0|] eqn:Hg.
  - by rewrite keys_set_in.
  - rewrite keys_set_new by done. apply NoDup_app. split; [done|].
    split; [|apply NoDup_singleton].
    intros x Hx Hx'. apply list_elem_of_singleton in Hx' as ->.
    by apply get_None_keys in Hg.
Qed.

Lemma keys_delete_sub k m x : x ∈ keys (delete k m) → x ∈ keys m.
Proof.
  unfold keys. induction m as [|[k' v'] r IH]; simpl; [done|].
  destruct (decide (k' = k)) as [->|Hne]; simpl.
  - intros H. right. by apply IH.
  - rewrite !elem_of_cons. intros [->|H]; [by left|right; by apply IH].
Qed.

Lemma NoDup_keys_delete k m : NoDup (keys m) → NoDup (keys (delete k m)).
Proof.
  unfold keys. induction m as [|[k' v'] r IH]; simpl; [done|].
  intros Hnd. apply NoDup_cons in Hnd as [Hk' Hnd].
  destruct (decide (k' = k)) as [->|Hne]; simpl; [by apply IH|].
  apply NoDup_cons. split; [|by apply IH].
  intros H. apply Hk'. by apply (keys_delete_sub k).
Qed.


End facts.
End JsMapFacts.

(** ** Session manager *)

Module SessionFacts.
Import SessionManager JsMapFacts.

Lemma well_formed_consistent st : well_formed st → consistent st.
Proof.
  intros (Hnd & Hs & Hu). split.
  - intros u sid Hus. destruct (Hu u sid Hus) as (s & Hg & Hsu).
    exists s. split_and!; [done..|]. by destruct (Hs sid s Hg) as (_ & _ & ?).
  - intros sid1 sid2 s1 s2 H1 H2 Heq.
    destruct (Hs _ _ H1) as (_ & Hi1 & _).
    destruct (Hs _ _ H2) as (_ & Hi2 & _).
    rewrite Heq in Hi1. congruence.
Qed.

Lemma well_formed_empty : well_formed empty.
Proof.
  split_and!; simpl.
  - apply NoDup_nil_2.
  - intros ?? [=].
  - intros ?? H. by rewrite lookup_empty in H.
Qed.

Lemma holder_Some c ss sid s :
  holder c ss = Some (sid, s) → (sid, s) ∈ ss ∧ c ∈ Session.connectionIds s.
Proof.
  induction ss as [|[k v] r IH]; simpl; [done|].
  destruct (decide (c ∈ Session.connectionIds v)) as [Hin|Hnin].
  - intros [= -> ->]. split; [left|done].
  - intros H. destruct (IH H) as [? ?]. split; [by right|done].
Qed.

Lemma holder_None c ss sid s :
  holder c ss = None → (sid, s) ∈ ss → c ∉ Session.connectionIds s.
Proof.
  induction ss as [|[k v] r IH]; simpl.
  - intros _ H. by apply elem_of_nil in H.
  - destruct (decide (c ∈ Session.connectionIds v)) as [Hin|Hnin]; [done|].
    intros H Hel. apply elem_of_cons in Hel as [[= -> ->]|Hel]; [done|].
    by apply IH.
Qed.

(** A fresh session: the user had none. *)
Lemma create_fresh_well_formed c u uuid now st :
  well_formed st → uuid ≠ "" → JsMap.get uuid (sessions st) = None →
  userSessions st !! u = None →
  well_formed
    (with_sessions st
       (JsMap.set uuid (Session.mk uuid u {[c]} now now) (sessions st))
       (<[u := uuid]> (userSessions st))).
Proof.
  intros (Hnd & Hs & Hu) Hne Hfresh Hnone. split_and!; simpl.
  - by apply NoDup_keys_set.
  - intros sid s. rewrite get_set. destruct (decide (uuid = sid)) as [<-|Hd].
    + intros [= <-]. simpl. rewrite lookup_insert_eq.
      split_and!; [done..|]. apply non_empty_singleton_L.
    + intros Hg. destruct (Hs _ _ Hg) as (? & Hi & ?).
      split_and!; [done| |done].
      rewrite lookup_insert_ne; [done|]. intros Heq. rewrite <- Heq in Hi.
      congruence.
  - intros u' sid. rewrite lookup_insert.
    destruct (decide (u = u')) as [<-|Hd].
    + intros [= <-]. eexists. by rewrite get_set_eq.
    + intros Hus. destruct (Hu _ _ Hus) as (s & Hg & ?).
      exists s. split; [|done]. rewrite get_set_ne; [done|]. congruence.
Qed.

(** Joining the user's session. *)
Lemma create_join_well_formed sid s s' st :
  well_formed st → JsMap.get sid (sessions st) = Some s →
  Session.userId s' = Session.userId s → Session.connectionIds s' ≠ ∅ →
  well_formed (with_sessions st (JsMap.set sid s' (sessions st)) (userSessions st)).
Proof.
  intros (Hnd & Hs & Hu) Hg Hsame Hne. split_and!; simpl.
  - by apply NoDup_keys_set.
  - intros k v. rewrite get_set. destruct (decide (sid = k)) as [<-|Hd].
    + intros [= <-]. destruct (Hs _ _ Hg) as (? & ? & ?).
      rewrite Hsame. done.
    + apply Hs.
  - intros u k Hus. destruct (Hu _ _ Hus) as (v & Hv & Hvu).
    rewrite get_set. destruct (decide (sid = k)) as [<-|Hd].
    + exists s'. split; [done|]. congruence.
    + by exists v.
Qed.

Lemma createSession_well_formed c u uuid now st :
  well_formed st → uuid ≠ "" → JsMap.get uuid (sessions st) = None →
  ∃ st' s, createSession c u uuid now st = Js.Ok (st', s) ∧ well_formed st'.
Proof.
  intros Hwf Hne Hfresh. pose proof Hwf as (Hnd & Hs & Hu).
  unfold createSession. destruct (userSessions st !! u) as [sid|] eqn:Hus.
  - destruct (Hu _ _ Hus) as (s & Hg & Hsu).
    destruct (Hs _ _ Hg) as (Hsid & _ & _).
    simpl. rewrite bool_decide_eq_true_2 by done. rewrite Hg.
    eexists _, _. split; [done|].
    eapply create_join_well_formed; [done..|]. simpl. set_solver.
  - eexists _, _. split; [done|]. by apply create_fresh_well_formed.
Qed.

Lemma endSession_well_formed c st : well_formed st → well_formed (endSession c st).
Proof.
  intros Hwf. pose proof Hwf as (Hnd & Hs & Hu). unfold endSession.
  destruct (holder c (sessions st)) as [[sid s]|] eqn:Hh; [|done].
  apply holder_Some in Hh as [Hel Hc].
  pose proof (elem_of_get _ _ _ Hnd Hel) as Hg.
  destruct (decide _) as [Hz|Hnz].
  - split_and!; simpl.
    + by apply NoDup_keys_delete.
    + intros k v Hkv.
      assert (k ≠ sid) as Hk by (intros ->; by rewrite get_delete_eq in Hkv).
      rewrite get_delete_ne in Hkv by done.
      destruct (Hs _ _ Hkv) as (? & Hi & ?). split_and!; [done| |done].
      rewrite lookup_delete_ne; [done|]. intros Heq.
      destruct (Hs _ _ Hg) as (_ & Hi' & _). rewrite Heq in Hi'. congruence.
    + intros u k. destruct (decide (Session.userId s = u)) as [<-|Hd].
      { by rewrite lookup_delete_eq. }
      rewrite lookup_delete_ne by done. intros Hus.
      destruct (Hu _ _ Hus) as (v & Hv & Hvu). exists v. split; [|done].
      rewrite get_delete_ne; [done|]. intros <-. congruence.
  - eapply create_join_well_formed; [done..|]. simpl.
    intros Hem. apply Hnz. by rewrite Hem, size_empty.
Qed.

Lemma run_well_formed ops : ∀ st,
  well_formed st → uuids_fresh ops st = true →
  ∃ st', run ops st = Js.Ok st' ∧ well_formed st'.
Proof.
  induction ops as [|o rest IH]; intros st Hwf Hfresh; simpl in *.
  - by exists st.
  - apply andb_true_iff in Hfresh as [Hok Hrest]. destruct o as [c u uuid now|c].
    + simpl in *. apply andb_true_iff in Hok as [Hne Hnew].
      apply bool_decide_eq_true in Hne. apply negb_true_iff in Hnew.
      unfold JsMap.has in Hnew. apply bool_decide_eq_false in Hnew.
      assert (JsMap.get uuid (sessions st) = None) as Hnone.
      { destruct (JsMap.get uuid (sessions st)) eqn:E; [|done].
        exfalso. apply Hnew. by eexists. }
      destruct (createSession_well_formed c u uuid now st Hwf Hne Hnone)
        as (st' & s & Hcs & Hwf').
      rewrite Hcs in *. by apply IH.
    + simpl in *. apply IH; [by apply endSession_well_formed|done].
Qed.

(** C10. After any sequence of [createSession] and [endSession] calls on
    a new session manager, [uuidv4] handing out non-empty unused
    identifiers, no call has thrown and the two stores are consistent:
    every entry of [userSessions] names a stored session of that user
    with a non-empty [connectionIds], and no user has two stored
    sessions. *)
Theorem sessions_index_consistent (ops : list op) :
  uuids_fresh ops empty = true →
  ∃ st, run ops empty = Js.Ok st ∧ consistent st.
Proof.
  intros Hfresh.
  destruct (run_well_formed ops empty well_formed_empty Hfresh) as (st & Hr & Hwf).
  exists st. split; [done|]. by apply well_formed_consistent.
Qed.

Lemma sessions_index_consistent_witness :
  uuids_fresh Scenario.sample_calls empty = true ∧
  ∃ st, run Scenario.sample_calls empty = Js.Ok st ∧ consistent st.
Proof.
  split; [vm_compute; reflexivity|].
  apply (sessions_index_consistent Scenario.sample_calls). vm_compute. reflexivity.
Defined.

Lemma set_set {V} k (v v' : V) m : JsMap.set k v' (JsMap.set k v m) = JsMap.set k v' m.
Proof.
  induction m as [|[k0 v0] r IH]; simpl.
  - by rewrite decide_True.
  - destruct (decide (k0 = k)) as [->|Hne]; simpl.
    + by rewrite decide_True.
    + rewrite decide_False by done. by rewrite IH.
Qed.

(** What the first of two attaches leaves behind: the index names a
    stored session, under a truthy key, that has the connection. *)
Lemma createSession_post c u uuid now st st1 s1 :
  uuid ≠ "" → createSession c u uuid now st = Js.Ok (st1, s1) →
  ∃ sid, sid ≠ "" ∧ userSessions st1 !! u = Some sid ∧
         JsMap.get sid (sessions st1) = Some s1 ∧
         c ∈ Session.connectionIds s1 ∧
         Session.lastActivityAt s1 = now ∧
         ∃ m, sessions st1 = JsMap.set sid s1 m.
Proof.
  intros Hne. unfold createSession.
  destruct (userSessions st !! u) as [sid|] eqn:Hus; simpl.
  - destruct (bool_decide (sid ≠ "")) eqn:Ht.
    + apply bool_decide_eq_true in Ht.
      destruct (JsMap.get sid (sessions st)) as [s|] eqn:Hg; [|done].
      intros [= <- <-]. exists sid. simpl.
      rewrite get_set_eq. split_and!; [done..|set_solver|done|by eexists].
    + intros [= <- <-]. exists uuid. simpl.
      rewrite get_set_eq, lookup_insert_eq.
      split_and!; [done..|set_solver|done|by eexists].
  - intros [= <- <-]. exists uuid. simpl.
    rewrite get_set_eq, lookup_insert_eq.
    split_and!; [done..|set_solver|done|by eexists].
Qed.

(** C5. Attaching connection [c] for user [u] a second time, right after
    a first attach that returned, returns as well and changes nothing
    but the [lastActivityAt] of the user's session: the session returned
    is the one the first attach returned, its [connectionIds] is the same
    set (which has [c], and has not grown), the stored session ids and
    the user index are the same (no second session), and every stored
    session has the members it had.  When the clock has not advanced, the
    whole state is the same. *)
Theorem createSession_twice c u uuid1 uuid2 t1 t2 st st1 s1 :
  uuid1 ≠ "" →
  createSession c u uuid1 t1 st = Js.Ok (st1, s1) →
  ∃ st2 s2,
    createSession c u uuid2 t2 st1 = Js.Ok (st2, s2) ∧
    s2 = touch t2 s1 ∧
    c ∈ Session.connectionIds s2 ∧
    size (Session.connectionIds s2) = size (Session.connectionIds s1) ∧
    getSessionByUser u st1 = Some s1 ∧
    getSessionByUser u st2 = Some s2 ∧
    JsMap.keys (sessions st2) = JsMap.keys (sessions st1) ∧
    userSessions st2 = userSessions st1 ∧
    (∀ sid, Session.connectionIds <$> JsMap.get sid (sessions st2) =
            Session.connectionIds <$> JsMap.get sid (sessions st1)) ∧
    (t2 = t1 → st2 = st1 ∧ s2 = s1).
Proof.
  intros Hne H1.
  destruct (createSession_post _ _ _ _ _ _ _ Hne H1)
    as (sid & Hsid & Hus & Hg & Hc & Hla & m & Hm).
  assert ({[c]} ∪ Session.connectionIds s1 = Session.connectionIds s1) as Hsame
    by set_solver.
  unfold createSession at 1. rewrite Hus. simpl.
  rewrite bool_decide_eq_true_2 by done. rewrite Hg, Hsame.
  eexists _, _. split; [reflexivity|]. fold (touch t2 s1).
  unfold getSessionByUser. simpl. rewrite Hus. simpl.
  rewrite bool_decide_eq_true_2 by done. rewrite get_set_eq.
  split_and!; try done.
  - apply keys_set_in. by eexists.
  - intros k. rewrite get_set. destruct (decide (sid = k)) as [<-|]; [|done].
    by rewrite Hg.
  - intros ->. assert (touch t1 s1 = s1) as ->.
    { destruct s1; unfold touch; simpl in *. by rewrite Hla. }
    split; [|done]. destruct st1 as [ss us ts uts]; unfold with_sessions; simpl in *.
    f_equal. subst ss. apply set_set.
Qed.

Lemma createSession_twice_witness :
  "s1" ≠ "" ∧
  createSession "c1" "u1" "s1" 10 empty =
    Js.Ok (mk [("s1", Session.mk "s1" "u1" {["c1"]} 10 10)] {["u1" := "s1"]} [] ∅,
           Session.mk "s1" "u1" {["c1"]} 10 10) ∧
  ∃ st2 s2,
    createSession "c1" "u1" "s2" 20
      (mk [("s1", Session.mk "s1" "u1" {["c1"]} 10 10)] {["u1" := "s1"]} [] ∅)
      = Js.Ok (st2, s2) ∧
    getSessionByUser "u1" st2 = Some s2 ∧
    Session.connectionIds s2 = {["c1"]}.
Proof.
  split; [done|]. split; [vm_compute; reflexivity|].
  destruct (createSession_twice "c1" "u1" "s1" "s2" 10 20 empty
              (mk [("s1", Session.mk "s1" "u1" {["c1"]} 10 10)] {["u1" := "s1"]} [] ∅)
              (Session.mk "s1" "u1" {["c1"]} 10 10))
    as (st2 & s2 & H2 & Hs2 & _ & _ & _ & Hby & _);
    [done|vm_compute; reflexivity|].
  exists st2, s2. split_and!; [done..|]. by rewrite Hs2.
Defined.

(** C6 as stated fails where a connection is held by two sessions: after
    connection [c1] has authenticated as [u1] and then as [u2], the session
    of [u2] holds exactly [c1], and detaching [c1] leaves that session in
    the store and in the index (the loop removed the older session of [u1]
    and returned). *)
Lemma endSession_shared_connection :
  let st := mk [("s1", Session.mk "s1" "u1" {["c1"]} 10 10);
                ("s2", Session.mk "s2" "u2" {["c1"]} 20 20)]
               (<["u2" := "s2"]> {["u1" := "s1"]}) [] ∅ in
  let S := Session.mk "s2" "u2" {["c1"]} 20 20 in
  run [CreateSession "c1" "u1" "s1" 10; CreateSession "c1" "u2" "s2" 20] empty
    = Js.Ok st ∧
  JsMap.get "s2" (sessions st) = Some S ∧
  Session.connectionIds S = {["c1"]} ∧
  JsMap.get "s2" (sessions (endSession "c1" st)) = Some S ∧
  getSessionByUser "u2" (endSession "c1" st) = Some S.
Proof. vm_compute. split_and!; reflexivity. Qed.

(** C6, amended. Let [s], stored under [sid], be the first session in the
    store's insertion order that holds connection [c].  If [c] is its only
    connection, detaching [c] removes it: the store has no [sid] and the
    lookup by its user returns nothing.  If it has other connections, it
    stays, under the same id and for the same user, with [c] removed, and
    the user index is unchanged. *)
Theorem endSession_first_holder c sid s st :
  holder c (sessions st) = Some (sid, s) →
  (Session.connectionIds s = {[c]} →
     JsMap.get sid (sessions (endSession c st)) = None ∧
     getSessionByUser (Session.userId s) (endSession c st) = None) ∧
  (Session.connectionIds s ≠ {[c]} →
     ∃ s', JsMap.get sid (sessions (endSession c st)) = Some s' ∧
           Session.id s' = Session.id s ∧
           Session.userId s' = Session.userId s ∧
           Session.connectionIds s' = Session.connectionIds s ∖ {[c]} ∧
           Session.connectionIds s' ≠ ∅ ∧
           userSessions (endSession c st) = userSessions st).
Proof.
  intros Hh. pose proof (holder_Some _ _ _ _ Hh) as [_ Hc].
  unfold endSession. rewrite Hh. split.
  - intros Hone. rewrite Hone.
    replace ({[c]} ∖ {[c]} : gset string) with (∅ : gset string) by set_solver.
    rewrite size_empty. simpl. rewrite get_delete_eq. split; [done|].
    unfold getSessionByUser. simpl. by rewrite lookup_delete_eq.
  - intros Hmore.
    assert (Session.connectionIds s ∖ {[c]} ≠ ∅) as Hne.
    { intros He. apply Hmore. apply set_eq. intros x. split.
      - intros Hx. destruct (decide (x = c)) as [->|Hd]; [set_solver|].
        assert (x ∈ Session.connectionIds s ∖ {[c]}) as Hx' by set_solver.
        rewrite He in Hx'. set_solver.
      - set_solver. }
    destruct (decide _) as [Hz|Hnz].
    + exfalso. apply Hne. by apply size_empty_inv, leibniz_equiv in Hz.
    + simpl. rewrite get_set_eq. eexists. split; [reflexivity|]. done.
Qed.

Lemma endSession_first_holder_witness :
  let st := mk [("s1", Session.mk "s1" "u1" ({["c1"]} ∪ {["c2"]}) 10 20)]
               {["u1" := "s1"]} [] ∅ in
  holder "c1" (sessions st) =
    Some ("s1", Session.mk "s1" "u1" ({["c1"]} ∪ {["c2"]}) 10 20) ∧
  ∃ s', JsMap.get "s1" (sessions (endSession "c1" st)) = Some s' ∧
        Session.connectionIds s' = ({["c1"]} ∪ {["c2"]}) ∖ {["c1"]}.
Proof.
  split; [vm_compute; reflexivity|].
  destruct (endSession_first_holder "c1" "s1"
              (Session.mk "s1" "u1" ({["c1"]} ∪ {["c2"]}) 10 20)
              (mk [("s1", Session.mk "s1" "u1" ({["c1"]} ∪ {["c2"]}) 10 20)]
                  {["u1" := "s1"]} [] ∅)) as [_ Hmore];
    [vm_compute; reflexivity|].
  destruct Hmore as (s' & Hg & _ & _ & Hc & _).
  - simpl. intros He. assert ("c2" ∈ ({["c1"]} : gset string)) as Hin
      by (rewrite <- He; set_solver). set_solver.
  - exists s'. split; [done|]. exact Hc.
Defined.

End SessionFacts.

(** ** Credentials *)

Module AuthFacts.

Lemma split_nonempty sep s : Str.split sep s ≠ [].
Proof.
  destruct s as [|a r]; simpl; [done|].
  destruct (Ascii.eqb a sep); [done|]. by destruct (Str.split sep r).
Qed.

Lemma join_split sep s : Str.join (String sep "") (Str.split sep s) = s.
Proof.
  induction s as [|a r IH]; simpl; [done|].
  destruct (Ascii.eqb a sep) eqn:E.
  - apply Ascii.eqb_eq in E as ->.
    destruct (Str.split sep r) as [|h t] eqn:Hs; [by apply split_nonempty in Hs|].
    simpl in *. by rewrite IH.
  - destruct (Str.split sep r) as [|h t] eqn:Hs; [by apply split_nonempty in Hs|].
    destruct t as [|h' t']; simpl in *; by rewrite <- IH.
Qed.

Lemma decode_utf8_char a r :
  SecureKey.decode_char (SecureKey.utf8_char a ++ r) = Some (a, r).
Proof. destruct a as [[] [] [] [] [] [] [] []]; reflexivity. Qed.

Lemma utf8_inj s1 : ∀ s2, SecureKey.utf8 s1 = SecureKey.utf8 s2 → s1 = s2.
Proof.
  induction s1 as [|a r IH]; intros [|b r']; simpl; intros H.
  - done.
  - pose proof (decode_utf8_char b (SecureKey.utf8 r')) as Hd.
    rewrite <- H in Hd. done.
  - pose proof (decode_utf8_char a (SecureKey.utf8 r)) as Hd.
    rewrite H in Hd. done.
  - pose proof (decode_utf8_char a (SecureKey.utf8 r)) as Hd.
    rewrite H, decode_utf8_char in Hd. injection Hd as -> Hr.
    f_equal. by apply IH.
Qed.

(** The signed scheme of server-secure.js: a user id comes back only for
    the key [generateApiKey] makes for that user under the secret, that
    is, only when the presented signature is the recomputed one. *)
Lemma secure_validateApiKey_sound c apiKey secret userId :
  SecureKey.validateApiKey c apiKey secret = Some userId →
  ∃ signature,
    apiKey = Some ("t2b_" +:+ userId +:+ "_" +:+ signature) ∧
    signature = SecureKey.signature_of c userId secret ∧
    apiKey = Some (SecureKey.generateApiKey c userId secret).
Proof.
  unfold SecureKey.validateApiKey. destruct apiKey as [key|]; [|done].
  destruct (negb _); [done|].
  pose proof (join_split "_" key) as Hj.
  destruct (Str.split "_" key) as [|p [|u [|sg [|? ?]]]]; try done.
  destruct (bool_decide (p = "t2b")) eqn:Hp; simpl; [|done].
  apply bool_decide_eq_true in Hp as ->.
  destruct (_ || _); [done|].
  destruct (negb _); [done|].
  unfold SecureKey.timingSafeEqual. destruct (decide _); [|done].
  destruct (bool_decide _) eqn:Heq; [|done].
  apply bool_decide_eq_true, utf8_inj in Heq. intros [= <-].
  exists sg. simpl in Hj. subst key.
  split; [done|]. split; [done|]. unfold SecureKey.generateApiKey.
  by rewrite <- Heq.
Qed.

Lemma secure_validateApiKey_complete c secret userId :
  userId ≠ "" → Str.split "_" userId = [userId] →
  String.length (SecureKey.signature_of c userId secret) = 16%nat →
  Str.split "_" (SecureKey.signature_of c userId secret)
    = [SecureKey.signature_of c userId secret] →
  SecureKey.validateApiKey c (Some (SecureKey.generateApiKey c userId secret)) secret
    = Some userId.
Proof.
  intros Hu Hsu Hlen Hss.
  assert (∀ a b, Str.split "_" a = [a] →
            Str.split "_" (a +:+ "_" +:+ b) = a :: Str.split "_" b) as Hsplit.
  { intros a b. induction a as [|x a IH]; simpl; [done|].
    destruct (Ascii.eqb x "_"); [done|].
    destruct (Str.split "_" a) as [|h t] eqn:E; [by apply split_nonempty in E|].
    intros [= -> ->]. by rewrite IH. }
  assert (SecureKey.signature_of c userId secret ≠ "") as Hsig.
  { intros He. by rewrite He in Hlen. }
  unfold SecureKey.validateApiKey, SecureKey.generateApiKey.
  change ("t2b_" +:+ userId +:+ "_" +:+ SecureKey.signature_of c userId secret)
    with ("t2b" +:+ "_" +:+ (userId +:+ "_" +:+ SecureKey.signature_of c userId secret)).
  rewrite Hsplit by done. rewrite Hsplit by done. rewrite Hss.
  simpl. rewrite (bool_decide_eq_true_2 (userId ≠ "")) by done.
  rewrite (bool_decide_eq_true_2 (SecureKey.signature_of c userId secret ≠ "")) by done.
  simpl. rewrite bool_decide_eq_true_2 by done. simpl.
  unfold SecureKey.timingSafeEqual. rewrite decide_True by done.
  by rewrite bool_decide_eq_true_2.
Qed.

(** C2, the failing input.  [AuthService.validateApiKey] with an empty
    key store takes the key ['t2b_victim_aaaaaaaaaaaaaaaa'] as valid for
    user ['victim'] whatever the hash function and the secret are: no
    signature is recomputed.  The signed scheme returns the user for that
    key only if ['aaaaaaaaaaaaaaaa'] is the signature recomputed for
    ['victim']. *)
Theorem validateApiKey_accepts_unsigned (c : Crypto) (secret expiry : string) :
  AuthService.validateApiKey c "t2b_victim_aaaaaaaaaaaaaaaa"
    (AuthService.mk secret expiry ∅)
  = AuthService.mkValidation true (Some "victim") (Some ["read"; "write"; "bots"])
  ∧ (SecureKey.validateApiKey c (Some "t2b_victim_aaaaaaaaaaaaaaaa") secret
       = Some "victim"
     ↔ SecureKey.signature_of c "victim" secret = "aaaaaaaaaaaaaaaa").
Proof.
  split.
  - unfold AuthService.validateApiKey. simpl. by rewrite lookup_empty.
  - split.
    + intros H. apply secure_validateApiKey_sound in H as (sg & Hk & Hs & _).
      injection Hk as Hk. change ("aaaaaaaaaaaaaaaa" = sg) in Hk. congruence.
    + intros H. unfold SecureKey.validateApiKey. simpl. rewrite H. reflexivity.
Qed.

End AuthFacts.

(** ** The WebSocket frontend and the hardened server *)

Module ServerFacts.
Import Scenario.

Lemma sendError_open ws code message now :
  ExtWebSocket.readyState ws = OPEN →
  Server.sendError ws code message now
  = [Send (ExtWebSocket.connectionId ws) (Server.error_frame code message now)].
Proof.
  intros H. unfold Server.sendError, Server.sendFrame. by rewrite decide_True.
Qed.

(** [handleSubscribe] of server.js checks the owner: a bot of another
    user, or no bot, is answered with error 403 and nothing is added to
    the subscriptions. *)
Lemma handleSubscribe_refuses env ws frame srv d b u :
  ExtWebSocket.userId ws = Some u → u ≠ "" →
  RawFrame.data frame = Some d → d !! "botId" = Some b →
  (∀ bot, BotRegistry.getBot b (Server.botRegistry srv) = Some bot →
          Bot.userId bot ≠ u) →
  Server.handleSubscribe env ws frame srv
  = Js.Ok (ws, Server.sendError ws 403 "Bot not found or access denied"
                 (Server.now env)).
Proof.
  intros Hu Hne Hd Hb Hown. unfold Server.handleSubscribe.
  rewrite Hu, Hd, Hb. simpl. rewrite bool_decide_eq_true_2 by done. simpl.
  destruct (BotRegistry.getBot b (Server.botRegistry srv)) as [bot|] eqn:Hg;
    [|done].
  rewrite bool_decide_eq_true_2; [done|].
  intros [= Heq]. by apply (Hown bot).
Qed.

(** [verifyBotOwnership] of server-secure.js says no for a bot that is
    absent and for a bot of another user. *)
Lemma verifyBotOwnership_false u b st :
  (∀ bot, Secure.bots st !! b = Some bot → Secure.SBot.userId bot ≠ u) →
  (Secure.verifyBotOwnership u b st).2 = false ∧
  Secure.bots (Secure.verifyBotOwnership u b st).1 = Secure.bots st ∧
  Secure.tasks (Secure.verifyBotOwnership u b st).1 = Secure.tasks st ∧
  Secure.serverLogs (Secure.verifyBotOwnership u b st).1 = Secure.serverLogs st.
Proof.
  intros Hown. unfold Secure.verifyBotOwnership, Secure.getUserData.
  destruct (Secure.userData st !! u) as [ud|]; simpl.
  - destruct (Secure.bots st !! b) as [bot|] eqn:Hb; [|done].
    rewrite bool_decide_eq_true_2; [done|]. by apply Hown.
  - destruct (Secure.bots st !! b) as [bot|] eqn:Hb; [|done].
    rewrite bool_decide_eq_true_2; [done|]. by apply Hown.
Qed.

(** The hardened handlers refuse a message and a task for a bot that is
    not the sender's: error 403, no frame to the bot's side, no task. *)
Lemma secure_handlers_refuse now uuid ws frame st u b :
  ExtWebSocket.userId ws = Some u → u ≠ "" → b ≠ "" →
  (∀ bot, Secure.bots st !! b = Some bot → Secure.SBot.userId bot ≠ u) →
  (Secure.field frame "to" = Some b →
     (Secure.handleMessageFrame now uuid ws frame st).2
     = Secure.sendError ws 403 "Bot not found or access denied") ∧
  (Secure.field frame "botId" = Some b →
     (Secure.handleTask now uuid ws frame st).2
     = Secure.sendError ws 403 "Bot not found or access denied" ∧
     Secure.tasks (Secure.handleTask now uuid ws frame st).1 = Secure.tasks st).
Proof.
  intros Hu Hne Hb Hown.
  destruct (verifyBotOwnership_false u b st Hown) as (Hf & _ & Ht & _).
  split; intros Hfield.
  - unfold Secure.handleMessageFrame. rewrite Hu, Hfield. simpl.
    rewrite !bool_decide_eq_true_2 by done. simpl.
    destruct (Secure.verifyBotOwnership u b st) as [st' owned]. simpl in *.
    by rewrite Hf.
  - unfold Secure.handleTask. rewrite Hu, Hfield. simpl.
    rewrite !bool_decide_eq_true_2 by done. simpl.
    destruct (Secure.verifyBotOwnership u b st) as [st' owned]. simpl in *.
    by rewrite Hf.
Qed.

(** C1, the failing input.  In the deployment of [Scenario], [bot_1] is
    owned by [u1] and connection [c2] is authenticated as [u2].  The
    ['message'] frame of [u2] to [bot_1] is handed to the bot and
    acknowledged as delivered, and the ['task'] frame of [u2] for [bot_1]
    stores a task of [u2] for that bot and is answered with its id; no
    error frame is sent.  (The ['subscribe'] frame of [u2] for [bot_1] is
    refused with error 403.) *)
Theorem foreign_bot_message_and_task_accepted (c : Crypto) :
  BotRegistry.getBot "bot_1" (Server.botRegistry server) = Some bot1 ∧
  Bot.userId bot1 = "u1" ∧
  ExtWebSocket.userId ws_u2 = Some "u2" ∧
  Server.handleMessage c env ws_u2 (Parsed message_frame) server
  = (ExtWebSocket.with_lastActivity 1000 ws_u2, server,
     [ToBot "bot_1"
        (OpenClawMessage.mk "id-1" (Some "u2") (Some "bot_1") "text" (Some "hi")
           "plain" 1000 None "id-2" "inbound" "client");
      Send "c2"
        (WSFrame.mk "message_ack"
           (JObj [("messageId", JStr "id-1"); ("status", JStr "delivered");
                  ("timestamp", JNum 1000)])
           (Some 1000) None)]) ∧
  Server.handleMessage c env ws_u2 (Parsed task_frame) server
  = (ExtWebSocket.with_lastActivity 1000 ws_u2,
     Server.with_sessionManager
       (SessionManager.mk [] ∅
          [("id-1",
            Task.mk "id-1" "u2" (Some "bot_1") (Some "sweep") None None
              "pending" 1000 None)]
          {["u2" := {["id-1"]}]})
       server,
     [Send "c2"
        (WSFrame.mk "task_status"
           (JObj [("taskId", JStr "id-1"); ("status", JStr "pending")])
           (Some 1000) (Some "f2"))]) ∧
  Server.handleMessage c env ws_u2 (Parsed (subscribe_frame "bot_1")) server
  = (ExtWebSocket.with_lastActivity 1000 ws_u2, server,
     [Send "c2" (Server.error_frame 403 "Bot not found or access denied" 1000)]).
Proof. split_and!; reflexivity. Qed.

(** C3 as stated fails for the frame types whose handling never looks at
    [ws.userId]: on the unauthenticated connection [c3], ['ping'] is
    answered with ['pong'], a ['status'] request with the connection
    counts, ['unsubscribe'] with its confirmation, and an unknown type
    with error 400; none of the replies is an authentication error. *)
Lemma unauthenticated_frames_answered :
  ExtWebSocket.userId ws_new = None ∧
  Server.handleMessage crypto env ws_new (Parsed ping_frame) server
  = (ExtWebSocket.with_lastActivity 1000 ws_new, server,
     [Send "c3" (Server.pong_frame 1000)]) ∧
  Server.handleMessage crypto env ws_new (Parsed status_frame) server
  = (ExtWebSocket.with_lastActivity 1000 ws_new, server,
     [Send "c3"
        (WSFrame.mk "status"
           (JObj [("type", JStr "connections"); ("count", JNum 2);
                  ("userCount", JNum 1)])
           (Some 1000) (Some "f4"))]) ∧
  Server.handleMessage crypto env ws_new (Parsed unsubscribe_frame) server
  = (ExtWebSocket.with_lastActivity 1000 ws_new, server,
     [Send "c3"
        (WSFrame.mk "status"
           (JObj [("type", JStr "unsubscribed"); ("botId", JStr "bot_1")])
           (Some 1000) (Some "f5"))]) ∧
  Server.handleMessage crypto env ws_new (Parsed presence_frame) server
  = (ExtWebSocket.with_lastActivity 1000 ws_new, server,
     [Send "c3" (Server.error_frame 400 "Unknown frame type: presence" 1000)]).
Proof. vm_compute. split_and!; reflexivity. Qed.

(** C3, amended.  On a connection whose [userId] is not set (or is the
    empty string), a frame of type ['message'], ['subscribe'] or ['task']
    is answered with the error frame [401 'Not authenticated'] (sent when
    the socket is open) and has no other effect: the server state is
    unchanged, the connection only has its [lastActivity] set to the time
    of receipt, and [ws.close] is not called.  A ['ping'] frame is
    answered with ['pong'], likewise without another change. *)
Theorem unauthenticated_frame_refused c env ws frame srv :
  Js.truthy (ExtWebSocket.userId ws) = false →
  (RawFrame.type frame ∈ [Some "message"; Some "subscribe"; Some "task"] →
     Server.handleMessage c env ws (Parsed frame) srv
     = (ExtWebSocket.with_lastActivity (Server.now env) ws, srv,
        Server.sendError ws 401 "Not authenticated" (Server.now env)) ∧
     (ExtWebSocket.readyState ws = OPEN →
        Server.sendError ws 401 "Not authenticated" (Server.now env)
        = [Send (ExtWebSocket.connectionId ws)
             (Server.error_frame 401 "Not authenticated" (Server.now env))])) ∧
  (RawFrame.type frame = Some "ping" →
     Server.handleMessage c env ws (Parsed frame) srv
     = (ExtWebSocket.with_lastActivity (Server.now env) ws, srv,
        Server.sendFrame ws (Server.pong_frame (Server.now env)))).
Proof.
  intros Hu. split.
  - intros Hty. split; [|apply sendError_open].
    unfold Server.handleMessage, Server.dispatch.
    unfold Server.handleMessageFrame, Server.handleSubscribe, Server.handleTask.
    simpl. rewrite Hu. simpl.
    repeat (apply elem_of_cons in Hty as [->|Hty]; [reflexivity|]).
    by apply elem_of_nil in Hty.
  - intros Hty. unfold Server.handleMessage, Server.dispatch. simpl.
    rewrite Hty. reflexivity.
Qed.

Lemma unauthenticated_frame_refused_witness :
  Js.truthy (ExtWebSocket.userId ws_new) = false ∧
  Server.handleMessage crypto env ws_new (Parsed message_frame) server
  = (ExtWebSocket.with_lastActivity 1000 ws_new, server,
     Server.sendError ws_new 401 "Not authenticated" 1000).
Proof.
  split; [reflexivity|].
  apply (unauthenticated_frame_refused crypto env ws_new message_frame server);
    [reflexivity|].
  unfold message_frame. simpl. apply list_elem_of_here.
Defined.

(** C4.  A user [u] names a bot [b] that, in one state of the server, does
    not exist and, in another, exists and is owned by someone else.  The
    ['subscribe'] handler of server.js and the ['message'] handler of
    server-secure.js answer the same in both states, and (for a non-empty
    bot id and user id) the answer is the one error frame [403 'Bot not
    found or access denied']. *)
Theorem denial_hides_existence env now uuid ws u b
    (srv1 srv2 : Server.t) (st1 st2 : Secure.t) bot sbot :
  ExtWebSocket.userId ws = Some u →
  BotRegistry.getBot b (Server.botRegistry srv1) = None →
  BotRegistry.getBot b (Server.botRegistry srv2) = Some bot →
  Bot.userId bot ≠ u →
  Secure.bots st1 !! b = None →
  Secure.bots st2 !! b = Some sbot →
  Secure.SBot.userId sbot ≠ u →
  (∀ frame, Secure.field frame "botId" = Some b →
     Server.handleSubscribe env ws frame srv1
     = Server.handleSubscribe env ws frame srv2 ∧
     (u ≠ "" →
      Server.handleSubscribe env ws frame srv2
      = Js.Ok (ws, Server.sendError ws 403 "Bot not found or access denied"
                     (Server.now env)))) ∧
  (∀ frame, Secure.field frame "to" = Some b →
     (Secure.handleMessageFrame now uuid ws frame st1).2
     = (Secure.handleMessageFrame now uuid ws frame st2).2 ∧
     (u ≠ "" → b ≠ "" →
      (Secure.handleMessageFrame now uuid ws frame st2).2
      = Secure.sendError ws 403 "Bot not found or access denied")).
Proof.
  intros Hu Hn1 Hs2 Hown Hsn1 Hss2 Hsown. split; intros frame Hf.
  - unfold Secure.field in Hf.
    destruct (RawFrame.data frame) as [d|] eqn:Hd; [simpl in Hf|done].
    destruct (decide (u = "")) as [->|Hne].
    + split; [|intros H; by destruct H].
      unfold Server.handleSubscribe. by rewrite Hu.
    + rewrite (handleSubscribe_refuses env ws frame srv1 d b u),
        (handleSubscribe_refuses env ws frame srv2 d b u); try done.
      * intros bot' Hb'. congruence.
      * intros bot' Hb'. congruence.
  - destruct (decide (u = "")) as [->|Hne].
    { split; [|intros H; by destruct H].
      unfold Secure.handleMessageFrame. by rewrite Hu. }
    destruct (decide (b = "")) as [->|Hb].
    { split; [|intros _ H; by destruct H].
      unfold Secure.handleMessageFrame. rewrite Hu, Hf. simpl.
      by destruct (bool_decide (u ≠ "")). }
    destruct (secure_handlers_refuse now uuid ws frame st1 u b) as [H1 _];
      [done..|intros ? ?; congruence|].
    destruct (secure_handlers_refuse now uuid ws frame st2 u b) as [H2 _];
      [done..|intros ? ?; congruence|].
    rewrite H1, H2 by done. done.
Qed.

Lemma denial_hides_existence_witness :
  ExtWebSocket.userId ws_u2 = Some "u2" ∧
  BotRegistry.getBot "bot_1"
    (Server.botRegistry (Server.with_botRegistry registry_without_bot server))
  = None ∧
  BotRegistry.getBot "bot_1" (Server.botRegistry server) = Some bot1 ∧
  Bot.userId bot1 ≠ "u2" ∧
  Secure.bots secure_server_without_bot !! "bot_1" = None ∧
  Secure.bots secure_server !! "bot_1" = Some sbot1 ∧
  Secure.SBot.userId sbot1 ≠ "u2" ∧
  Server.handleSubscribe env ws_u2 (subscribe_frame "bot_1")
    (Server.with_botRegistry registry_without_bot server)
  = Server.handleSubscribe env ws_u2 (subscribe_frame "bot_1") server ∧
  (Secure.handleMessageFrame 1000 "id-1" ws_u2 message_frame
     secure_server_without_bot).2
  = (Secure.handleMessageFrame 1000 "id-1" ws_u2 message_frame secure_server).2.
Proof.
  assert (Bot.userId bot1 ≠ "u2") as Hb by (vm_compute; congruence).
  assert (Secure.SBot.userId sbot1 ≠ "u2") as Hsb by (vm_compute; congruence).
  do 3 (split; [reflexivity|]). split; [exact Hb|].
  do 2 (split; [reflexivity|]). split; [exact Hsb|]. split.
  - exact (proj1 (proj1 (denial_hides_existence env 1000 "id-1" ws_u2 "u2"
                           "bot_1"
                           (Server.with_botRegistry registry_without_bot server)
                           server secure_server_without_bot secure_server
                           bot1 sbot1 eq_refl eq_refl eq_refl Hb eq_refl eq_refl
                           Hsb)
                    (subscribe_frame "bot_1") eq_refl)).
  - exact (proj1 (proj2 (denial_hides_existence env 1000 "id-1" ws_u2 "u2"
                           "bot_1"
                           (Server.with_botRegistry registry_without_bot server)
                           server secure_server_without_bot secure_server
                           bot1 sbot1 eq_refl eq_refl eq_refl Hb eq_refl eq_refl
                           Hsb)
                    message_frame eq_refl)).
Defined.

Lemma heartbeat_loop_closes now timeout cs cid code reason :
  CloseCall cid code reason ∈ (Server.heartbeat_loop now timeout cs).2 →
  code = 4000 ∧ reason = "Connection timeout".
Proof.
  induction cs as [|[k ws] rest IH]; simpl.
  - intros H. by apply elem_of_nil in H.
  - destruct (Server.heartbeat_one now timeout ws) as [ws' eff] eqn:H1.
    destruct (Server.heartbeat_loop now timeout rest) as [rest' eff'].
    simpl in *. rewrite elem_of_app. intros [Hin|Hin]; [|by apply IH].
    unfold Server.heartbeat_one, Server.sendFrame in H1.
    repeat case_decide; injection H1 as <- <-;
      repeat (apply elem_of_cons in Hin as [Hin|Hin]; [by inversion Hin|]);
      by apply elem_of_nil in Hin.
Qed.

Lemma heartbeat_loop_stale now timeout cs k ws :
  (k, ws) ∈ cs → now - ExtWebSocket.lastActivity ws > timeout →
  CloseCall (ExtWebSocket.connectionId ws) 4000 "Connection timeout"
    ∈ (Server.heartbeat_loop now timeout cs).2 ∧
  (ExtWebSocket.readyState ws = OPEN →
   Send (ExtWebSocket.connectionId ws) (Server.timeout_frame now)
     ∈ (Server.heartbeat_loop now timeout cs).2).
Proof.
  intros Hin Hstale. induction cs as [|[k' ws'] rest IH]; simpl.
  - by apply elem_of_nil in Hin.
  - destruct (Server.heartbeat_one now timeout ws') as [ws'' eff] eqn:H1.
    destruct (Server.heartbeat_loop now timeout rest) as [rest' eff'].
    simpl in *. apply elem_of_cons in Hin as [[= <- <-]|Hin].
    + unfold Server.heartbeat_one in H1. rewrite decide_True in H1 by done.
      injection H1 as <- <-. split.
      * rewrite !elem_of_app. left. right. apply list_elem_of_here.
      * intros Hopen. unfold Server.sendFrame. rewrite decide_True by done.
        rewrite !elem_of_app. left. left. apply list_elem_of_here.
    + destruct (IH Hin) as [Hc Hs]. split.
      * rewrite elem_of_app. by right.
      * intros Hopen. rewrite elem_of_app. right. by apply Hs.
Qed.

Lemma stop_closes now (cs : list (string * ExtWebSocket.t)) cid code reason :
  CloseCall cid code reason ∈ List.concat ((λ e, Server.stop_one now e.2) <$> cs) →
  code = 1001 ∧ reason = "Server shutting down".
Proof.
  induction cs as [|[k ws] rest IH]; simpl.
  - intros H. by apply elem_of_nil in H.
  - rewrite elem_of_app. intros [Hin|Hin]; [|by apply IH].
    unfold Server.stop_one, Server.sendError, Server.sendFrame in Hin.
    case_decide;
      repeat (apply elem_of_cons in Hin as [Hin|Hin]; [by inversion Hin|]);
      by apply elem_of_nil in Hin.
Qed.

Lemma stop_closes_each now (cs : list (string * ExtWebSocket.t)) k ws :
  (k, ws) ∈ cs →
  CloseCall (ExtWebSocket.connectionId ws) 1001 "Server shutting down"
    ∈ List.concat ((λ e, Server.stop_one now e.2) <$> cs).
Proof.
  induction cs as [|[k' ws'] rest IH]; simpl.
  - intros H. by apply elem_of_nil in H.
  - intros Hin. rewrite elem_of_app.
    apply elem_of_cons in Hin as [[= <- <-]|Hin]; [left|right; by apply IH].
    unfold Server.stop_one. rewrite elem_of_app. right. apply list_elem_of_here.
Qed.

(** C8.  A stored connection whose [lastActivity] is more than the
    configured timeout (in seconds, times 1000) before the sweep's clock
    is closed by the heartbeat sweep with code 4000 and reason
    ['Connection timeout'] (after the ['timeout'] status frame when the
    socket is open); every [ws.close] of the sweep has that code and
    reason, so none has the 1001 of [stop], which closes every stored
    connection with code 1001 and reason ['Server shutting down']. *)
Theorem idle_connection_closed_with_timeout_code now now' srv k ws :
  (k, ws) ∈ Server.connections srv →
  now - ExtWebSocket.lastActivity ws > Server.timeout (Server.config srv) * 1000 →
  CloseCall (ExtWebSocket.connectionId ws) 4000 "Connection timeout"
    ∈ (Server.heartbeat now srv).2 ∧
  (ExtWebSocket.readyState ws = OPEN →
   Send (ExtWebSocket.connectionId ws) (Server.timeout_frame now)
     ∈ (Server.heartbeat now srv).2) ∧
  (∀ cid code reason,
     CloseCall cid code reason ∈ (Server.heartbeat now srv).2 →
     code = 4000 ∧ reason = "Connection timeout" ∧ code ≠ 1001) ∧
  CloseCall (ExtWebSocket.connectionId ws) 1001 "Server shutting down"
    ∈ (Server.stop now' srv).2 ∧
  (∀ cid code reason,
     CloseCall cid code reason ∈ (Server.stop now' srv).2 →
     code = 1001 ∧ reason = "Server shutting down" ∧ code ≠ 4000).
Proof.
  intros Hin Hstale. unfold Server.heartbeat, Server.stop.
  destruct (heartbeat_loop_stale now _ _ k ws Hin Hstale) as [Hc Hs].
  pose proof (heartbeat_loop_closes now
                (Server.timeout (Server.config srv) * 1000)
                (Server.connections srv)) as Hall.
  destruct (Server.heartbeat_loop now _ (Server.connections srv)) as [cs eff].
  simpl in *. split_and!; [done..| | |].
  - intros cid code reason H. destruct (Hall _ _ _ H) as [-> ->]. done.
  - by apply (stop_closes_each now' _ k).
  - intros cid code reason H. destruct (stop_closes _ _ _ _ _ H) as [-> ->]. done.
Qed.

Lemma idle_connection_closed_with_timeout_code_witness :
  ("c2", ws_u2) ∈ Server.connections server ∧
  400000 - ExtWebSocket.lastActivity ws_u2
    > Server.timeout (Server.config server) * 1000 ∧
  CloseCall "c2" 4000 "Connection timeout" ∈ (Server.heartbeat 400000 server).2.
Proof.
  split; [apply list_elem_of_here|]. split; [reflexivity|].
  apply (idle_connection_closed_with_timeout_code 400000 400000 server "c2" ws_u2);
    [apply list_elem_of_here|reflexivity].
Defined.

End ServerFacts.

(** ** Tunnel manager *)

Module TunnelFacts.
Import TunnelManager.

(** C7.  While an instance of a provider is in [activeTunnels], [start]
    for that provider returns [getStatus] of it, a running status with the
    instance's URL, port and start time, does nothing to the outside (no
    process is spawned, no file written) and leaves the manager as it
    was. *)
Theorem start_while_active env provider customConfig st tunnel :
  activeTunnels st !! provider = Some tunnel →
  start env provider customConfig st
  = Settled (Js.Ok (getStatus provider st), st, []) ∧
  getStatus provider st
  = mkStatus provider true (publicUrl (tp_config tunnel))
      (localPort (tp_config tunnel)) (Some (tp_startedAt tunnel)).
Proof.
  intros H. unfold start, getStatus. by rewrite H.
Qed.

Lemma start_while_active_witness :
  ∃ r st eff tunnel,
    start Scenario.good_run "frp" None Scenario.manager = Settled (r, st, eff) ∧
    activeTunnels st !! "frp" = Some tunnel ∧
    start Scenario.quiet_run "frp" None st
    = Settled
        (Js.Ok (mkStatus "frp" true (Some "http://frp.example.org:6001")
                  (Some 3000) (Some 1000)),
         st, []).
Proof.
  eexists _, _, _, _. split; [vm_compute; reflexivity|].
  split; [vm_compute; reflexivity|].
  refine (eq_trans (proj1 (start_while_active Scenario.quiet_run "frp" None _ _ _)) _);
    vm_compute; reflexivity.
Defined.

Lemma wait_listening key scan evs : ∀ w,
  wait key scan true evs w = Js.Ok (handled key scan evs w).
Proof.
  unfold handled. induction evs as [|ev rest IH]; intros w; simpl; [done|].
  rewrite <- IH. by destruct ev.
Qed.

Lemma wait_no_listener key scan evs : ∀ w,
  wait key scan false evs w
  = match spawn_error evs with
    | Some e => Js.Throw e
    | None => Js.Ok (handled key scan evs w)
    end.
Proof.
  unfold handled. induction evs as [|ev rest IH]; intros w; simpl; [done|].
  destruct ev; simpl; try apply IH. done.
Qed.

Lemma handled_publicUrl key scan evs : ∀ w,
  w_publicUrl (handled key scan evs w) = scanned scan evs (w_publicUrl w).
Proof.
  unfold handled, scanned.
  induction evs as [|ev rest IH]; intros w; simpl; [done|].
  rewrite IH. destruct ev; simpl; try done. by destruct (scan chunk).
Qed.

Lemma scanned_origin scan evs : ∀ url0 url,
  scanned scan evs url0 = Some url →
  url0 = Some url ∨ ∃ chunk, chunk ∈ stdout_chunks evs ∧ scan chunk = Some url.
Proof.
  unfold scanned. induction (stdout_chunks evs) as [|chunk rest IH];
    intros url0 url; simpl.
  - intros ->. by left.
  - intros H. apply IH in H as [H|(ch & Hin & Hs)].
    + destruct (scan chunk) as [u|] eqn:Hsc; simpl in H.
      * right. exists chunk. split; [apply list_elem_of_here|congruence].
      * by left.
    + right. exists ch. split; [by right|done].
Qed.

Lemma scanned_Some scan evs : ∀ url0, is_Some (scanned scan evs (Some url0)).
Proof.
  unfold scanned. induction (stdout_chunks evs) as [|ch rest IH]; intros url0; simpl.
  - eauto.
  - destruct (scan ch); simpl; apply IH.
Qed.

Lemma handled_exitCode key scan evs : ∀ w,
  exitCode (w_proc (handled key scan evs w))
  = match exitCode (w_proc w), signalCode (w_proc w) with
    | None, None => exit_code evs
    | _, _ => exitCode (w_proc w)
    end.
Proof.
  unfold handled. induction evs as [|ev rest IH]; intros w; simpl.
  - by destruct (exitCode (w_proc w)), (signalCode (w_proc w)).
  - rewrite IH. destruct w as [[p k ec sc] url m].
    destruct ev as [chunk| | | | |]; simpl; try done.
    + by destruct (scan chunk).
    + unfold proc_exit. simpl. by destruct ec, sc.
    + unfold proc_exit. simpl. by destruct ec, sc.
    + unfold proc_exit. simpl. by destruct ec, sc.
Qed.

Lemma handled_killed key scan evs : ∀ w,
  killed (w_proc (handled key scan evs w)) = killed (w_proc w).
Proof.
  unfold handled. induction evs as [|ev rest IH]; intros w; simpl; [done|].
  rewrite IH. destruct w as [[p k ec sc] url m].
  destruct ev as [chunk| | | | |]; simpl; try done.
  - by destruct (scan chunk).
  - unfold proc_exit. simpl. by destruct ec, sc.
  - unfold proc_exit. simpl. by destruct ec, sc.
  - unfold proc_exit. simpl. by destruct ec, sc.
Qed.

Lemma handled_absent key scan evs : ∀ w,
  activeTunnels (w_manager w) !! key = None →
  activeTunnels (w_manager (handled key scan evs w)) !! key = None.
Proof.
  unfold handled. induction evs as [|ev rest IH]; intros w H; simpl; [done|].
  apply IH. destruct ev; simpl; try done.
  - by destruct (scan chunk).
  - apply lookup_delete_eq.
Qed.

Lemma handled_other key scan evs q :
  q ≠ key → ∀ w,
  activeTunnels (w_manager (handled key scan evs w)) !! q
  = activeTunnels (w_manager w) !! q.
Proof.
  intros Hq. unfold handled.
  induction evs as [|ev rest IH]; intros w; simpl; [done|].
  rewrite IH. destruct ev; simpl; try done.
  - by destruct (scan chunk).
  - by rewrite lookup_delete_ne.
Qed.

Lemma handled_config key scan evs : ∀ w,
  config (w_manager (handled key scan evs w)) = config (w_manager w).
Proof.
  unfold handled. induction evs as [|ev rest IH]; intros w; simpl; [done|].
  rewrite IH. destruct ev; simpl; try done. by destruct (scan chunk).
Qed.

Lemma not_ended_exit_code evs : ended evs = false → exit_code evs = None.
Proof.
  unfold ended. induction evs as [|ev rest IH]; simpl; [done|].
  destruct ev; simpl; try done; apply IH.
Qed.

Lemma frp_credentials customConfig st :
  ∃ creds, credentials (buildConfig "frp" customConfig st) = Some creds.
Proof.
  unfold buildConfig, spread. simpl.
  destruct (credentials (default no_config customConfig)); simpl; eauto.
Qed.

(** C9 as stated fails twice.  On a child that prints nothing while the
    manager waits, [start] reports the tunnel as running, with the public
    URL [http://abcd1234.frp.local] made from the instance id, though no
    line of output (there is none) had the success pattern.  On a child
    that a signal ends during the wait, [start] does not fail: the child's
    [exitCode] is still [null], and the tunnel is reported as running. *)
Lemma frp_url_without_success_line :
  stdout_chunks (events Scenario.quiet_run) = [] ∧
  (∃ st eff,
     start Scenario.quiet_run "frp" None Scenario.manager
     = Settled
         (Js.Ok (mkStatus "frp" true (Some "http://abcd1234.frp.local")
                   (Some 3000) (Some 3000)),
          st, eff) ∧
     getStatus "frp" st
     = mkStatus "frp" true (Some "http://abcd1234.frp.local") (Some 3000)
         (Some 1000)) ∧
  events Scenario.signalled_run = [Signalled "SIGKILL"; Close None] ∧
  (∃ st eff,
     start Scenario.signalled_run "frp" None Scenario.manager
     = Settled
         (Js.Ok (mkStatus "frp" true (Some "http://abcd1234.frp.local")
                   (Some 3000) (Some 3000)),
          st, eff) ∧
     s_running (getStatus "frp" st) = true).
Proof.
  split; [reflexivity|]. split.
  - eexists _, _. split; vm_compute; reflexivity.
  - split; [reflexivity|]. eexists _, _. split; vm_compute; reflexivity.
Qed.

(** C9, amended.  [start] of the frp provider, with no instance active:
    - if by the end of the two seconds the manager waits the child has an
      exit code (it exited with one, or it could not be spawned and has
      the errno), [start] throws ['frpc process failed to start'] and no
      instance is registered;
    - if the child has not ended by then, [start] returns a running status
      and registers the instance; the URL it reports is the one captured
      from the last output chunk matching
      [start proxy success. url = (http...)], and when no chunk matched it
      is the placeholder [http://<instanceId>.frp.local].  The status
      returned has the time of the return, the registered instance the
      time it was made.
    Nothing is said of a child that a signal ended. *)
Theorem start_frp_outcome env customConfig st :
  activeTunnels st !! "frp" = None →
  let instanceId := Str.substring0 8 (uuid1 env) in
  let cfg := buildConfig "frp" customConfig st in
  (∀ code, exit_code (events env) = Some code →
     ∃ st' eff,
       start env "frp" customConfig st
       = Settled (Js.Throw "frpc process failed to start", st', eff) ∧
       activeTunnels st' !! "frp" = None) ∧
  (ended (events env) = false →
     ∃ url st' eff,
       scanned frp_url (events env) (Some (frp_placeholder instanceId)) = Some url ∧
       start env "frp" customConfig st
       = Settled
           (Js.Ok (mkStatus "frp" true (Some url) (localPort cfg)
                     (Some (later env))),
            st', eff) ∧
       getStatus "frp" st'
       = mkStatus "frp" true (Some url) (localPort cfg) (Some (now env)) ∧
       (url = frp_placeholder instanceId ∨
        ∃ chunk, chunk ∈ stdout_chunks (events env) ∧ frp_url chunk = Some url)).
Proof.
  intros Hnone. cbv zeta. unfold start. rewrite Hnone.
  rewrite bool_decide_eq_true_2 by done.
  destruct (frp_credentials customConfig st) as (creds & Hc).
  unfold startFrpTunnel, generateFrpConfig. rewrite Hc, wait_listening.
  set (w0 := mkWaiting _ _ st).
  pose proof (handled_exitCode "frp" frp_url (events env) w0) as Hexit.
  pose proof (handled_killed "frp" frp_url (events env) w0) as Hkilled.
  pose proof (handled_publicUrl "frp" frp_url (events env) w0) as Hurl.
  pose proof (handled_absent "frp" frp_url (events env) w0 Hnone) as Habs.
  simpl in Hexit, Hkilled, Hurl. rewrite Hkilled. cbn [orb]. split.
  - intros code Hcode. rewrite Hexit, Hcode.
    rewrite bool_decide_eq_true_2 by done. eauto.
  - intros Hrun. rewrite Hexit, (not_ended_exit_code _ Hrun).
    rewrite bool_decide_eq_false_2 by (intros H; by apply H).
    destruct (scanned_Some frp_url (events env)
                (frp_placeholder (Str.substring0 8 (uuid1 env)))) as [url Hsc].
    exists url. eexists _, _. rewrite Hurl, Hsc. split_and!; try done.
    + unfold getStatus. simpl. by rewrite lookup_insert_eq.
    + apply scanned_origin in Hsc as [[= <-]|H]; [by left|by right].
Qed.

Lemma start_frp_outcome_witness :
  activeTunnels Scenario.manager !! "frp" = None ∧
  exit_code (events Scenario.crashed_run) = Some 1 ∧
  (∃ st' eff,
     start Scenario.crashed_run "frp" None Scenario.manager
     = Settled (Js.Throw "frpc process failed to start", st', eff) ∧
     activeTunnels st' !! "frp" = None) ∧
  exit_code (events Scenario.failed_spawn_run) = Some (-2) ∧
  (∃ st' eff,
     start Scenario.failed_spawn_run "frp" None Scenario.manager
     = Settled (Js.Throw "frpc process failed to start", st', eff) ∧
     activeTunnels st' !! "frp" = None) ∧
  ended (events Scenario.good_run) = false ∧
  ∃ url st' eff,
    start Scenario.good_run "frp" None Scenario.manager
    = Settled (Js.Ok (mkStatus "frp" true (Some url) (Some 3000) (Some 3000)),
               st', eff) ∧
    (url = "http://abcd1234.frp.local" ∨
     ∃ chunk, chunk ∈ stdout_chunks (events Scenario.good_run) ∧
              frp_url chunk = Some url).
Proof.
  split; [reflexivity|]. split; [reflexivity|]. split.
  - exact (proj1 (start_frp_outcome Scenario.crashed_run None
                    Scenario.manager eq_refl) 1 eq_refl).
  - split; [reflexivity|]. split.
    + exact (proj1 (start_frp_outcome Scenario.failed_spawn_run None
                      Scenario.manager eq_refl) (-2) eq_refl).
    + split; [reflexivity|].
      destruct (proj2 (start_frp_outcome Scenario.good_run None
                         Scenario.manager eq_refl) eq_refl)
        as (url & st' & eff & _ & Hr & _ & Ho).
      exists url, st', eff. split; [exact Hr|exact Ho].
Defined.

End TunnelFacts.

(** ** Session manager: isolation, counts, tasks *)

Module SessionMore.
Import SessionManager JsMapFacts SessionFacts.

Lemma length_keys {V} (m : list (string * V)) :
  List.length (JsMap.keys m) = List.length m.
Proof. unfold JsMap.keys. apply length_fmap. Qed.

Lemma length_delete {V} k (v : V) m :
  NoDup (JsMap.keys m) → JsMap.get k m = Some v →
  S (List.length (JsMap.delete k m)) = List.length m.
Proof.
  unfold JsMap.keys. induction m as [|[k' v'] r IH]; simpl; [done|].
  intros Hnd. apply NoDup_cons in Hnd as [Hk' Hnd].
  destruct (decide (k' = k)) as [->|Hne]; simpl.
  - intros _. f_equal.
    assert (JsMap.get k r = None) as Hn by by apply get_None_keys.
    clear -Hn. induction r as [|[k0 v0] r IH]; simpl in *; [done|].
    destruct (decide (k0 = k)); [done|]. simpl. f_equal. by apply IH.
  - intros Hg. f_equal. by apply IH.
Qed.

Lemma well_formed_falsy_index u st :
  well_formed st → Js.truthy (userSessions st !! u) = false →
  userSessions st !! u = None.
Proof.
  intros (_ & Hs & Hu) Hf. destruct (userSessions st !! u) as [sid|] eqn:E; [|done].
  destruct (Hu _ _ E) as (s & Hg & _). destruct (Hs _ _ Hg) as (Hne & _).
  simpl in Hf. by rewrite bool_decide_eq_true_2 in Hf.
Qed.

(** Detaching a connection does not touch the session of a user whose
    session does not hold it; and when no stored session holds the
    connection, nothing changes at all. *)
Theorem endSession_leaves_other_users c u st :
  well_formed st →
  ((∀ s, getSessionByUser u st = Some s → c ∉ Session.connectionIds s) →
   getSessionByUser u (endSession c st) = getSessionByUser u st) ∧
  ((∀ sid s, JsMap.get sid (sessions st) = Some s → c ∉ Session.connectionIds s) →
   endSession c st = st).
Proof.
  intros Hwf. pose proof Hwf as (Hnd & Hs & Hu). split.
  - intros Hfree. unfold endSession.
    destruct (holder c (sessions st)) as [[sid0 s0]|] eqn:Hh; [|done].
    apply holder_Some in Hh as [Hel Hc0].
    pose proof (elem_of_get _ _ _ Hnd Hel) as Hg0.
    destruct (Hs _ _ Hg0) as (_ & Hidx0 & _).
    assert (Session.userId s0 ≠ u) as Hother.
    { intros <-. apply (Hfree s0); [|done].
      unfold getSessionByUser. rewrite Hidx0. simpl.
      destruct (Hs _ _ Hg0) as (Hne & _).
      by rewrite bool_decide_eq_true_2. }
    assert (∀ sid, userSessions st !! u = Some sid → sid ≠ sid0) as Hsid.
    { intros sid Hi ->. destruct (Hu _ _ Hi) as (s & Hg & Hsu). congruence. }
    unfold getSessionByUser.
    destruct (decide _); simpl.
    + rewrite lookup_delete_ne by done.
      destruct (userSessions st !! u) as [sid|] eqn:Hi; [|done].
      rewrite get_delete_ne; [done|]. intros Heq.
      apply (Hsid sid); [done|by symmetry].
    + destruct (userSessions st !! u) as [sid|] eqn:Hi; [|done].
      rewrite get_set_ne; [done|]. intros Heq.
      apply (Hsid sid); [done|by symmetry].
  - intros Hnone. unfold endSession.
    destruct (holder c (sessions st)) as [[sid0 s0]|] eqn:Hh; [|done].
    apply holder_Some in Hh as [Hel Hc0].
    pose proof (elem_of_get _ _ _ Hnd Hel) as Hg0.
    by destruct (Hnone _ _ Hg0).
Qed.

Lemma endSession_leaves_other_users_witness :
  ∃ st s,
    run [CreateSession "c1" "u1" "s1" 10; CreateSession "c2" "u2" "s2" 20] empty
      = Js.Ok st ∧
    getSessionByUser "u2" st = Some s ∧
    getSessionByUser "u2" (endSession "c1" st) = Some s.
Proof.
  eexists _, _. split; [vm_compute; reflexivity|]. split; [vm_compute; reflexivity|].
  refine (eq_trans (proj1 (endSession_leaves_other_users "c1" "u2" _ _) _) _).
  - destruct (run_well_formed
                [CreateSession "c1" "u1" "s1" 10; CreateSession "c2" "u2" "s2" 20]
                empty well_formed_empty eq_refl) as (st & Hr & Hwf).
    vm_compute in Hr. injection Hr as <-. exact Hwf.
  - intros s. vm_compute. intros [= <-]. set_solver.
  - vm_compute. reflexivity.
Defined.

(** Attaching a connection for a user, on a well-formed store and with an
    unused non-empty uuid at hand, returns; afterwards the lookup by that
    user gives the returned session, which is of that user and holds the
    connection, the lookup by the connection finds a session, and the
    lookup by any other user gives what it gave before. *)
Theorem createSession_attaches c u uuid now st :
  well_formed st → uuid ≠ "" → JsMap.get uuid (sessions st) = None →
  ∃ st' s,
    createSession c u uuid now st = Js.Ok (st', s) ∧
    getSessionByUser u st' = Some s ∧
    Session.userId s = u ∧
    c ∈ Session.connectionIds s ∧
    is_Some (getSessionByConnection c st') ∧
    (∀ u', u' ≠ u → getSessionByUser u' st' = getSessionByUser u' st).
Proof.
  intros Hwf Hne Hfresh. pose proof Hwf as (Hnd & Hs & Hu).
  destruct (createSession_well_formed c u uuid now st Hwf Hne Hfresh)
    as (st' & s & Hcs & Hwf').
  exists st', s. split; [done|].
  destruct (createSession_post _ _ _ _ _ _ _ Hne Hcs)
    as (sid & Hsid & Hus & Hg & Hc & _ & _).
  assert (getSessionByUser u st' = Some s) as Hby.
  { unfold getSessionByUser. rewrite Hus. simpl.
    by rewrite bool_decide_eq_true_2. }
  split; [done|]. split.
  { destruct Hwf' as (_ & _ & Hu'). destruct (Hu' _ _ Hus) as (s' & Hg' & ?).
    congruence. }
  split; [done|]. split.
  { unfold getSessionByConnection.
    destruct (holder c (sessions st')) as [p|] eqn:Hh; [by eexists|].
    exfalso. apply (holder_None _ _ sid s Hh); [|done]. by apply get_elem_of. }
  intros u' Hu'. unfold createSession in Hcs.
  destruct (userSessions st !! u) as [sid0|] eqn:Hi.
  - destruct (Hu _ _ Hi) as (s0 & Hg0 & Hs0u).
    destruct (Hs _ _ Hg0) as (Hsid0 & _ & _).
    simpl in Hcs. rewrite bool_decide_eq_true_2 in Hcs by done.
    rewrite Hg0 in Hcs. injection Hcs as <- <-.
    unfold getSessionByUser. simpl.
    destruct (userSessions st !! u') as [sid'|] eqn:Hi'; [|done].
    rewrite get_set_ne; [done|]. intros ->.
    destruct (Hu _ _ Hi') as (s1 & Hg1 & Hs1u). congruence.
  - injection Hcs as <- <-. unfold getSessionByUser. simpl.
    rewrite lookup_insert_ne by done.
    destruct (userSessions st !! u') as [sid'|] eqn:Hi'; [|done].
    rewrite get_set_ne; [done|]. intros ->.
    destruct (Hu _ _ Hi') as (s1 & Hg1 & _). congruence.
Qed.

Lemma createSession_attaches_witness :
  "s1" ≠ "" ∧ JsMap.get "s1" (sessions empty) = None ∧
  ∃ st' s, createSession "c1" "u1" "s1" 10 empty = Js.Ok (st', s) ∧
           getSessionByUser "u1" st' = Some s.
Proof.
  split; [done|]. split; [reflexivity|].
  destruct (createSession_attaches "c1" "u1" "s1" 10 empty well_formed_empty)
    as (st' & s & H1 & H2 & _); [done|reflexivity|].
  by exists st', s.
Defined.

Lemma total_at_least_length (ss : list (string * Session.t)) : ∀ n,
  (∀ k s, (k, s) ∈ ss → Session.connectionIds s ≠ ∅) →
  (n + List.length ss ≤
   foldl (λ count e, (count + size (Session.connectionIds e.2))%nat) n ss)%nat.
Proof.
  induction ss as [|[k s] r IH]; intros n Hne; simpl; [lia|].
  assert (size (Session.connectionIds s) ≠ 0%nat) as Hpos.
  { intros Hz. apply (Hne k s); [left|]. by apply size_empty_inv, leibniz_equiv in Hz. }
  specialize (IH (n + size (Session.connectionIds s))%nat).
  assert (∀ k0 s0, (k0, s0) ∈ r → Session.connectionIds s0 ≠ ∅) as Hr.
  { intros k0 s0 Hin. apply (Hne k0 s0). by right. }
  specialize (IH Hr). lia.
Qed.

Lemma step_counts o st st' :
  well_formed st → uuid_ok o st = true → step o st = Js.Ok st' →
  List.length (sessions st) = size (userSessions st) →
  List.length (sessions st') = size (userSessions st').
Proof.
  intros Hwf Hok Hstep Hcount. pose proof Hwf as (Hnd & Hs & Hu).
  destruct o as [c u uuid now|c]; simpl in *.
  - apply andb_true_iff in Hok as [Hne Hnew].
    apply bool_decide_eq_true in Hne. apply negb_true_iff in Hnew.
    unfold JsMap.has in Hnew. apply bool_decide_eq_false in Hnew.
    assert (JsMap.get uuid (sessions st) = None) as Hnone.
    { destruct (JsMap.get uuid (sessions st)) eqn:E; [|done].
      exfalso. apply Hnew. by eexists. }
    unfold createSession in Hstep.
    destruct (userSessions st !! u) as [sid|] eqn:Hi.
    + destruct (Hu _ _ Hi) as (s0 & Hg0 & _).
      destruct (Hs _ _ Hg0) as (Hsid & _ & _).
      simpl in Hstep. rewrite bool_decide_eq_true_2 in Hstep by done.
      rewrite Hg0 in Hstep. injection Hstep as <-. simpl.
      rewrite <- length_keys, keys_set_in, length_keys by (by eexists). done.
    + injection Hstep as <-. simpl.
      rewrite <- length_keys, keys_set_new, length_app, length_keys by done.
      rewrite map_size_insert_None by done. simpl. lia.
  - injection Hstep as <-. unfold endSession.
    destruct (holder c (sessions st)) as [[sid0 s0]|] eqn:Hh; [|done].
    apply holder_Some in Hh as [Hel Hc0].
    pose proof (elem_of_get _ _ _ Hnd Hel) as Hg0.
    destruct (Hs _ _ Hg0) as (_ & Hidx0 & _).
    destruct (decide _); simpl.
    + pose proof (length_delete _ _ _ Hnd Hg0) as Hl.
      rewrite map_size_delete_Some by (by eexists). lia.
    + rewrite <- length_keys, keys_set_in, length_keys by (by eexists). done.
Qed.

(** After any sequence of [createSession] and [endSession] calls on a new
    session manager ([uuidv4] handing out non-empty unused identifiers),
    [getActiveSessionCount] is the number of users in the index, and it is
    at most [getTotalConnectionCount]: no stored session is empty. *)
Theorem session_counts (ops : list op) :
  uuids_fresh ops empty = true →
  ∃ st, run ops empty = Js.Ok st ∧
        getActiveSessionCount st = size (userSessions st) ∧
        (getActiveSessionCount st ≤ getTotalConnectionCount st)%nat.
Proof.
  intros Hfresh.
  assert (∀ ops st, well_formed st → uuids_fresh ops st = true →
            List.length (sessions st) = size (userSessions st) →
            ∃ st', run ops st = Js.Ok st' ∧ well_formed st' ∧
                   List.length (sessions st') = size (userSessions st')) as Hrun.
  { clear. induction ops as [|o rest IH]; intros st Hwf Hfresh Hcount; simpl in *.
    - by exists st.
    - apply andb_true_iff in Hfresh as [Hok Hrest].
      destruct (run_well_formed [o] st Hwf) as (st1 & Hr1 & Hwf1).
      { simpl. rewrite Hok. simpl. by destruct (step o st). }
      simpl in Hr1. destruct (step o st) as [st1'|] eqn:Hstep; [|done].
      injection Hr1 as ->.
      apply (IH st1 Hwf1 Hrest). by apply (step_counts o st). }
  destruct (Hrun ops empty well_formed_empty Hfresh eq_refl)
    as (st & Hr & Hwf & Hcount).
  exists st. split; [done|]. split; [done|].
  unfold getActiveSessionCount, getTotalConnectionCount.
  destruct Hwf as (Hnd & Hs & _).
  pose proof (total_at_least_length (sessions st) 0%nat) as Hle.
  simpl in Hle. apply Hle. intros k s Hin.
  destruct (Hs k s (elem_of_get _ _ _ Hnd Hin)) as (_ & _ & ?). done.
Qed.

Lemma session_counts_witness :
  uuids_fresh Scenario.sample_calls empty = true ∧
  ∃ st, run Scenario.sample_calls empty = Js.Ok st ∧
        getActiveSessionCount st = size (userSessions st).
Proof.
  split; [vm_compute; reflexivity|].
  destruct (session_counts Scenario.sample_calls) as (st & Hr & Hc & _);
    [vm_compute; reflexivity|].
  by exists st.
Defined.

End SessionMore.

(** ** Bot registry and message router *)

Module RegistryFacts.
Import BotRegistry.

Lemma elem_of_set_add x y l : x ∈ set_add y l ↔ x = y ∨ x ∈ l.
Proof.
  unfold set_add. destruct (decide (y ∈ l)).
  - split; [by right|]. intros [->|?]; done.
  - rewrite elem_of_app, list_elem_of_singleton. tauto.
Qed.

Lemma elem_of_List_filter (f : string → bool) x l :
  x ∈ List.filter f l ↔ f x = true ∧ x ∈ l.
Proof. rewrite !list_elem_of_In, filter_In. tauto. Qed.

Lemma indexed_empty : indexed empty.
Proof.
  split; simpl.
  - intros ??? H. by rewrite lookup_empty in H.
  - intros ?? H. by rewrite lookup_empty in H.
Qed.

Lemma register_indexed params uuid now reg :
  indexed reg → bots reg !! ("bot_" +:+ Str.substring0 8 uuid) = None →
  indexed (register params uuid now reg).1.
Proof.
  intros [H1 H2] Hfresh. unfold register. simpl.
  set (botId := "bot_" +:+ Str.substring0 8 uuid) in *.
  set (u := r_userId params).
  split; simpl.
  - intros u0 ids id. rewrite lookup_insert.
    destruct (decide (u = u0)) as [<-|Hu].
    + intros [= <-] Hin. apply elem_of_set_add in Hin as [->|Hin].
      * rewrite lookup_insert_eq. by eexists.
      * destruct (userBots reg !! u) as [mine|] eqn:Hm; simpl in Hin;
          [|by apply elem_of_nil in Hin].
        destruct (H1 _ _ _ Hm Hin) as (bot & Hb & Hbu).
        exists bot. split; [|done]. rewrite lookup_insert_ne; [done|].
        intros <-. congruence.
    + intros Hids Hin. destruct (H1 _ _ _ Hids Hin) as (bot & Hb & Hbu).
      exists bot. split; [|done]. rewrite lookup_insert_ne; [done|].
      intros <-. congruence.
  - intros id bot. rewrite lookup_insert.
    destruct (decide (botId = id)) as [<-|Hid].
    + intros [= <-]. simpl. rewrite lookup_insert_eq. eexists. split; [done|].
      apply elem_of_set_add. by left.
    + intros Hb. destruct (H2 _ _ Hb) as (ids & Hids & Hin).
      rewrite lookup_insert. destruct (decide (u = Bot.userId bot)) as [Heq|Hne].
      * eexists. split; [done|]. apply elem_of_set_add. right.
        rewrite Heq, Hids. done.
      * by exists ids.
Qed.

Lemma rewrite_indexed id bot' reg bot :
  indexed reg → bots reg !! id = Some bot → Bot.userId bot' = Bot.userId bot →
  indexed (mk (<[id := bot']> (bots reg)) (userBots reg)).
Proof.
  intros [H1 H2] Hb Hsame. split; simpl.
  - intros u ids id0 Hids Hin. destruct (H1 _ _ _ Hids Hin) as (b0 & Hb0 & Hb0u).
    rewrite lookup_insert. destruct (decide (id = id0)) as [<-|Hne].
    + exists bot'. split; [done|]. congruence.
    + by exists b0.
  - intros id0 b0. rewrite lookup_insert.
    destruct (decide (id = id0)) as [<-|Hne].
    + intros [= <-]. rewrite Hsame. by apply H2.
    + apply H2.
Qed.

Lemma deleteBot_indexed id reg : indexed reg → indexed (deleteBot id reg).1.
Proof.
  intros [H1 H2]. unfold deleteBot.
  destruct (bots reg !! id) as [bot|] eqn:Hb; [|done]. simpl.
  destruct (H2 _ _ Hb) as (mine & Hmine & Hin). rewrite Hmine.
  split; simpl.
  - intros u ids id0. rewrite lookup_insert.
    destruct (decide (Bot.userId bot = u)) as [<-|Hu].
    + intros [= <-] Hin0. apply elem_of_List_filter in Hin0 as [Hne Hin0].
      apply bool_decide_eq_true in Hne.
      destruct (H1 _ _ _ Hmine Hin0) as (b0 & Hb0 & Hb0u).
      exists b0. split; [|done]. by rewrite lookup_delete_ne.
    + intros Hids Hin0. destruct (H1 _ _ _ Hids Hin0) as (b0 & Hb0 & Hb0u).
      exists b0. split; [|done]. rewrite lookup_delete_ne; [done|].
      intros <-. congruence.
  - intros id0 b0. destruct (decide (id = id0)) as [<-|Hne].
    { by rewrite lookup_delete_eq. }
    rewrite lookup_delete_ne by done. intros Hb0.
    destruct (H2 _ _ Hb0) as (ids & Hids & Hin0).
    rewrite lookup_insert.
    destruct (decide (Bot.userId bot = Bot.userId b0)) as [Heq|Hu].
    + eexists. split; [done|]. apply elem_of_List_filter.
      split; [by apply bool_decide_eq_true|]. congruence.
    + by exists ids.
Qed.

Lemma step_indexed o reg :
  indexed reg →
  match o with
  | Register _ uuid _ => bots reg !! ("bot_" +:+ Str.substring0 8 uuid) = None
  | _ => True
  end →
  indexed (step o reg).
Proof.
  intros Hi Hfresh. destruct o as [params uuid now|id status now|id sid now|id]; simpl.
  - by apply register_indexed.
  - unfold updateBotStatus. destruct (bots reg !! id) as [bot|] eqn:Hb; [|done].
    by eapply rewrite_indexed.
  - unfold setOpenClawSession. destruct (bots reg !! id) as [bot|] eqn:Hb; [|done].
    simpl. by eapply rewrite_indexed.
  - by apply deleteBot_indexed.
Qed.

Lemma run_indexed ops : ∀ reg,
  indexed reg → ids_fresh ops reg = true → indexed (run ops reg).
Proof.
  unfold run. induction ops as [|o rest IH]; intros reg Hi Hf; simpl in *; [done|].
  apply andb_true_iff in Hf as [Hok Hrest]. apply IH; [|done].
  apply step_indexed; [done|].
  destruct o; try done. by apply bool_decide_eq_true in Hok.
Qed.

(** After any sequence of [register], [updateBotStatus],
    [setOpenClawSession] and [deleteBot] calls on a new registry (the bot
    id [register] makes being unused each time), [getUserBots] of a user
    returns exactly the stored bots whose [userId] is that user: never a
    bot of someone else, and none of the user's own is missing. *)
Theorem getUserBots_own_bots (ops : list op) :
  ids_fresh ops empty = true →
  ∀ u bot,
    bot ∈ getUserBots u (run ops empty) ↔
    ∃ id, getBot id (run ops empty) = Some bot ∧ Bot.userId bot = u.
Proof.
  intros Hf u bot.
  destruct (run_indexed ops empty indexed_empty Hf) as [H1 H2].
  unfold getUserBots, getBot. split.
  - destruct (userBots (run ops empty) !! u) as [ids|] eqn:Hids;
      [|intros H; by apply elem_of_nil in H].
    intros H. apply list_elem_of_omap in H as (id & Hin & Hb).
    exists id. split; [done|].
    destruct (H1 _ _ _ Hids Hin) as (b0 & Hb0 & Hb0u). congruence.
  - intros (id & Hb & <-). destruct (H2 _ _ Hb) as (ids & Hids & Hin).
    rewrite Hids. apply list_elem_of_omap. by exists id.
Qed.

Lemma getUserBots_own_bots_witness :
  ids_fresh Scenario.two_owners empty = true ∧
  ∃ bot, getUserBots "u1" (run Scenario.two_owners empty) = [bot] ∧
         Bot.userId bot = "u1" ∧ getUserBots "u2" (run Scenario.two_owners empty) = [].
Proof.
  split; [vm_compute; reflexivity|].
  eexists. split; [vm_compute; reflexivity|].
  split; [|vm_compute; reflexivity].
  destruct (proj1 (getUserBots_own_bots Scenario.two_owners eq_refl "u1" _)
              (list_elem_of_here _ []))
    as (id & _ & Hu).
  exact Hu.
Defined.

(** Registering with an unused bot id stores the bot: it is offline, of
    the registering user, found by [getBot] under its id and listed by
    [getUserBots]; deleting it then answers [true], leaves no bot under the
    id and the store as it was before, and a second delete answers
    [false]. *)
Theorem register_then_delete params uuid now reg :
  bots reg !! ("bot_" +:+ Str.substring0 8 uuid) = None →
  let r := register params uuid now reg in
  let d := deleteBot (Bot.id r.2) r.1 in
  Bot.id r.2 = "bot_" +:+ Str.substring0 8 uuid ∧
  Bot.status r.2 = "offline" ∧
  Bot.userId r.2 = r_userId params ∧
  getBot (Bot.id r.2) r.1 = Some r.2 ∧
  r.2 ∈ getUserBots (r_userId params) r.1 ∧
  d.2 = true ∧
  getBot (Bot.id r.2) d.1 = None ∧
  bots d.1 = bots reg ∧
  (deleteBot (Bot.id r.2) d.1).2 = false.
Proof.
  intros Hfresh. simpl. unfold getBot, getUserBots, deleteBot, register. simpl.
  repeat (rewrite ?lookup_insert_eq, ?lookup_delete_eq; simpl).
  split_and!; try done.
  - apply list_elem_of_omap. eexists. split.
    + apply elem_of_set_add. by left.
    + unfold getBot. simpl. by rewrite lookup_insert_eq.
  - rewrite delete_insert_eq. by apply delete_id.
Qed.

Lemma register_then_delete_witness :
  bots empty !! ("bot_" +:+ Str.substring0 8 "aaaaaaaa-0000") = None ∧
  getBot "bot_aaaaaaaa"
    (register (mkRegisterParams "u1" "Clawra" None "openclaw" None)
       "aaaaaaaa-0000" 1 empty).1
  = Some (register (mkRegisterParams "u1" "Clawra" None "openclaw" None)
            "aaaaaaaa-0000" 1 empty).2.
Proof.
  split; [reflexivity|].
  destruct (register_then_delete
              (mkRegisterParams "u1" "Clawra" None "openclaw" None)
              "aaaaaaaa-0000" 1 empty eq_refl) as (_ & _ & _ & H & _).
  exact H.
Defined.

End RegistryFacts.

Module RouterFacts.
Import MessageRouter.

Lemma elem_of_add x y l : x ∈ set_add y l ↔ x = y ∨ x ∈ l.
Proof.
  unfold set_add. destruct (decide (y ∈ l)).
  - split; [by right|]. intros [->|?]; done.
  - rewrite elem_of_app, list_elem_of_singleton. tauto.
Qed.

Lemma elem_of_delete x y l : x ∈ set_delete y l ↔ x ≠ y ∧ x ∈ l.
Proof.
  unfold set_delete. rewrite !list_elem_of_In, filter_In.
  rewrite bool_decide_eq_true. tauto.
Qed.

Lemma NoDup_add y l : NoDup l → NoDup (set_add y l).
Proof.
  intros H. unfold set_add. destruct (decide (y ∈ l)); [done|].
  apply NoDup_app. split; [done|]. split; [|apply NoDup_singleton].
  intros x Hx Hx'. apply list_elem_of_singleton in Hx' as ->. done.
Qed.

Lemma NoDup_delete y l : NoDup l → NoDup (set_delete y l).
Proof.
  intros H. unfold set_delete. apply NoDup_ListNoDup.
  apply List.NoDup_filter. by apply NoDup_ListNoDup.
Qed.

Lemma subscribers_subscribe u0 b0 b ch :
  getBotSubscribers b (subscribeToBot u0 b0 ch)
  = if decide (b0 = b) then set_add u0 (getBotSubscribers b ch)
    else getBotSubscribers b ch.
Proof.
  unfold getBotSubscribers, subscribeToBot. simpl. rewrite lookup_insert.
  by destruct (decide (b0 = b)) as [->|].
Qed.

Lemma subscriptions_subscribe u0 b0 u ch :
  subscriptions u (subscribeToBot u0 b0 ch)
  = if decide (u0 = u) then set_add b0 (subscriptions u ch)
    else subscriptions u ch.
Proof.
  unfold subscriptions, subscribeToBot. simpl. rewrite lookup_insert.
  by destruct (decide (u0 = u)) as [->|].
Qed.

Lemma subscribers_unsubscribe u0 b0 b ch :
  getBotSubscribers b (unsubscribeFromBot u0 b0 ch)
  = if decide (b0 = b) then set_delete u0 (getBotSubscribers b ch)
    else getBotSubscribers b ch.
Proof.
  unfold getBotSubscribers, unsubscribeFromBot. simpl.
  destruct (botChannels ch !! b0) as [users|] eqn:Hb.
  - rewrite lookup_insert. destruct (decide (b0 = b)) as [<-|]; [|done].
    by rewrite Hb.
  - destruct (decide (b0 = b)) as [<-|]; [|done]. by rewrite Hb.
Qed.

Lemma subscriptions_unsubscribe u0 b0 u ch :
  subscriptions u (unsubscribeFromBot u0 b0 ch)
  = if decide (u0 = u) then set_delete b0 (subscriptions u ch)
    else subscriptions u ch.
Proof.
  unfold subscriptions, unsubscribeFromBot. simpl.
  destruct (userChannels ch !! u0) as [botIds|] eqn:Hu.
  - rewrite lookup_insert. destruct (decide (u0 = u)) as [<-|]; [|done].
    by rewrite Hu.
  - destruct (decide (u0 = u)) as [<-|]; [|done]. by rewrite Hu.
Qed.

Lemma sub_step_mirror o ch :
  (∀ u b, u ∈ getBotSubscribers b ch ↔ b ∈ subscriptions u ch) →
  ∀ u b, u ∈ getBotSubscribers b (sub_step o ch) ↔ b ∈ subscriptions u (sub_step o ch).
Proof.
  intros IH u b. destruct o as [u0 b0|u0 b0]; simpl.
  - rewrite subscribers_subscribe, subscriptions_subscribe.
    destruct (decide (b0 = b)) as [<-|Hb], (decide (u0 = u)) as [<-|Hu];
      rewrite ?elem_of_add, ?IH; naive_solver.
  - rewrite subscribers_unsubscribe, subscriptions_unsubscribe.
    destruct (decide (b0 = b)) as [<-|Hb], (decide (u0 = u)) as [<-|Hu];
      rewrite ?elem_of_delete, ?IH; naive_solver.
Qed.

Lemma sub_step_NoDup o ch :
  (∀ b, NoDup (getBotSubscribers b ch)) →
  ∀ b, NoDup (getBotSubscribers b (sub_step o ch)).
Proof.
  intros IH b. destruct o as [u0 b0|u0 b0]; simpl.
  - rewrite subscribers_subscribe. destruct (decide (b0 = b)); [|done].
    by apply NoDup_add.
  - rewrite subscribers_unsubscribe. destruct (decide (b0 = b)); [|done].
    by apply NoDup_delete.
Qed.

(** After any sequence of [subscribeToBot] and [unsubscribeFromBot] calls
    on a new router, the two maps mirror each other (a user is among the
    subscribers of a bot exactly when the bot is among the user's
    subscriptions), and [getBotSubscribers] lists no user twice, so a
    broadcast reaches each subscriber once. *)
Theorem channels_mirror (ops : list sub_op) (u b : string)
    (message : OpenClawMessage.t) :
  (u ∈ getBotSubscribers b (sub_run ops no_channels) ↔
   b ∈ subscriptions u (sub_run ops no_channels)) ∧
  NoDup (getBotSubscribers b (sub_run ops no_channels)) ∧
  NoDup (broadcastToBotSubscribers b message (sub_run ops no_channels)).
Proof.
  assert (∀ ops ch,
            (∀ u b, u ∈ getBotSubscribers b ch ↔ b ∈ subscriptions u ch) →
            (∀ b, NoDup (getBotSubscribers b ch)) →
            (∀ u b, u ∈ getBotSubscribers b (sub_run ops ch) ↔
                    b ∈ subscriptions u (sub_run ops ch)) ∧
            (∀ b, NoDup (getBotSubscribers b (sub_run ops ch)))) as Hrun.
  { clear. unfold sub_run. induction ops as [|o rest IH]; intros ch Hm Hn; simpl.
    - done.
    - apply IH; [by apply sub_step_mirror|by apply sub_step_NoDup]. }
  destruct (Hrun ops no_channels) as [Hm Hn].
  - intros u' b'. unfold getBotSubscribers, subscriptions. simpl.
    rewrite !lookup_empty. simpl. split; intros H; by apply elem_of_nil in H.
  - intros b'. unfold getBotSubscribers. simpl. rewrite lookup_empty.
    apply NoDup_nil_2.
  - split; [apply Hm|]. split; [apply Hn|].
    unfold broadcastToBotSubscribers. apply NoDup_fmap_2; [|apply Hn].
    intros x y [= ->]. done.
Qed.

(** Subscribing makes the user a subscriber of the bot, and a broadcast
    for the bot then goes to the user; unsubscribing removes the user;
    neither changes whether any other user is a subscriber of that bot or
    who the subscribers of any other bot are. *)
Theorem subscribe_unsubscribe (u b : string) (message : OpenClawMessage.t)
    (ch : Channels) :
  u ∈ getBotSubscribers b (subscribeToBot u b ch) ∧
  ToUser u message ∈ broadcastToBotSubscribers b message (subscribeToBot u b ch) ∧
  (u ∉ getBotSubscribers b (unsubscribeFromBot u b ch)) ∧
  (∀ u', u' ≠ u →
     (u' ∈ getBotSubscribers b (subscribeToBot u b ch) ↔ u' ∈ getBotSubscribers b ch) ∧
     (u' ∈ getBotSubscribers b (unsubscribeFromBot u b ch)
      ↔ u' ∈ getBotSubscribers b ch)) ∧
  (∀ b', b' ≠ b →
     getBotSubscribers b' (subscribeToBot u b ch) = getBotSubscribers b' ch ∧
     getBotSubscribers b' (unsubscribeFromBot u b ch) = getBotSubscribers b' ch).
Proof.
  assert (u ∈ getBotSubscribers b (subscribeToBot u b ch)) as Hin.
  { rewrite subscribers_subscribe, decide_True by done. apply elem_of_add. by left. }
  split_and!.
  - done.
  - unfold broadcastToBotSubscribers. apply list_elem_of_fmap. by exists u.
  - rewrite subscribers_unsubscribe, decide_True by done.
    rewrite elem_of_delete. by intros [? _].
  - intros u' Hne. rewrite subscribers_subscribe, subscribers_unsubscribe.
    rewrite !decide_True by done. rewrite elem_of_add, elem_of_delete. tauto.
  - intros b' Hne. rewrite subscribers_subscribe, subscribers_unsubscribe.
    by rewrite !decide_False by done.
Qed.

(** A message addressed to the id [register] has just made, and carrying
    no [botId] of its own, is handed to [sendToBot] for that id, never to
    [sendToUser], and acknowledged under the id of the message built. *)
Theorem route_to_registered_bot params uuid t reg cid rs message uuid1 uuid2 now :
  Js.truthy (from message) = true →
  Js.truthy (botId message) = false →
  to message = Some (Bot.id (BotRegistry.register params uuid t reg).2) →
  route cid rs message uuid1 uuid2 now
  = ToBot (Bot.id (BotRegistry.register params uuid t reg).2)
      (buildOpenClawMessage message uuid1 uuid2)
    :: sendMessageAck cid rs uuid1 now.
Proof.
  intros Hfrom Hbot Hto. unfold route. rewrite Hfrom, Hbot, Hto.
  unfold BotRegistry.register. cbn [snd Bot.id].
  change ("bot_" +:+ Str.substring0 8 uuid)
    with (String "b" (String "o" (String "t" (String "_" (Str.substring0 8 uuid))))).
  unfold Js.truthy. rewrite bool_decide_eq_true_2 by done.
  unfold isBotId, Str.startsWith. simpl.
  by destruct (Str.substring0 8 uuid).
Qed.

Lemma route_to_registered_bot_witness :
  route "c2" OPEN
    (mkParams (Some "u1") (Some "bot_aaaaaaaa") (Some "hi") None None None 5)
    "m1" "m2" 5
  = [ToBot "bot_aaaaaaaa"
       (buildOpenClawMessage
          (mkParams (Some "u1") (Some "bot_aaaaaaaa") (Some "hi") None None None 5)
          "m1" "m2");
     Send "c2"
       (WSFrame.mk "message_ack"
          (JObj [("messageId", JStr "m1"); ("status", JStr "delivered");
                 ("timestamp", JNum 5)])
          (Some 5) None)].
Proof.
  exact (route_to_registered_bot
           (BotRegistry.mkRegisterParams "u1" "Clawra" None "openclaw" None)
           "aaaaaaaa-0000" 1 BotRegistry.empty "c2" OPEN
           (mkParams (Some "u1") (Some "bot_aaaaaaaa") (Some "hi") None None None 5)
           "m1" "m2" 5 eq_refl eq_refl eq_refl).
Defined.

End RouterFacts.

(** ** The WebSocket frontend: what a frame can and cannot do *)

Module ServerMore.
Import JsMapFacts.

Lemma sendFrame_to_sender ws f :
  Forall (Server.to_sender (ExtWebSocket.connectionId ws)) (Server.sendFrame ws f).
Proof.
  unfold Server.sendFrame. case_decide; [|apply Forall_nil_2].
  apply Forall_cons. split; [done|apply Forall_nil_2].
Qed.

Lemma route_to_sender cid rs m u1 u2 now :
  Forall (Server.to_sender cid) (MessageRouter.route cid rs m u1 u2 now).
Proof.
  unfold MessageRouter.route, MessageRouter.sendError, MessageRouter.sendMessageAck.
  repeat case_match; repeat (apply Forall_cons; split; [done|]); apply Forall_nil_2.
Qed.

Lemma sync_fields ws srv :
  Server.botRegistry (Server.sync ws srv) = Server.botRegistry srv ∧
  Server.authService (Server.sync ws srv) = Server.authService srv ∧
  Server.config (Server.sync ws srv) = Server.config srv ∧
  Server.sessionManager (Server.sync ws srv) = Server.sessionManager srv ∧
  JsMap.keys (Server.connections (Server.sync ws srv))
  = JsMap.keys (Server.connections srv).
Proof.
  unfold Server.sync, JsMap.has. case_bool_decide; simpl; [|done].
  split_and!; try done. by apply keys_set_in.
Qed.

Lemma handleAuth_fields c env ws frame srv :
  let r := Server.handleAuth c env ws frame srv in
  Forall (Server.to_sender (ExtWebSocket.connectionId ws)) r.2 ∧
  Server.botRegistry r.1.2 = Server.botRegistry srv ∧
  Server.authService r.1.2 = Server.authService srv ∧
  Server.config r.1.2 = Server.config srv ∧
  JsMap.keys (Server.connections r.1.2) = JsMap.keys (Server.connections srv) ∧
  ExtWebSocket.connectionId r.1.1 = ExtWebSocket.connectionId ws ∧
  ExtWebSocket.readyState r.1.1 = ExtWebSocket.readyState ws ∧
  ExtWebSocket.subscribedBots r.1.1 = ExtWebSocket.subscribedBots ws.
Proof.
  simpl. unfold Server.handleAuth, Server.auth_error.
  repeat case_match; simpl;
    repeat match goal with
    | |- context [Server.sync ?w ?s] =>
        let H := fresh in
        pose proof (sync_fields w s) as H; destruct H as (? & ? & ? & ? & ?);
        generalize dependent (Server.sync w s); intros
    end;
    split_and!; try done; try congruence;
    try (apply Forall_app; split);
    try apply (sendFrame_to_sender (ExtWebSocket.with_userId _ _));
    try apply sendFrame_to_sender; try apply Forall_nil_2.
Qed.

(** Whatever frame arrives, [handleMessage] only answers on the sender's
    own socket or hands a message to the router's [sendToBot] /
    [sendToUser]: it never closes or pings a socket and never writes to
    another connection.  It leaves the bot registry, the key store, the
    configuration and the set of stored connections as they were, and the
    sender's socket keeps its id and its ready state. *)
Theorem handleMessage_confined c env ws data srv :
  let r := Server.handleMessage c env ws data srv in
  Forall (Server.to_sender (ExtWebSocket.connectionId ws)) r.2 ∧
  Server.botRegistry r.1.2 = Server.botRegistry srv ∧
  Server.authService r.1.2 = Server.authService srv ∧
  Server.config r.1.2 = Server.config srv ∧
  JsMap.keys (Server.connections r.1.2) = JsMap.keys (Server.connections srv) ∧
  ExtWebSocket.connectionId r.1.1 = ExtWebSocket.connectionId ws ∧
  ExtWebSocket.readyState r.1.1 = ExtWebSocket.readyState ws.
Proof.
  simpl. unfold Server.handleMessage.
  destruct data as [| |frame].
  - simpl. split_and!; try done. apply sendFrame_to_sender.
  - simpl. split_and!; try done.
    apply (sendFrame_to_sender (ExtWebSocket.with_lastActivity _ ws)).
  - set (ws1 := ExtWebSocket.with_lastActivity (Server.now env) ws).
    assert (ExtWebSocket.connectionId ws1 = ExtWebSocket.connectionId ws) as Hid
      by done.
    assert (ExtWebSocket.readyState ws1 = ExtWebSocket.readyState ws) as Hrs
      by done.
    rewrite <- Hid, <- Hrs. clearbody ws1. clear Hid Hrs.
    unfold Server.dispatch.
    case_bool_decide.
    { pose proof (handleAuth_fields c env ws1 frame srv) as H0. simpl in H0.
      simpl. destruct H0 as (? & ? & ? & ? & ? & ? & ? & ?). done. }
    case_bool_decide.
    { unfold Server.handleMessageFrame.
      repeat case_match; simplify_eq/=; split_and!; try done;
        first [apply sendFrame_to_sender | apply route_to_sender]. }
    case_bool_decide.
    { simpl. split_and!; try done. apply sendFrame_to_sender. }
    case_bool_decide.
    { unfold Server.handleSubscribe.
      repeat case_match; simplify_eq/=; split_and!; try done;
        first [apply sendFrame_to_sender
              | apply (sendFrame_to_sender ws1)]. }
    case_bool_decide.
    { unfold Server.handleUnsubscribe.
      repeat case_match; simplify_eq/=; split_and!; try done;
        first [apply sendFrame_to_sender | apply (sendFrame_to_sender ws1)]. }
    case_bool_decide.
    { unfold Server.handleTask.
      repeat case_match; simplify_eq/=; split_and!; try done;
        apply sendFrame_to_sender. }
    case_bool_decide.
    { unfold Server.handleStatusRequest.
      repeat case_match; simplify_eq/=; split_and!; try done;
        first [apply sendFrame_to_sender | apply Forall_nil_2]. }
    simpl. split_and!; try done. apply sendFrame_to_sender.
Qed.

(** [handleSubscribe] adds at most the bot named by the frame, and only
    when the registry has that bot with the sender as owner: every bot in
    the socket's subscriptions afterwards was there before or is owned by
    the socket's user. *)
Theorem handleSubscribe_only_owned env ws frame srv ws' eff :
  Server.handleSubscribe env ws frame srv = Js.Ok (ws', eff) →
  ExtWebSocket.userId ws' = ExtWebSocket.userId ws ∧
  ∀ b, b ∈ ExtWebSocket.subscribedBots ws' →
       b ∈ ExtWebSocket.subscribedBots ws ∨
       ∃ bot, BotRegistry.getBot b (Server.botRegistry srv) = Some bot ∧
              Some (Bot.userId bot) = ExtWebSocket.userId ws.
Proof.
  unfold Server.handleSubscribe. intros H.
  repeat case_match; simplify_eq/=; (split; [done|]); intros b Hb; try by left.
  apply elem_of_union in Hb as [Hb|Hb]; [|by left].
  apply elem_of_singleton in Hb as ->. right.
  match goal with
  | H : bool_decide _ = false |- _ => apply bool_decide_eq_false in H
  end.
  eexists. split; [done|]. by apply dec_stable.
Qed.

Lemma handleSubscribe_only_owned_witness :
  Server.handleSubscribe Scenario.env Scenario.ws_u2
    (Scenario.subscribe_frame "bot_1") Scenario.server
  = Js.Ok (Scenario.ws_u2,
           Server.sendError Scenario.ws_u2 403 "Bot not found or access denied" 1000)
  ∧ ExtWebSocket.userId Scenario.ws_u2 = ExtWebSocket.userId Scenario.ws_u2.
Proof.
  split; [reflexivity|].
  exact (proj1 (handleSubscribe_only_owned Scenario.env Scenario.ws_u2
                  (Scenario.subscribe_frame "bot_1") Scenario.server
                  Scenario.ws_u2 _ eq_refl)).
Defined.

(** A ['task'] frame with a [data] object from an authenticated socket
    stores one task under the fresh id: it is pending, owned by the
    sender's user and names the bot id of the frame as it came; every
    other stored task, the sessions and the bot registry are as before,
    and the reply is the one [task_status] frame. *)
Theorem handleTask_owned_by_sender env ws frame srv u d later :
  ExtWebSocket.userId ws = Some u → u ≠ "" → RawFrame.data frame = Some d →
  ∃ srv' task,
    Server.handleTask env ws frame srv
    = Js.Ok (srv',
             Server.sendFrame ws
               (WSFrame.mk "task_status"
                  (JObj [("taskId", JStr (Server.uuid1 env));
                         ("status", JStr "pending")])
                  (Some (Server.now env)) (RawFrame.id frame))) ∧
    SessionManager.getTask (Server.uuid1 env) later (Server.sessionManager srv')
    = Some (task, later) ∧
    Task.id task = Server.uuid1 env ∧
    Task.userId task = u ∧
    Task.botId task = d !! "botId" ∧
    Task.status task = "pending" ∧
    (∀ id, id ≠ Server.uuid1 env →
       SessionManager.getTask id later (Server.sessionManager srv')
       = SessionManager.getTask id later (Server.sessionManager srv)) ∧
    SessionManager.sessions (Server.sessionManager srv')
    = SessionManager.sessions (Server.sessionManager srv) ∧
    Server.botRegistry srv' = Server.botRegistry srv.
Proof.
  intros Hu Hne Hd. unfold Server.handleTask. rewrite Hu, Hd. simpl.
  rewrite bool_decide_eq_true_2 by done. simpl.
  eexists _, _. split; [reflexivity|]. unfold SessionManager.getTask. simpl.
  rewrite get_set_eq. simpl. split_and!; try done.
  intros id Hid. by rewrite get_set_ne.
Qed.

Lemma handleTask_owned_by_sender_witness :
  ExtWebSocket.userId Scenario.ws_u2 = Some "u2" ∧
  ∃ srv' task,
    SessionManager.getTask "id-1" 2000 (Server.sessionManager srv')
    = Some (task, 2000) ∧
    Task.userId task = "u2".
Proof.
  split; [reflexivity|].
  destruct (handleTask_owned_by_sender Scenario.env Scenario.ws_u2
              Scenario.task_frame Scenario.server "u2"
              (<["botId" := "bot_1"]> {["title" := "sweep"]}) 2000)
    as (srv' & task & _ & Hg & _ & Hu & _); [reflexivity|done|reflexivity|].
  by exists srv', task.
Defined.

(** [handleAuth] takes the identity of a socket from the validators only:
    afterwards [ws.userId] is what it was, or the user id
    [validateApiKey] returned for the frame's [apiKey], or (when the frame
    has no [apiKey]) the user id of the payload [validateToken] returned
    for its [token]. *)
Theorem handleAuth_identity c env ws frame srv :
  let ws' := (Server.handleAuth c env ws frame srv).1.1 in
  ExtWebSocket.userId ws' = ExtWebSocket.userId ws ∨
  (∃ d key,
     RawFrame.data frame = Some d ∧ d !! "apiKey" = Some key ∧ key ≠ "" ∧
     AuthService.valid (AuthService.validateApiKey c key (Server.authService srv))
     = true ∧
     Js.truthy (ExtWebSocket.userId ws') = true ∧
     ExtWebSocket.userId ws'
     = AuthService.userId
         (AuthService.validateApiKey c key (Server.authService srv))) ∨
  (∃ d token payload,
     RawFrame.data frame = Some d ∧ Js.truthy (d !! "apiKey") = false ∧
     d !! "token" = Some token ∧
     AuthService.validateToken c token (Server.authService srv) = Some payload ∧
     ExtWebSocket.userId ws' = Some (AuthPayload.userId payload)).
Proof.
  simpl. unfold Server.handleAuth.
  destruct (RawFrame.data frame) as [d|] eqn:Hd; [|by left].
  destruct (Js.truthy (d !! "apiKey")) eqn:Hk.
  - apply JsFacts.truthy_is_Some in Hk as (key & Hkey & Hne). rewrite Hkey. simpl.
    destruct (AuthService.valid _) eqn:Hv; simpl; [|by left].
    destruct (Js.truthy (AuthService.userId _)) eqn:Hu; simpl; [|by left].
    assert (∃ d0 key0,
              Some d = Some d0 ∧ d0 !! "apiKey" = Some key0 ∧ key0 ≠ "" ∧
              AuthService.valid
                (AuthService.validateApiKey c key0 (Server.authService srv)) = true ∧
              Js.truthy
                (AuthService.userId
                   (AuthService.validateApiKey c key0 (Server.authService srv)))
              = true) as Hex by (by exists d, key).
    repeat case_match; simpl; right; left;
      destruct Hex as (d0 & key0 & [= <-] & Hk0 & ? & ? & ?);
      rewrite Hkey in Hk0; injection Hk0 as <-; by exists d, key.
  - destruct (Js.truthy (d !! "token")) eqn:Ht; [|by left].
    apply JsFacts.truthy_is_Some in Ht as (token & Htok & Hne). rewrite Htok. simpl.
    destruct (AuthService.validateToken c token (Server.authService srv))
      as [payload|] eqn:Hp; [|by left].
    repeat case_match; simpl; right; right; by exists d, token, payload.
Qed.

Lemma createSession_lookup c u uuid now st st1 s1 :
  uuid ≠ "" → SessionManager.createSession c u uuid now st = Js.Ok (st1, s1) →
  SessionManager.getSessionByUser u st1 = Some s1 ∧ c ∈ Session.connectionIds s1.
Proof.
  intros Hne H.
  destruct (SessionFacts.createSession_post _ _ _ _ _ _ _ Hne H)
    as (sid & Hsid & Hus & Hg & Hc & _).
  split; [|done]. unfold SessionManager.getSessionByUser. rewrite Hus. simpl.
  by rewrite bool_decide_eq_true_2.
Qed.

(** An [auth_ok] frame is sent only after the connection has been attached
    to a session of the authenticated user: when the reply of [handleAuth]
    has an [auth_ok] frame, the socket has a user id, the session manager
    has a session for that user, and the session holds the connection. *)
Theorem auth_ok_means_attached c env ws frame srv cid f :
  Server.uuid1 env ≠ "" →
  Send cid f ∈ (Server.handleAuth c env ws frame srv).2 →
  WSFrame.type f = "auth_ok" →
  ∃ u s,
    ExtWebSocket.userId (Server.handleAuth c env ws frame srv).1.1 = Some u ∧
    SessionManager.getSessionByUser u
      (Server.sessionManager (Server.handleAuth c env ws frame srv).1.2)
    = Some s ∧
    ExtWebSocket.connectionId ws ∈ Session.connectionIds s.
Proof.
  intros Hne. unfold Server.handleAuth, Server.auth_error, Server.sendFrame.
  repeat case_match; simplify_eq/=; intros Hin Hty;
    repeat (apply elem_of_app in Hin as [Hin|Hin]);
    repeat (apply elem_of_cons in Hin as [Hin|Hin]; [by simplify_eq/=|]);
    try (by apply elem_of_nil in Hin);
    repeat match goal with
    | H : SessionManager.createSession _ _ _ _ _ = Js.Ok _ |- _ =>
        apply (createSession_lookup _ _ _ _ _ _ _ Hne) in H as [? ?]
    end;
    repeat match goal with
    | H : _ || _ = false |- _ => apply orb_false_iff in H as [? ?]
    end;
    repeat match goal with
    | H : negb _ = false |- _ => apply negb_false_iff in H
    end;
    repeat match goal with
    | H : Js.truthy (AuthService.userId ?r) = true |- _ =>
        let Heq := fresh in
        apply JsFacts.truthy_is_Some in H as (? & Heq & ?); rewrite Heq in *
    end;
    simpl in *; eexists _, _; split_and!; eauto.
Qed.

Lemma auth_ok_means_attached_witness :
  Server.uuid1 Scenario.env ≠ "" ∧
  ∃ u s,
    ExtWebSocket.userId
      (Server.handleAuth Scenario.crypto Scenario.env Scenario.ws_new
         Scenario.auth_frame Scenario.server).1.1 = Some u ∧
    SessionManager.getSessionByUser u
      (Server.sessionManager
         (Server.handleAuth Scenario.crypto Scenario.env Scenario.ws_new
            Scenario.auth_frame Scenario.server).1.2) = Some s ∧
    "c3" ∈ Session.connectionIds s.
Proof.
  split; [done|].
  apply (auth_ok_means_attached Scenario.crypto Scenario.env Scenario.ws_new
           Scenario.auth_frame Scenario.server "c3"
           (WSFrame.mk "auth_ok"
              (JObj [("userId", JStr "u1"); ("sessionId", JStr "c3");
                     ("expiresIn", JStr "24h")])
              (Some 1000) (Some "a1")));
    [done| |reflexivity].
  vm_compute. apply list_elem_of_here.
Defined.

(** The session limit counts the authenticating socket itself, and a
    refusal for the limit comes after [ws.userId] has been assigned: when
    a valid key is presented and the user's stored connections (this one
    included) number [max_per_user] or more, the reply is [auth_error]
    ['Maximum concurrent sessions reached'] and no session is created, yet
    the socket is left with the validated user id, so the authentication
    check of later frames passes. *)
Theorem handleAuth_limit_keeps_identity c env ws frame srv d key u perms m :
  RawFrame.data frame = Some d → d !! "apiKey" = Some key → key ≠ "" →
  AuthService.validateApiKey c key (Server.authService srv)
  = AuthService.mkValidation true (Some u) perms →
  u ≠ "" →
  Server.max_per_user (Server.config srv) = Some m →
  m ≤ Z.of_nat
        (List.length
           (Server.getUserConnections (Some u)
              (Server.sync (ExtWebSocket.with_userId (Some u) ws) srv))) →
  let r := Server.handleAuth c env ws frame srv in
  r.2 = Server.auth_error ws "Maximum concurrent sessions reached"
          (Server.now env) (RawFrame.id frame) ∧
  Server.sessionManager r.1.2 = Server.sessionManager srv ∧
  ExtWebSocket.userId r.1.1 = Some u ∧
  Js.truthy (ExtWebSocket.userId r.1.1) = true.
Proof.
  intros Hd Hk Hne Hv Hu Hm Hfull. simpl. unfold Server.handleAuth.
  rewrite Hd, Hk. simpl. rewrite bool_decide_eq_true_2 by done.
  rewrite Hv. simpl. rewrite bool_decide_eq_true_2 by done. simpl.
  destruct (sync_fields (ExtWebSocket.with_userId (Some u) ws) srv)
    as (_ & _ & Hcfg & Hsm & _).
  rewrite Hcfg, Hm. rewrite bool_decide_eq_true_2 by done. simpl.
  rewrite Hsm. split_and!; try done. by rewrite bool_decide_eq_true_2.
Qed.

Lemma handleAuth_limit_keeps_identity_witness :
  Server.max_per_user (Server.config Scenario.strict_server) = Some 1 ∧
  Server.getUserConnections (Some "u1") Scenario.strict_server = [] ∧
  (Server.handleAuth Scenario.crypto Scenario.env Scenario.ws_new
     Scenario.auth_frame Scenario.strict_server).2
  = Server.auth_error Scenario.ws_new "Maximum concurrent sessions reached" 1000
      (Some "a1") ∧
  ExtWebSocket.userId
    (Server.handleAuth Scenario.crypto Scenario.env Scenario.ws_new
       Scenario.auth_frame Scenario.strict_server).1.1 = Some "u1".
Proof.
  split; [reflexivity|]. split; [reflexivity|].
  destruct (handleAuth_limit_keeps_identity Scenario.crypto Scenario.env
              Scenario.ws_new Scenario.auth_frame Scenario.strict_server
              {["apiKey" := "t2b_u1_0123456789abcdefXYZ"]}
              "t2b_u1_0123456789abcdefXYZ" "u1" (Some ["read"; "write"; "bots"]) 1)
    as (H1 & _ & H3 & _);
    [reflexivity|reflexivity|done|reflexivity|done|reflexivity|by vm_compute|].
  split; [exact H1|exact H3].
Defined.

Lemma heartbeat_loop_fresh now timeout cs :
  (∀ k ws, (k, ws) ∈ cs → now - ExtWebSocket.lastActivity ws ≤ timeout) →
  Server.heartbeat_loop now timeout cs
  = (cs,
     omap (λ e : string * ExtWebSocket.t,
             if decide (ExtWebSocket.readyState e.2 = OPEN)
             then Some (Ping (ExtWebSocket.connectionId e.2)) else None) cs).
Proof.
  induction cs as [|[k ws] rest IH]; intros Hf; simpl; [done|].
  rewrite IH by (intros k' ws' Hin; apply (Hf k' ws'); by right).
  unfold Server.heartbeat_one.
  rewrite decide_False by (specialize (Hf k ws (list_elem_of_here _ _)); lia).
  by destruct (decide (ExtWebSocket.readyState ws = OPEN)).
Qed.

(** When no stored connection has been idle for more than the timeout
    (an idle time of exactly the timeout is not more), the heartbeat sweep
    closes nothing and changes nothing: the server state is the same and
    the only effects are the pings of the open sockets, in the order of
    the connections. *)
Theorem heartbeat_all_fresh now srv :
  (∀ k ws, (k, ws) ∈ Server.connections srv →
     now - ExtWebSocket.lastActivity ws
     ≤ Server.timeout (Server.config srv) * 1000) →
  Server.heartbeat now srv
  = (srv,
     omap (λ e : string * ExtWebSocket.t,
             if decide (ExtWebSocket.readyState e.2 = OPEN)
             then Some (Ping (ExtWebSocket.connectionId e.2)) else None)
       (Server.connections srv)).
Proof.
  intros Hf. unfold Server.heartbeat. rewrite heartbeat_loop_fresh by done.
  by destruct srv.
Qed.

Lemma heartbeat_all_fresh_witness :
  Server.heartbeat 300000 Scenario.server
  = (Scenario.server, [Ping "c2"; Ping "c3"]).
Proof.
  refine (eq_trans (heartbeat_all_fresh 300000 Scenario.server _) _);
    [|reflexivity].
  intros k ws Hin. unfold Scenario.server, Server.connections in Hin.
  repeat (apply elem_of_cons in Hin as [[= -> ->]|Hin]; [vm_compute; congruence|]).
  by apply elem_of_nil in Hin.
Defined.

Lemma offline_fold now l : ∀ reg b,
  BotRegistry.bots
    (foldl (λ reg botId, BotRegistry.updateBotStatus botId "offline" now reg) reg l)
    !! b
  = if decide (b ∈ l) then Server.set_offline now <$> BotRegistry.bots reg !! b
    else BotRegistry.bots reg !! b.
Proof.
  induction l as [|a l IH]; intros reg b; simpl.
  - done.
  - rewrite IH.
    assert (BotRegistry.bots (BotRegistry.updateBotStatus a "offline" now reg) !! b
            = if decide (b = a) then Server.set_offline now <$> BotRegistry.bots reg !! b
              else BotRegistry.bots reg !! b) as Hupd.
    { unfold BotRegistry.updateBotStatus.
      destruct (decide (b = a)) as [->|Hne].
      - destruct (BotRegistry.bots reg !! a) as [bot|] eqn:Hb; simpl.
        + by rewrite lookup_insert_eq.
        + by rewrite Hb.
      - destruct (BotRegistry.bots reg !! a) as [bot|] eqn:Hb; simpl; [|done].
        by rewrite lookup_insert_ne. }
    rewrite Hupd.
    destruct (decide (b ∈ a :: l)) as [Hal|Hal];
      destruct (decide (b ∈ l)) as [Hin|Hnin];
      destruct (decide (b = a)) as [->|Hne]; try done.
    + by destruct (BotRegistry.bots reg !! a).
    + apply elem_of_cons in Hal as [?|?]; done.
    + exfalso. apply Hal, elem_of_cons. by right.
    + exfalso. apply Hal, elem_of_cons. by right.
    + exfalso. apply Hal, elem_of_cons. by left.
Qed.

(** [handleDisconnect] removes the socket's entry and no other, detaches
    the connection in the session manager, and sets every bot the socket
    was subscribed to offline, whoever owns it and whoever else is
    subscribed; the other bots are untouched. *)
Theorem handleDisconnect_effect env ws srv :
  let srv' := Server.handleDisconnect env ws srv in
  JsMap.get (ExtWebSocket.connectionId ws) (Server.connections srv') = None ∧
  (∀ k, k ≠ ExtWebSocket.connectionId ws →
     JsMap.get k (Server.connections srv') = JsMap.get k (Server.connections srv)) ∧
  Server.sessionManager srv'
  = SessionManager.endSession (ExtWebSocket.connectionId ws)
      (Server.sessionManager srv) ∧
  (∀ b, BotRegistry.getBot b (Server.botRegistry srv')
        = if decide (b ∈ ExtWebSocket.subscribedBots ws)
          then Server.set_offline (Server.now env)
                 <$> BotRegistry.getBot b (Server.botRegistry srv)
          else BotRegistry.getBot b (Server.botRegistry srv)).
Proof.
  simpl. unfold Server.handleDisconnect. simpl. split_and!.
  - apply get_delete_eq.
  - intros k Hk. by apply get_delete_ne.
  - done.
  - intros b. unfold BotRegistry.getBot. rewrite offline_fold.
    destruct (decide (b ∈ elements (ExtWebSocket.subscribedBots ws))) as [Hin|Hnin].
    + rewrite decide_True; [done|]. by apply elem_of_elements.
    + rewrite decide_False; [done|]. by rewrite <- elem_of_elements.
Qed.

Lemma delete_set_fresh {V} k (v : V) m :
  JsMap.get k m = None → JsMap.delete k (JsMap.set k v m) = m.
Proof.
  induction m as [|[k' v'] r IH]; simpl.
  - by rewrite decide_True.
  - destruct (decide (k' = k)) as [->|Hne]; [done|]. simpl.
    rewrite decide_False by done. intros H. by rewrite IH.
Qed.

(** A connection that opens and closes without authenticating leaves no
    trace: with an unused connection id that no session holds,
    [handleConnection] stores an unauthenticated socket with no
    subscriptions and greets it, and [handleDisconnect] of that socket
    gives back the server state there was before. *)
Theorem connect_then_disconnect env env' userAgent srv :
  JsMap.get (Server.uuid1 env) (Server.connections srv) = None →
  SessionManager.holder (Server.uuid1 env)
    (SessionManager.sessions (Server.sessionManager srv)) = None →
  ∃ ws,
    JsMap.get (Server.uuid1 env)
      (Server.connections (Server.handleConnection env userAgent srv).1) = Some ws ∧
    ExtWebSocket.userId ws = None ∧
    ExtWebSocket.subscribedBots ws = ∅ ∧
    ExtWebSocket.lastActivity ws = Server.now env ∧
    (∃ f, (Server.handleConnection env userAgent srv).2
          = [Send (Server.uuid1 env) f] ∧ WSFrame.type f = "status") ∧
    Server.handleDisconnect env' ws (Server.handleConnection env userAgent srv).1
    = srv.
Proof.
  intros Hfresh Hnone. unfold Server.handleConnection.
  destruct (Server.parseDeviceInfo userAgent) as [platform ua]. simpl.
  eexists. rewrite get_set_eq. split; [reflexivity|]. simpl.
  split_and!; try done.
  - by eexists.
  - unfold Server.handleDisconnect. simpl. rewrite elements_empty. simpl.
    rewrite delete_set_fresh by done.
    unfold SessionManager.endSession. rewrite Hnone. by destruct srv.
Qed.

Lemma connect_then_disconnect_witness :
  JsMap.get "id-1" (Server.connections Scenario.server) = None ∧
  ∃ ws,
    JsMap.get "id-1"
      (Server.connections
         (Server.handleConnection Scenario.env None Scenario.server).1) = Some ws ∧
    Server.handleDisconnect Scenario.env ws
      (Server.handleConnection Scenario.env None Scenario.server).1
    = Scenario.server.
Proof.
  split; [reflexivity|].
  destruct (connect_then_disconnect Scenario.env Scenario.env None Scenario.server
              eq_refl eq_refl) as (ws & Hg & _ & _ & _ & _ & Hd).
  by exists ws.
Defined.

End ServerMore.

(** ** The hardened server: input cleaning, log buffer, rate limiter *)

Module SecureMore.

Lemma elem_of_filter f s a :
  a ∈ list_ascii_of_string (Str.filter f s)
  ↔ a ∈ list_ascii_of_string s ∧ f a = true.
Proof.
  induction s as [|x r IH]; simpl.
  - split; [intros H; by apply elem_of_nil in H|intros [H _]; by apply elem_of_nil in H].
  - destruct (f x) eqn:E; simpl; rewrite ?elem_of_cons, IH.
    + split; [intros [->|[? ?]]; auto|intros [[->|?] ?]; auto].
    + split; [intros [? ?]; auto|intros [[->|?] ?]; [congruence|auto]].
Qed.

Lemma filter_id f s :
  (∀ a, a ∈ list_ascii_of_string s → f a = true) → Str.filter f s = s.
Proof.
  induction s as [|x r IH]; simpl; intros H; [done|].
  rewrite (H x) by apply list_elem_of_here.
  f_equal. apply IH. intros a Ha. apply H. by right.
Qed.

Lemma substring0_length n : ∀ s, (String.length (Str.substring0 n s) ≤ n)%nat.
Proof.
  unfold Str.substring0.
  induction n as [|n IH]; intros [|x r]; simpl; try lia.
  specialize (IH r). lia.
Qed.

Lemma substring0_elem n a : ∀ s,
  a ∈ list_ascii_of_string (Str.substring0 n s) → a ∈ list_ascii_of_string s.
Proof.
  unfold Str.substring0.
  induction n as [|n IH]; intros [|x r]; simpl; intros H;
    try (by apply elem_of_nil in H).
  apply elem_of_cons in H as [->|H]; [left|right; by apply IH].
Qed.

Lemma substring0_id n : ∀ s, (String.length s ≤ n)%nat → Str.substring0 n s = s.
Proof.
  unfold Str.substring0.
  induction n as [|n IH]; intros [|x r]; simpl; intros H; try done; try lia.
  f_equal. apply IH. lia.
Qed.

(** What [sanitize] returns has at most 4096 characters, none of them an
    angle bracket or a control character (codes 0 to 31 and 127), and is
    left as it is by a second [sanitize]. *)
Theorem sanitize_clean (str : option string) :
  (String.length (Secure.sanitize str) ≤ 4096)%nat ∧
  (∀ a, a ∈ list_ascii_of_string (Secure.sanitize str) →
        a ≠ "<"%char ∧ a ≠ ">"%char ∧ (31 < Str.code a)%N ∧ Str.code a ≠ 127%N) ∧
  Secure.sanitize (Some (Secure.sanitize str)) = Secure.sanitize str.
Proof.
  assert (∀ a, a ∈ list_ascii_of_string (Secure.sanitize str) →
            negb (Ascii.eqb a "<" || Ascii.eqb a ">") = true ∧
            negb ((Str.code a <=? 31)%N || (Str.code a =? 127)%N) = true) as Hc.
  { destruct str as [s|]; simpl; [|intros a H; by apply elem_of_nil in H].
    intros a Ha. apply substring0_elem in Ha.
    apply elem_of_filter in Ha as [Ha H2]. apply elem_of_filter in Ha as [_ H1].
    done. }
  assert (String.length (Secure.sanitize str) ≤ 4096)%nat as Hl.
  { destruct str as [s|]; simpl; [apply substring0_length|lia]. }
  split_and!.
  - done.
  - intros a Ha. destruct (Hc a Ha) as [H1 H2].
    apply negb_true_iff, orb_false_iff in H1 as [H1 H1'].
    apply negb_true_iff, orb_false_iff in H2 as [H2 H2'].
    apply Ascii.eqb_neq in H1, H1'.
    apply N.leb_gt in H2. apply N.eqb_neq in H2'. done.
  - generalize dependent (Secure.sanitize str). intros r Hc Hl.
    unfold Secure.sanitize.
    rewrite (filter_id _ r) by (intros a Ha; by apply Hc).
    rewrite (filter_id _ r) by (intros a Ha; by apply Hc).
    by apply substring0_id.
Qed.

Lemma removelast_take {A} (l : list A) :
  removelast l = take (List.length l - 1) l.
Proof.
  induction l as [|x [|y r] IH]; try done.
  change (removelast (x :: y :: r)) with (x :: removelast (y :: r)).
  rewrite IH. simpl. by rewrite Nat.sub_0_r.
Qed.

Lemma log_take now level message data st :
  (List.length (Secure.serverLogs st) ≤ 200)%nat →
  Secure.serverLogs (Secure.log now level message data st)
  = take 200 (Secure.mkLog now level message data :: Secure.serverLogs st).
Proof.
  intros Hl. unfold Secure.log. simpl.
  destruct (decide _) as [Hgt|Hle].
  - rewrite removelast_take. simpl in *.
    destruct (Secure.serverLogs st) as [|y r]; simpl in *; [lia|].
    by replace (List.length r) with 199%nat by lia.
  - simpl in *. rewrite firstn_all2; [done|lia].
Qed.

(** The log buffer holds the newest 200 entries, newest first: starting
    with an empty buffer, after any sequence of [log] calls [serverLogs]
    is the first 200 of the entries in reverse order of the calls. *)
Theorem log_keeps_newest entries st :
  Secure.serverLogs st = [] →
  Secure.serverLogs (Secure.log_all entries st) = take 200 (reverse entries) ∧
  (List.length (Secure.serverLogs (Secure.log_all entries st)) ≤ 200)%nat.
Proof.
  intros H0.
  assert (Secure.serverLogs (Secure.log_all entries st) = take 200 (reverse entries))
    as Heq.
  { induction entries as [|e entries IH] using rev_ind; [done|].
    unfold Secure.log_all in *. rewrite foldl_snoc, reverse_snoc.
    rewrite log_take by (rewrite IH, length_take; lia).
    rewrite IH. destruct e as [ts lv msg d]. simpl. f_equal.
    rewrite take_take. by rewrite Nat.min_l by lia. }
  split; [done|]. rewrite Heq, length_take. lia.
Qed.

Lemma log_keeps_newest_witness :
  Secure.serverLogs
    (Secure.log_all
       [Secure.mkLog 1 "INFO" "first" (JObj []); Secure.mkLog 2 "WARN" "second" (JObj [])]
       Scenario.secure_server)
  = [Secure.mkLog 2 "WARN" "second" (JObj []); Secure.mkLog 1 "INFO" "first" (JObj [])].
Proof.
  exact (proj1 (log_keeps_newest
                  [Secure.mkLog 1 "INFO" "first" (JObj []);
                   Secure.mkLog 2 "WARN" "second" (JObj [])]
                  Scenario.secure_server eq_refl)).
Defined.

Lemma calls_cons now rest userId action st :
  Secure.checkRateLimit_calls (now :: rest) userId action st
  = ((Secure.checkRateLimit_calls rest userId action
        (Secure.checkRateLimit now userId action st).1).1,
     (Secure.checkRateLimit now userId action st).2
     :: (Secure.checkRateLimit_calls rest userId action
           (Secure.checkRateLimit now userId action st).1).2).
Proof.
  cbn [Secure.checkRateLimit_calls].
  destruct (Secure.checkRateLimit now userId action st) as [st1 ok].
  cbn [fst snd].
  by destruct (Secure.checkRateLimit_calls rest userId action st1).
Qed.

Lemma checkRateLimit_inside now userId action st c w :
  Secure.rateLimit st !! (default "null" userId +:+ ":" +:+ action)
  = Some (Secure.mkRate c w) →
  now - w ≤ 60000 →
  Secure.rateLimit (Secure.checkRateLimit now userId action st).1
    !! (default "null" userId +:+ ":" +:+ action)
  = Some (Secure.mkRate (c + 1) w) ∧
  (Secure.checkRateLimit now userId action st).2 = bool_decide (c + 1 ≤ 10).
Proof.
  intros Hr Hw. unfold Secure.checkRateLimit. rewrite Hr. simpl.
  rewrite decide_False by lia. simpl. by rewrite lookup_insert_eq.
Qed.

Lemma checkRateLimit_opens now userId action st :
  match Secure.rateLimit st !! (default "null" userId +:+ ":" +:+ action) with
  | Some r => now - Secure.windowStart r > 60000
  | None => True
  end →
  Secure.rateLimit (Secure.checkRateLimit now userId action st).1
    !! (default "null" userId +:+ ":" +:+ action)
  = Some (Secure.mkRate 1 now) ∧
  (Secure.checkRateLimit now userId action st).2 = true.
Proof.
  intros Hs. unfold Secure.checkRateLimit.
  destruct (Secure.rateLimit st !! _) as [[c w]|]; simpl in *.
  - rewrite decide_True by lia. simpl. by rewrite lookup_insert_eq.
  - rewrite decide_False by lia. simpl. by rewrite lookup_insert_eq.
Qed.

Lemma calls_in_window times userId action : ∀ st c w,
  Secure.rateLimit st !! (default "null" userId +:+ ":" +:+ action)
  = Some (Secure.mkRate c w) →
  (∀ t, t ∈ times → t - w ≤ 60000) →
  (Secure.checkRateLimit_calls times userId action st).2
  = (λ i : nat, bool_decide (c + Z.of_nat i + 1 ≤ 10)) <$> seq 0 (List.length times).
Proof.
  induction times as [|now rest IH]; intros st c w Hr Hw; [done|].
  rewrite calls_cons.
  destruct (checkRateLimit_inside now userId action st c w Hr) as [Hr' Hok].
  { apply Hw, list_elem_of_here. }
  rewrite Hok.
  rewrite (IH _ (c + 1) w Hr') by (intros t Ht; apply Hw; by right).
  cbn [snd List.length seq fmap list_fmap]. f_equal.
  - apply bool_decide_ext. lia.
  - rewrite <- fmap_S_seq, <- list_fmap_compose.
    apply list_fmap_ext. intros i x _. simpl. apply bool_decide_ext. lia.
Qed.

(** The rate limiter allows ten calls per window and key.  When a call at
    [t0] opens a window (no record for the key, or the recorded window
    started more than 60000 ms before [t0]) and the calls after it come no
    later than 60000 ms after [t0], the first ten of these calls are
    allowed and every further one is refused. *)
Theorem checkRateLimit_window t0 rest userId action st :
  match Secure.rateLimit st !! (default "null" userId +:+ ":" +:+ action) with
  | Some r => t0 - Secure.windowStart r > 60000
  | None => True
  end →
  (∀ t, t ∈ rest → t - t0 ≤ 60000) →
  (Secure.checkRateLimit_calls (t0 :: rest) userId action st).2
  = (λ i : nat, bool_decide (i < 10)%nat) <$> seq 0 (S (List.length rest)).
Proof.
  intros Hstart Hw. rewrite calls_cons.
  destruct (checkRateLimit_opens t0 userId action st Hstart) as [Hr Hok].
  rewrite Hok, (calls_in_window rest userId action _ 1 t0 Hr Hw).
  cbn [snd List.length seq fmap list_fmap]. f_equal.
  rewrite <- fmap_S_seq, <- list_fmap_compose.
  apply list_fmap_ext. intros i x _. simpl. apply bool_decide_ext. lia.
Qed.

Lemma checkRateLimit_window_witness :
  (Secure.checkRateLimit_calls [0; 1; 2; 3; 4; 5; 6; 7; 8; 9; 10; 60000]
     (Some "u1") "messages" Scenario.secure_server).2
  = [true; true; true; true; true; true; true; true; true; true; false; false].
Proof.
  refine (eq_trans
            (checkRateLimit_window 0 [1; 2; 3; 4; 5; 6; 7; 8; 9; 10; 60000]
               (Some "u1") "messages" Scenario.secure_server _ _) _);
    [exact I| |reflexivity].
  intros t Ht.
  repeat (apply elem_of_cons in Ht as [->|Ht]; [lia|]).
  by apply elem_of_nil in Ht.
Defined.

Lemma verifyBotOwnership_tasks u b st :
  Secure.tasks (Secure.verifyBotOwnership u b st).1 = Secure.tasks st.
Proof.
  unfold Secure.verifyBotOwnership, Secure.getUserData.
  destruct (Secure.userData st !! u); simpl;
    destruct (Secure.bots st !! b); simpl; try done;
    repeat case_match; done.
Qed.

Lemma verifyBotOwnership_true u b st :
  (Secure.verifyBotOwnership u b st).2 = true →
  (∃ bot, Secure.bots st !! b = Some bot ∧ Secure.SBot.userId bot = u) ∧
  Secure.bots (Secure.verifyBotOwnership u b st).1 = Secure.bots st ∧
  Secure.tasks (Secure.verifyBotOwnership u b st).1 = Secure.tasks st.
Proof.
  unfold Secure.verifyBotOwnership, Secure.getUserData.
  destruct (Secure.userData st !! u) as [ud|]; simpl;
    destruct (Secure.bots st !! b) as [bot|] eqn:Hb; simpl; try done;
    case_bool_decide as Hu; simpl; try done;
    destruct (negb _); simpl; try done; intros _;
    (split; [exists bot; split; [done|]; by destruct (decide (Secure.SBot.userId bot = u))|done]).
Qed.

Lemma verifyBotOwnership_spec u b st :
  (Secure.verifyBotOwnership u b st).2
  = match Secure.bots st !! b with
    | Some bot =>
        bool_decide (Secure.SBot.userId bot = u) &&
        match Secure.userData st !! u with
        | Some ud => JsMap.has b (Secure.ud_bots ud)
        | None => false
        end
    | None => false
    end.
Proof.
  unfold Secure.verifyBotOwnership, Secure.getUserData.
  destruct (Secure.userData st !! u) as [ud|]; simpl;
    destruct (Secure.bots st !! b) as [bot|]; simpl; try done;
    destruct (decide (Secure.SBot.userId bot = u));
    rewrite ?(bool_decide_eq_true_2 (Secure.SBot.userId bot = u)),
      ?(bool_decide_eq_false_2 (Secure.SBot.userId bot = u)),
      ?(bool_decide_eq_true_2 (Secure.SBot.userId bot ≠ u)),
      ?(bool_decide_eq_false_2 (Secure.SBot.userId bot ≠ u)) by tauto;
    simpl; try done; by destruct (JsMap.has _ _).
Qed.

Lemma registerBot_post now uuid userId name type st :
  let r := Secure.registerBot now uuid userId name type st in
  Secure.SBot.id r.2 = "bot_" +:+ Str.substring0 8 uuid ∧
  Secure.SBot.userId r.2 = userId ∧
  Secure.bots r.1 = <["bot_" +:+ Str.substring0 8 uuid := r.2]> (Secure.bots st) ∧
  ∃ ud, Secure.userData r.1 !! userId = Some ud ∧
        JsMap.get ("bot_" +:+ Str.substring0 8 uuid) (Secure.ud_bots ud) = Some r.2.
Proof.
  unfold Secure.registerBot, Secure.getUserData. cbn zeta.
  destruct (Secure.userData _ !! userId) as [ud|] eqn:Hud; cbn [fst snd];
    (split_and!; [done|done|done|]);
    eexists; (split; [apply lookup_insert_eq|]); cbn [Secure.ud_bots];
    apply JsMapFacts.get_set_eq.
Qed.

(** [registerBot] makes the bot its registrant's and nobody else's: in the
    state it leaves, [verifyBotOwnership(u, bot.id)] is true exactly for
    the user the bot was registered for. *)
Theorem registerBot_owner now uuid userId name type st u :
  (Secure.verifyBotOwnership u
     (Secure.SBot.id (Secure.registerBot now uuid userId name type st).2)
     (Secure.registerBot now uuid userId name type st).1).2
  = bool_decide (u = userId).
Proof.
  destruct (registerBot_post now uuid userId name type st)
    as (Hid & Hown & Hbots & (ud & Hud & Hget)).
  rewrite verifyBotOwnership_spec, Hbots, Hid, lookup_insert_eq, Hown.
  destruct (decide (u = userId)) as [->|Hne].
  - rewrite Hud. unfold JsMap.has. rewrite Hget.
    rewrite !bool_decide_eq_true_2; eauto.
  - rewrite (bool_decide_eq_false_2 (userId = u)) by done.
    by rewrite bool_decide_eq_false_2.
Qed.

(** The hardened [handleTask] stores a task only for a bot of the sender:
    a task that is in the store after the call and was not there before
    has the task id of this call, belongs to the socket's user, and names
    a bot that is registered with that user as its owner; its title and
    description went through [sanitize]. *)
Theorem secure_handleTask_only_owned now uuid ws frame st id task :
  Secure.tasks (Secure.handleTask now uuid ws frame st).1 !! id = Some task →
  Secure.tasks st !! id = Some task ∨
  (id = uuid ∧
   ExtWebSocket.userId ws = Some (Secure.STask.userId task) ∧
   Secure.field frame "botId" = Some (Secure.STask.botId task) ∧
   (∃ bot, Secure.bots st !! Secure.STask.botId task = Some bot ∧
           Secure.SBot.userId bot = Secure.STask.userId task) ∧
   Secure.STask.title task = Secure.sanitize (Secure.field frame "title") ∧
   Secure.STask.description task
   = Secure.sanitize (Secure.field frame "description")).
Proof.
  unfold Secure.handleTask.
  destruct (ExtWebSocket.userId ws) as [user|]; [|auto].
  destruct (negb _); [auto|].
  destruct (Secure.field frame "botId") as [botId|]; [|auto].
  destruct (negb _); [auto|].
  pose proof (verifyBotOwnership_true user botId st) as Hv.
  pose proof (verifyBotOwnership_tasks user botId st) as Ht.
  destruct (Secure.verifyBotOwnership user botId st) as [st1 owned].
  simpl in *. destruct owned; simpl.
  - destruct (Hv eq_refl) as ((bot & Hb & Hu) & _ & _).
    unfold Secure.getUserData. simpl.
    destruct (Secure.userData st1 !! user); simpl;
      (destruct (decide (id = uuid)) as [->|Hne];
       [rewrite lookup_insert_eq; intros [= <-]; simpl; right; eauto 10
       |rewrite lookup_insert_ne by done; rewrite Ht; auto]).
  - intros Hl. left. by rewrite <- Ht.
Qed.

Lemma secure_handleTask_only_owned_witness :
  ∃ task bot,
    Secure.tasks
      (Secure.handleTask 1000 "t-1" Scenario.ws_u1 Scenario.task_frame
         Scenario.secure_server).1 !! "t-1" = Some task ∧
    Secure.STask.userId task = "u1" ∧
    Secure.bots Scenario.secure_server !! Secure.STask.botId task = Some bot ∧
    Secure.SBot.userId bot = Secure.STask.userId task.
Proof.
  eexists. 
  destruct (secure_handleTask_only_owned 1000 "t-1" Scenario.ws_u1
              Scenario.task_frame Scenario.secure_server "t-1" _ eq_refl)
    as [Hold|(_ & _ & _ & (bot & Hb & Hu) & _)].
  - by vm_compute in Hold.
  - exists bot. split_and!; [reflexivity|reflexivity|exact Hb|exact Hu].
Defined.

(** The hardened [handleAuth] gives a socket a user id only for that
    user's signed key: when the socket has user [u] after the call and
    did not have it before, the frame's [apiKey] (or, without one, its
    [token]) is the key [generateApiKey] makes for [u] under the server's
    secret, and a session of [u] with the id of this call is stored and
    recorded, with the connection, in the user's data. *)
Theorem secure_handleAuth_sound c now uuid ws frame st u :
  ExtWebSocket.userId (Secure.handleAuth c now uuid ws frame st).1.1 = Some u →
  ExtWebSocket.userId ws ≠ Some u →
  (Secure.field frame "apiKey"
   = Some (SecureKey.generateApiKey c u (Secure.authSecret st)) ∨
   Secure.field frame "token"
   = Some (SecureKey.generateApiKey c u (Secure.authSecret st))) ∧
  Secure.sessions (Secure.handleAuth c now uuid ws frame st).1.2 !! uuid
  = Some (Secure.mkSSession uuid u now now) ∧
  ∃ ud, Secure.userData (Secure.handleAuth c now uuid ws frame st).1.2 !! u
        = Some ud ∧
        uuid ∈ Secure.ud_sessions ud ∧
        ExtWebSocket.id ws ∈ Secure.ud_connections ud.
Proof.
  unfold Secure.handleAuth.
  destruct (SecureKey.validateApiKey c _ (Secure.authSecret st)) as [userId|] eqn:Hv;
    [|simpl; congruence].
  apply AuthFacts.secure_validateApiKey_sound in Hv as (_ & _ & _ & Hkey).
  unfold Secure.getUserData.
  destruct (Secure.userData st !! userId) as [ud|] eqn:Hud; simpl;
    intros [= ->] _; rewrite !lookup_insert_eq;
    (split_and!;
     [destruct (Js.truthy (Secure.field frame "apiKey")); auto
     |done
     |eexists; split; [done|]; simpl; split; set_solver]).
Qed.

Lemma secure_handleAuth_sound_witness :
  ExtWebSocket.userId
    (Secure.handleAuth Scenario.crypto 1000 "s-1" Scenario.ws_new
       Scenario.signed_auth_frame Scenario.signed_server).1.1 = Some "u1" ∧
  Secure.sessions
    (Secure.handleAuth Scenario.crypto 1000 "s-1" Scenario.ws_new
       Scenario.signed_auth_frame Scenario.signed_server).1.2 !! "s-1"
  = Some (Secure.mkSSession "s-1" "u1" 1000 1000).
Proof.
  split; [reflexivity|].
  refine (proj1 (proj2 (secure_handleAuth_sound Scenario.crypto 1000 "s-1"
                          Scenario.ws_new Scenario.signed_auth_frame
                          Scenario.signed_server "u1" _ _)));
    [reflexivity|done].
Defined.

End SecureMore.

(** ** API keys: the signed keys of server-secure.js and the key store of
    the auth service *)

Module KeyFacts.

Lemma split_app sep a b :
  Str.split sep (a +:+ String sep b) = Str.split sep a ++ Str.split sep b.
Proof.
  induction a as [|x a IH].
  - change ("" +:+ String sep b) with (String sep b). simpl.
    by rewrite Ascii.eqb_refl.
  - change (String x a +:+ String sep b) with (String x (a +:+ String sep b)).
    simpl. rewrite IH. destruct (Ascii.eqb x sep); [done|].
    destruct (Str.split sep a) as [|h t] eqn:E; [by apply AuthFacts.split_nonempty in E|].
    done.
Qed.

Lemma prefix_empty s : String.prefix "" s = true.
Proof. by destruct s. Qed.

Lemma includes_char sep s :
  Str.includes (String sep "") s = false ↔ Str.split sep s = [s].
Proof.
  induction s as [|x r IH]; simpl; [done|].
  destruct (Ascii.ascii_dec sep x) as [->|Hne].
  - rewrite prefix_empty, Ascii.eqb_refl. simpl. split; [done|].
    intros [= ?].
  - simpl. rewrite IH. destruct (Ascii.eqb x sep) eqn:E.
    { apply Ascii.eqb_eq in E. congruence. }
    destruct (Str.split sep r) as [|h t] eqn:Hs;
      [by apply AuthFacts.split_nonempty in Hs|].
    split; [by intros [= -> ->]|by intros [= -> ->]].
Qed.

Lemma split_one sep s :
  List.length (Str.split sep s) = 1%nat → Str.split sep s = [s].
Proof.
  intros Hl. pose proof (AuthFacts.join_split sep s) as Hj.
  destruct (Str.split sep s) as [|p [|q t]]; simpl in *; try done.
  by subst.
Qed.

(** Whether the signed key made for a user is accepted depends on the user
    id alone.  With a signature of sixteen characters without ['_'] (as
    the hexadecimal digest gives), [validateApiKey] returns the user id
    for the key that [generateApiKey] made for it, unless the user id is
    empty or contains ['_']: the key of such a user splits into the wrong
    parts and is refused. *)
Theorem secure_key_round_trip c secret userId :
  String.length (SecureKey.signature_of c userId secret) = 16%nat →
  Str.includes "_" (SecureKey.signature_of c userId secret) = false →
  SecureKey.validateApiKey c (Some (SecureKey.generateApiKey c userId secret)) secret
  = if Str.includes "_" userId || bool_decide (userId = "") then None
    else Some userId.
Proof.
  intros Hlen Hsig. apply includes_char in Hsig.
  assert (Str.split "_" (SecureKey.generateApiKey c userId secret)
          = "t2b" :: Str.split "_" userId ++ [SecureKey.signature_of c userId secret])
    as Hsplit.
  { unfold SecureKey.generateApiKey.
    change ("t2b_" +:+ userId +:+ "_" +:+ SecureKey.signature_of c userId secret)
      with ("t2b" +:+ String "_" (userId +:+ String "_"
              (SecureKey.signature_of c userId secret))).
    by rewrite !split_app, Hsig. }
  destruct (Str.includes "_" userId) eqn:Hinc.
  - cbn [orb]. unfold SecureKey.validateApiKey.
    destruct (negb _); [done|]. rewrite Hsplit.
    destruct (Str.split "_" userId) as [|p [|q t]] eqn:Hs.
    + by apply AuthFacts.split_nonempty in Hs.
    + assert (Str.split "_" userId = [userId]) as Hone
        by (apply split_one; by rewrite Hs).
      apply includes_char in Hone. congruence.
    + by destruct t.
  - apply includes_char in Hinc. cbn [orb].
    case_bool_decide as Hu.
    + subst userId. unfold SecureKey.validateApiKey.
      destruct (negb _); [done|]. rewrite Hsplit. reflexivity.
    + by apply AuthFacts.secure_validateApiKey_complete.
Qed.

Lemma secure_key_round_trip_witness :
  SecureKey.generateApiKey Scenario.crypto "u1" "secret-0123456789"
  = "t2b_u1_u1:secret-012345" ∧
  SecureKey.validateApiKey Scenario.crypto (Some "t2b_u1_u1:secret-012345")
    "secret-0123456789" = Some "u1".
Proof.
  split; [reflexivity|].
  exact (secure_key_round_trip Scenario.crypto "secret-0123456789" "u1"
           eq_refl eq_refl).
Defined.

(** A key made by [generateApiKey] of the auth service is accepted by
    [validateApiKey], with the user and the permissions it was made for,
    exactly when the random part has at least twelve characters; a shorter
    key is refused for its length although it is stored.  [getApiKeyInfo]
    returns the name and the permissions in both cases. *)
Theorem generateApiKey_then_validate c hex userId name permissions svc :
  let r := AuthService.generateApiKey c hex userId name permissions svc in
  r.2 = "t2b_" +:+ hex ∧
  AuthService.validateApiKey c r.2 r.1
  = (if bool_decide (12 ≤ String.length hex)%nat
     then AuthService.mkValidation true (Some userId) (Some permissions)
     else AuthService.mkValidation false None None) ∧
  AuthService.getApiKeyInfo c r.2 r.1 = Some (name, permissions).
Proof.
  cbv zeta. pose (key := "t2b_" +:+ hex).
  change (AuthService.generateApiKey c hex userId name permissions svc)
    with (AuthService.mk (AuthService.jwt_secret svc) (AuthService.jwt_expiry svc)
            (<[AuthService.hashKey c key
               := AuthService.mkStoredKey userId permissions name]>
               (AuthService.apiKeys svc)),
          key).
  cbn [fst snd].
  assert (String.length key = 4 + String.length hex)%nat as Hlen by reflexivity.
  assert (key ≠ "") as Hne by done.
  split; [done|]. clearbody key. split.
  - unfold AuthService.validateApiKey. cbn [AuthService.apiKeys].
    unfold Js.truthy. rewrite (bool_decide_eq_true_2 _ Hne), lookup_insert_eq.
    cbn [negb orb]. rewrite Hlen.
    case_bool_decide as H16; case_bool_decide as H12; try lia; done.
  - unfold AuthService.getApiKeyInfo. cbn [AuthService.apiKeys].
    by rewrite lookup_insert_eq.
Qed.

Lemma extract_generated hex :
  Str.includes "_" hex = false →
  AuthService.extractUserIdFromKey ("t2b_" +:+ hex) = None.
Proof.
  intros Hh. apply includes_char in Hh.
  assert (Str.split "_" ("t2b_" +:+ hex) = ["t2b"; hex]) as Hs.
  { change ("t2b_" +:+ hex) with ("t2b" +:+ String "_" hex).
    by rewrite split_app, Hh. }
  generalize dependent ("t2b_" +:+ hex). intros key Hs.
  unfold AuthService.extractUserIdFromKey. by rewrite Hs.
Qed.

(** Revoking a generated key makes it useless: when the random part has no
    ['_'] (it is hexadecimal), after [generateApiKey] and [revokeApiKey]
    of the key, [revokeApiKey] has answered [true], [validateApiKey]
    refuses the key and [getApiKeyInfo] knows nothing of it. *)
Theorem revoke_generated_key c hex userId name permissions svc :
  Str.includes "_" hex = false →
  let g := AuthService.generateApiKey c hex userId name permissions svc in
  let r := AuthService.revokeApiKey c g.2 g.1 in
  r.2 = true ∧
  AuthService.validateApiKey c g.2 r.1 = AuthService.mkValidation false None None ∧
  AuthService.getApiKeyInfo c g.2 r.1 = None.
Proof.
  intros Hh. cbv zeta. pose proof (extract_generated hex Hh) as He.
  change (AuthService.generateApiKey c hex userId name permissions svc)
    with (AuthService.mk (AuthService.jwt_secret svc) (AuthService.jwt_expiry svc)
            (<[AuthService.hashKey c ("t2b_" +:+ hex)
               := AuthService.mkStoredKey userId permissions name]>
               (AuthService.apiKeys svc)),
          "t2b_" +:+ hex).
  cbn [fst snd].
  generalize dependent ("t2b_" +:+ hex). intros key He.
  unfold AuthService.revokeApiKey. cbn [fst snd AuthService.apiKeys]. split_and!.
  - rewrite lookup_insert_eq. by rewrite bool_decide_eq_true_2 by eauto.
  - unfold AuthService.validateApiKey. cbn [AuthService.apiKeys].
    rewrite lookup_delete_eq, He. simpl. by repeat case_match.
  - unfold AuthService.getApiKeyInfo. cbn [AuthService.apiKeys].
    by rewrite lookup_delete_eq.
Qed.

Lemma revoke_generated_key_witness :
  AuthService.validateApiKey Scenario.crypto "t2b_0123456789abcdef0123456789abcdef"
    (AuthService.revokeApiKey Scenario.crypto "t2b_0123456789abcdef0123456789abcdef"
       (AuthService.generateApiKey Scenario.crypto "0123456789abcdef0123456789abcdef"
          "u1" "laptop" ["read"; "write"] (AuthService.mk "secret" "24h" ∅)).1).1
  = AuthService.mkValidation false None None.
Proof.
  exact (proj1 (proj2 (revoke_generated_key Scenario.crypto
                         "0123456789abcdef0123456789abcdef" "u1" "laptop"
                         ["read"; "write"] (AuthService.mk "secret" "24h" ∅)
                         eq_refl))).
Defined.

(** Revocation does not reach the development pattern: a key that starts
    with ['t2b_'], has at least 24 characters and a non-empty second
    ['_']-separated part among at least three is still accepted after
    [revokeApiKey] of that key, for the user named in the key and with the
    permissions ['read'], ['write'], ['bots'], whatever was stored for
    it. *)
Theorem revoked_pattern_key_accepted c key svc u :
  Str.startsWith "t2b_" key = true →
  (24 ≤ String.length key)%nat →
  AuthService.extractUserIdFromKey key = Some u → u ≠ "" →
  AuthService.validateApiKey c key (AuthService.revokeApiKey c key svc).1
  = AuthService.mkValidation true (Some u) (Some ["read"; "write"; "bots"]) ∧
  AuthService.getApiKeyInfo c key (AuthService.revokeApiKey c key svc).1 = None.
Proof.
  intros Hp Hl He Hu. split.
  - unfold AuthService.validateApiKey, AuthService.revokeApiKey. simpl.
    rewrite lookup_delete_eq, Hp, He.
    assert (key ≠ "") as Hk by (intros ->; simpl in Hl; lia).
    unfold Js.truthy. rewrite (bool_decide_eq_true_2 _ Hk).
    rewrite (bool_decide_eq_true_2 _ Hl), (bool_decide_eq_true_2 _ Hu).
    rewrite bool_decide_eq_false_2 by lia. done.
  - unfold AuthService.getApiKeyInfo, AuthService.revokeApiKey. simpl.
    by rewrite lookup_delete_eq.
Qed.

Lemma revoked_pattern_key_accepted_witness :
  AuthService.validateApiKey Scenario.crypto "t2b_u1_0123456789abcdefXYZ"
    (AuthService.revokeApiKey Scenario.crypto "t2b_u1_0123456789abcdefXYZ"
       (AuthService.generateApiKey Scenario.crypto "u1_0123456789abcdefXYZ"
          "u9" "laptop" ["read"] (AuthService.mk "secret" "24h" ∅)).1).1
  = AuthService.mkValidation true (Some "u1") (Some ["read"; "write"; "bots"]).
Proof.
  refine (proj1 (revoked_pattern_key_accepted Scenario.crypto
                   "t2b_u1_0123456789abcdefXYZ" _ "u1" eq_refl _ eq_refl _));
    [vm_compute; lia|done].
Defined.

End KeyFacts.

(** ** Tunnel manager: stopping, isolation of providers, captured URLs *)

Module TunnelMore.
Import TunnelManager.

(** [stop] ends the provider's tunnel and nothing else, and only when the
    signal could be sent.  The entry and the status of every other
    provider and the configuration are as before in every case, and the
    only thing done to the outside is at most one call of [process.kill]
    with ['SIGTERM'] for the process id of the provider's tunnel.  When
    the call returns, the provider's status is not running.  When
    [process.kill] throws (the child is gone), [stop] fails with that
    error before the entry is deleted: the manager is as it was and the
    tunnel is still reported as running; and it does throw whenever
    [process.kill] does for an active tunnel with a process id. *)
Theorem stop_effect kill_error provider st :
  let r := stop kill_error provider st in
  (∀ q, q ≠ provider →
     activeTunnels r.1.2 !! q = activeTunnels st !! q ∧
     getStatus q r.1.2 = getStatus q st) ∧
  config r.1.2 = config st ∧
  (∀ e, e ∈ r.2 →
     ∃ tunnel p, activeTunnels st !! provider = Some tunnel ∧
                 pid (tp_process tunnel) = Some p ∧ p ≠ 0 ∧
                 r.2 = [Kill p "SIGTERM"]) ∧
  (r.1.1 = Js.Ok () →
     getStatus provider r.1.2 = mkStatus provider false None (Some 0) None) ∧
  (∀ e, r.1.1 = Js.Throw e →
     kill_error = Some e ∧ r.1.2 = st ∧
     s_running (getStatus provider r.1.2) = true) ∧
  (∀ tunnel p e,
     activeTunnels st !! provider = Some tunnel →
     pid (tp_process tunnel) = Some p → p ≠ 0 → kill_error = Some e →
     r.1.1 = Js.Throw e).
Proof.
  cbv zeta. unfold stop.
  destruct (activeTunnels st !! provider) as [tunnel|] eqn:Ht.
  - assert (∀ q, q ≠ provider →
              activeTunnels (mk (config st) (delete provider (activeTunnels st))) !! q
              = activeTunnels st !! q ∧
              getStatus q (mk (config st) (delete provider (activeTunnels st)))
              = getStatus q st) as Hother.
    { intros q Hq. unfold getStatus. simpl. by rewrite lookup_delete_ne. }
    assert (getStatus provider (mk (config st) (delete provider (activeTunnels st)))
            = mkStatus provider false None (Some 0) None) as Hoff.
    { unfold getStatus. simpl. by rewrite lookup_delete_eq. }
    assert (s_running (getStatus provider st) = true) as Hon.
    { unfold getStatus. by rewrite Ht. }
    destruct (pid (tp_process tunnel)) as [p|] eqn:Hp.
    + case_bool_decide as Hz.
      * destruct kill_error as [e|]; simpl.
        -- split_and!; try done.
           ++ intros e' _. exists tunnel, p. by rewrite Hp.
           ++ by intros e' [= ->].
           ++ by intros t' p' e' _ _ _ [= ->].
        -- split_and!; try done.
           intros e' _. exists tunnel, p. by rewrite Hp.
      * simpl. split_and!; try done.
        -- intros e He. by apply elem_of_nil in He.
        -- intros t' p' e' [= <-]. rewrite Hp. by intros [= <-].
    + simpl. split_and!; try done.
      * intros e He. by apply elem_of_nil in He.
      * intros t' p' e' [= <-]. by rewrite Hp.
  - simpl. split_and!; try done.
    + intros e He. by apply elem_of_nil in He.
    + intros _. unfold getStatus. by rewrite Ht.
Qed.

(** The providers do not disturb each other: whatever a call of [start]
    for one provider does before it settles (return the running instance,
    spawn and register, fail, lose its entry to a ['close'] of the child),
    the entry and the status of every other provider and the configuration
    are then as they were. *)
Theorem start_other_providers_untouched env provider customConfig st q r st' eff :
  q ≠ provider →
  start env provider customConfig st = Settled (r, st', eff) →
  activeTunnels st' !! q = activeTunnels st !! q ∧
  getStatus q st' = getStatus q st ∧
  config st' = config st.
Proof.
  intros Hq Hs.
  assert (activeTunnels st' !! q = activeTunnels st !! q ∧ config st' = config st)
    as [H1 H2].
  { revert Hs. unfold start.
    destruct (activeTunnels st !! provider); [by intros [= _ <- _]|].
    repeat case_bool_decide; subst.
    - unfold startFrpTunnel.
      destruct (generateFrpConfig _ _); [|by intros [= _ <- _]].
      rewrite TunnelFacts.wait_listening. destruct (_ || _); intros [= _ <- _]; simpl.
      + by rewrite TunnelFacts.handled_other, TunnelFacts.handled_config.
      + by rewrite lookup_insert_ne, TunnelFacts.handled_other,
          TunnelFacts.handled_config.
    - unfold startTailscaleTunnel.
      destruct (check env) as [code| |]; try by intros [= _ <- _].
      case_bool_decide; [by intros [= _ <- _]|].
      rewrite TunnelFacts.wait_no_listener.
      destruct (spawn_error (events env)); [done|]. intros [= _ <- _]. simpl.
      by rewrite lookup_insert_ne, TunnelFacts.handled_other,
        TunnelFacts.handled_config.
    - unfold startTunneltoTunnel.
      destruct (credentials _); [|by intros [= _ <- _]].
      rewrite TunnelFacts.wait_no_listener.
      destruct (spawn_error (events env)); [done|]. intros [= _ <- _]. simpl.
      by rewrite lookup_insert_ne, TunnelFacts.handled_other,
        TunnelFacts.handled_config.
    - by intros [= _ <- _]. }
  split_and!; try done. unfold getStatus. by rewrite H1.
Qed.

Lemma start_other_providers_untouched_witness :
  is_Some (activeTunnels Scenario.manager_frp !! "frp") ∧
  ∃ status st2 eff2,
    start Scenario.crashed_run "tunnelto" None Scenario.manager_frp
    = Settled (Js.Ok status, st2, eff2) ∧
    activeTunnels st2 !! "frp" = activeTunnels Scenario.manager_frp !! "frp".
Proof.
  split; [vm_compute; eauto|].
  destruct (start Scenario.crashed_run "tunnelto" None Scenario.manager_frp)
    as [[[[status|e] st2] eff2]|e eff] eqn:Hs;
    [|by vm_compute in Hs|by vm_compute in Hs].
  exists status, st2, eff2. split; [reflexivity|].
  exact (proj1 (start_other_providers_untouched Scenario.crashed_run "tunnelto"
                  None Scenario.manager_frp "frp" _ st2 eff2 ltac:(done) Hs)).
Defined.

(** The Tailscale provider stands or falls with the probe and the spawn,
    not with what the child does afterwards.  With no instance active:
    - when [tailscale status] closes with code 0 and [tailscale serve] can
      be spawned, [start] registers the instance and reports it running at
      [https://<dns_name>.tailnet.ts.net<serve_path>] whatever the child
      does while the manager waits (exit with any code, signal, close);
    - when the probe closes with code 0 and [tailscale serve] cannot be
      spawned, its ['error'] event finds no listener: [start] does not
      settle, the error is an uncaught exception of the process;
    - when the probe ends in any other way, [start] throws, leaves the
      manager as it was and does not spawn [tailscale serve]. *)
Theorem start_tailscale_outcome env customConfig st :
  activeTunnels st !! "tailscale" = None →
  let cfg := buildConfig "tailscale" customConfig st in
  let url :=
    "https://" +:+ tailscale_dns_name (config st) +:+ ".tailnet.ts.net" +:+
    tailscale_serve_path (config st) in
  let eff :=
    [Spawn "tailscale" ["status"];
     Spawn "tailscale"
       ["serve"; "--bg"; "--yes"; "--https"; "443"; "--to";
        "localhost:" +:+ show_port (localPort cfg) +:+
        tailscale_serve_path (config st)]] in
  (check env = CheckClosed (Some 0) → spawn_error (events env) = None →
     ∃ st',
       start env "tailscale" customConfig st
       = Settled
           (Js.Ok (mkStatus "tailscale" true (Some url) (localPort cfg)
                     (Some (later env))),
            st', eff) ∧
       getStatus "tailscale" st'
       = mkStatus "tailscale" true (Some url) (localPort cfg) (Some (now env))) ∧
  (check env = CheckClosed (Some 0) →
     ∀ e, spawn_error (events env) = Some e →
          start env "tailscale" customConfig st = Uncaught e eff) ∧
  (check env ≠ CheckClosed (Some 0) →
     ∃ e eff',
       start env "tailscale" customConfig st = Settled (Js.Throw e, st, eff') ∧
       ∀ args, Spawn "tailscale" ("serve" :: args) ∉ eff').
Proof.
  intros Hnone. cbv zeta. unfold start. rewrite Hnone.
  rewrite (bool_decide_eq_false_2 ("tailscale" = "frp")) by done.
  rewrite bool_decide_eq_true_2 by done.
  unfold startTailscaleTunnel.
  assert (∀ evs u, scanned (λ _ : string, None) evs u = u) as Hsc.
  { intros evs u. unfold scanned.
    by induction (stdout_chunks evs) as [|ch rest IH]. }
  split_and!.
  - intros -> Herr. rewrite bool_decide_eq_false_2 by (intros H; by apply H).
    rewrite TunnelFacts.wait_no_listener, Herr.
    eexists. split; [by rewrite TunnelFacts.handled_publicUrl, Hsc|].
    unfold getStatus. simpl. rewrite lookup_insert_eq. simpl.
    done.
  - intros -> e Herr. rewrite bool_decide_eq_false_2 by (intros H; by apply H).
    by rewrite TunnelFacts.wait_no_listener, Herr.
  - intros Hc. destruct (check env) as [code| |].
    + rewrite bool_decide_eq_true_2 by congruence.
      eexists _, _. split; [done|]. intros args Hin.
      apply elem_of_cons in Hin as [[=]|Hin]. by apply elem_of_nil in Hin.
    + eexists _, _. split; [done|]. intros args Hin.
      apply elem_of_cons in Hin as [[=]|Hin]. by apply elem_of_nil in Hin.
    + eexists _, _. split; [done|]. intros args Hin.
      apply elem_of_cons in Hin as [[=]|Hin].
      apply elem_of_cons in Hin as [[=]|Hin]. by apply elem_of_nil in Hin.
Qed.

Lemma start_tailscale_outcome_witness :
  exit_code (events Scenario.crashed_run) = Some 1 ∧
  (∃ st' eff,
     start Scenario.crashed_run "tailscale" None Scenario.manager
     = Settled
         (Js.Ok (mkStatus "tailscale" true (Some "https://gateway.tailnet.ts.net/")
                   (Some 3000) (Some 3000)),
          st', eff)) ∧
  ∃ eff,
    start Scenario.failed_spawn_run "tailscale" None Scenario.manager
    = Uncaught "spawn ENOENT" eff.
Proof.
  split; [reflexivity|]. split.
  - destruct (proj1 (start_tailscale_outcome Scenario.crashed_run None
                       Scenario.manager eq_refl) eq_refl eq_refl)
      as (st' & Hr & _).
    eexists st', _. exact Hr.
  - eexists.
    exact (proj1 (proj2 (start_tailscale_outcome Scenario.failed_spawn_run None
                           Scenario.manager eq_refl))
             eq_refl "spawn ENOENT" eq_refl).
Defined.

End TunnelMore.
